(** * SignalFlow agent layer: a shallow embedding and its properties

    The development follows the Python sources of the agent layer
    ([agents/core/types.py], [agents/core/base.py], [agents/core/factory.py],
    [agents/tools/base.py], [agents/workflows/engine.py] and
    [agents/implementations/strategy_analyzer.py]).

    Python data is embedded as follows: [str] is [string] (the bytes of its
    UTF-8 encoding), [int] is [Z], a finite [float] is the rational it
    denotes ([Q]; ordered comparisons of finite numbers are exact in Python,
    so [>=] on them is [Qle_bool]), [dict] with string keys is
    [gmap string _], [list] is [list].  Exceptions that derive from
    [Exception] are values of type [exception]; a call that may raise one
    returns a [Result].  An [async] method is a function of the [World]; at
    each of its [await]s the task may be cancelled, in which case
    [asyncio.CancelledError], which does not derive from [Exception], ends
    the method: its [Outcome] is then [Cancelled]. *)

From Stdlib Require Import QArith Ascii DecimalString.
From stdpp Require Import gmap strings list.

Set Warnings "-register-all".
Local Open Scope string_scope.
Local Open Scope Z_scope.
Local Open Scope list_scope.

(** ** Python string primitives *)

Module PyStr.

(** [strip_prefix p s] is the rest of [s] after its prefix [p], if any. *)
Fixpoint strip_prefix (p s : string) : option string :=
  match p with
  | EmptyString => Some s
  | String a p' =>
      match s with
      | EmptyString => None
      | String b s' => if Ascii.eqb a b then strip_prefix p' s' else None
      end
  end.

(** [str.partition(sep)]: the text before and after the first (leftmost)
    occurrence of [sep]; [None] when [sep] does not occur. *)
Fixpoint partition (sep s : string) : option (string * string) :=
  match strip_prefix sep s with
  | Some rest => Some (EmptyString, rest)
  | None =>
      match s with
      | EmptyString => None
      | String c s' =>
          match partition sep s' with
          | Some (a, b) => Some (String c a, b)
          | None => None
          end
      end
  end.

(** [sub in s]. *)
Definition str_in (sub s : string) : bool :=
  match partition sub s with Some _ => true | None => false end.

(** [s.split(sep)] for a non-empty [sep]: cut at every occurrence, found
    from the left and not overlapping.  The fuel bounds the number of
    cuts; [String.length s] is enough since each cut consumes [sep]. *)
Fixpoint split_fuel (n : nat) (sep s : string) : list string :=
  match n with
  | O => [s]
  | S n' =>
      match partition sep s with
      | None => [s]
      | Some (a, b) => a :: split_fuel n' sep b
      end
  end.

Definition split (sep s : string) : list string :=
  split_fuel (String.length s) sep s.

(** The number of bytes of the UTF-8 character that starts with [c]. *)
Definition utf8_width (c : ascii) : nat :=
  let n := nat_of_ascii c in
  if (n <? 128)%nat then 1%nat
  else if (n <? 224)%nat then 2%nat
  else if (n <? 240)%nat then 3%nat
  else 4%nat.

Fixpoint take_bytes (n : nat) (s : string) : string * string :=
  match n, s with
  | S n', String c s' => let (a, b) := take_bytes n' s' in (String c a, b)
  | _, _ => (EmptyString, s)
  end.

Fixpoint utf8_chars_fuel (fuel : nat) (s : string) : list string :=
  match fuel, s with
  | S fuel', String c _ =>
      let (ch, rest) := take_bytes (utf8_width c) s in
      ch :: utf8_chars_fuel fuel' rest
  | _, _ => []
  end.

(** The characters of a string, which the embedding holds as UTF-8 bytes. *)
Definition utf8_chars (s : string) : list string :=
  utf8_chars_fuel (String.length s) s.

Definition bytes (l : list nat) : list ascii := List.map ascii_of_nat l.

(** The characters that [str.strip()] removes, each as the bytes of its
    UTF-8 encoding: U+0009 to U+000D, U+001C to U+0020, U+0085, U+00A0,
    U+1680, U+2000 to U+200A, U+2028, U+2029, U+202F, U+205F and U+3000. *)
Definition whitespace : list (list ascii) :=
  (List.map (fun n => bytes [n]) [9; 10; 11; 12; 13; 28; 29; 30; 31; 32]
   ++ List.map bytes [[194; 133]; [194; 160]; [225; 154; 128]]
   ++ List.map (fun n => bytes [226; 128; n])
        [128; 129; 130; 131; 132; 133; 134; 135; 136; 137; 138; 168; 169; 175]
   ++ List.map bytes [[226; 129; 159]; [227; 128; 128]])%nat.

Fixpoint drop_prefix (p l : list ascii) : option (list ascii) :=
  match p with
  | [] => Some l
  | a :: p' =>
      match l with
      | [] => None
      | b :: l' => if Ascii.eqb a b then drop_prefix p' l' else None
      end
  end.

(** [l] without the character of [chars] it begins with, if any. *)
Fixpoint drop_first (chars : list (list ascii)) (l : list ascii) : option (list ascii) :=
  match chars with
  | [] => None
  | p :: chars' =>
      match drop_prefix p l with
      | Some rest => Some rest
      | None => drop_first chars' l
      end
  end.

(** Drops leading characters of [chars]; each round drops one, so the
    length of the text is enough fuel. *)
Fixpoint drop_leading (fuel : nat) (chars : list (list ascii)) (l : list ascii)
  : list ascii :=
  match fuel with
  | O => l
  | S fuel' =>
      match drop_first chars l with
      | Some rest => drop_leading fuel' chars rest
      | None => l
      end
  end.

Definition lstrip (s : string) : string :=
  let l := String.list_ascii_of_string s in
  String.string_of_list_ascii (drop_leading (List.length l) whitespace l).

(** [rstrip] is [lstrip] read from the end: a byte sequence that encodes a
    white-space character ends the text only as that character, since its
    first byte starts a character. *)
Definition rstrip (s : string) : string :=
  let l := List.rev (String.list_ascii_of_string s) in
  String.string_of_list_ascii
    (List.rev (drop_leading (List.length l) (List.map (@List.rev ascii) whitespace) l)).

Definition strip (s : string) : string := rstrip (lstrip s).

(** [dq s] is [s] with every ['] turned into a double quote: the texts of
    this file that contain double quotes are written with it. *)
Fixpoint dq (s : string) : string :=
  match s with
  | EmptyString => EmptyString
  | String c s' => String (if Ascii.eqb c "'" then "034"%char else c) (dq s')
  end.

End PyStr.

Import PyStr.

(** ** Python data values *)

(** The values that travel through the agent layer as [Any]: what
    [json.loads] produces, and what agents, tools and workflow nodes put in
    the shared state. *)
Inductive pyval : Type :=
| VNone
| VBool (b : bool)
| VInt (z : Z)
| VFloat (q : Q)
| VStr (s : string)
| VList (l : list pyval)
| VDict (d : gmap string pyval).

Abbreviation pydict := (gmap string pyval).

(** [type(v).__name__], as the messages of Python's errors show it. *)
Definition type_name (v : pyval) : string :=
  match v with
  | VNone => "NoneType"
  | VBool _ => "bool"
  | VInt _ => "int"
  | VFloat _ => "float"
  | VStr _ => "str"
  | VList _ => "list"
  | VDict _ => "dict"
  end.

(** ** agents/core/types.py *)

Inductive AgentType : Set :=
| STRATEGY_ANALYZER | RISK_ASSESSOR | SIGNAL_GENERATOR
| DATA_COLLECTOR | DATA_ANALYZER
| ORCHESTRATOR | SUPERVISOR
| TECHNICAL_ANALYST | FUNDAMENTAL_ANALYST | SENTIMENT_ANALYST | NEWS_ANALYST.

(** [AgentStatus]; its member [TIMEOUT] is [TIMEOUT_STATUS] here, the name
    being taken by the error code. *)
Inductive AgentStatus : Set :=
| IDLE | RUNNING | WAITING | COMPLETED | FAILED | TIMEOUT_STATUS.

Inductive DecisionType : Set := BUY | SELL | HOLD | OBSERVE | ALERT.

Inductive ConfidenceLevel : Set := VERY_HIGH | HIGH | MEDIUM | LOW | VERY_LOW.

Inductive AgentErrorCode : Set :=
| AGENT_NOT_FOUND | AGENT_INITIALIZATION_FAILED | EXECUTION_FAILED
| TOOL_EXECUTION_FAILED | LLM_ERROR | TIMEOUT | MAX_ITERATIONS_EXCEEDED
| INVALID_INPUT | INVALID_OUTPUT | WORKFLOW_ERROR.

#[global] Instance AgentType_eq_dec : EqDecision AgentType.
Proof. solve_decision. Defined.
#[global] Instance AgentStatus_eq_dec : EqDecision AgentStatus.
Proof. solve_decision. Defined.
#[global] Instance AgentErrorCode_eq_dec : EqDecision AgentErrorCode.
Proof. solve_decision. Defined.

(** The exceptions that derive from [Exception].  [AgentError] carries its
    code, its message (what [str] returns), the raising agent and the
    exception it was raised [from]; [PyError] is an instance of any other
    subclass of [Exception], with the name of its class and its [str].
    [asyncio.CancelledError] derives from [BaseException] only and is no
    value of this type: see [Outcome]. *)
Inductive exception : Type :=
| AgentError (code : AgentErrorCode) (message : string)
             (agent_id : option string) (agent_type : option AgentType)
             (details : pydict) (cause : option exception)
| PyError (class_name : string) (message : string).

(** [isinstance(e, AgentError)]. *)
Definition is_AgentError (e : exception) : bool :=
  match e with AgentError _ _ _ _ _ _ => true | PyError _ _ => false end.

Definition error_code (e : exception) : option AgentErrorCode :=
  match e with AgentError c _ _ _ _ _ => Some c | PyError _ _ => None end.

(** [str(e)]. *)
Definition exception_str (e : exception) : string :=
  match e with AgentError _ m _ _ _ _ => m | PyError _ m => m end.

(** The outcome of a call: a value, or a raised exception. *)
Inductive Result (A : Type) : Type :=
| Return (a : A)
| Raise (e : exception).
Arguments Return {A} a.
Arguments Raise {A} e.

(** [json.JSONDecodeError]; the agents catch it and never read its text. *)
Definition JSONDecodeError : exception :=
  PyError "JSONDecodeError" "Expecting value".

(** ** A reference decoder for [json.loads]

    The agents call the standard library's [json.loads].  Their embedding
    below takes the decoder as a parameter, a function that returns the
    decoded value or raises ([json.JSONDecodeError] on a text that is not
    JSON, [RecursionError] on one that is nested too deep), so every
    theorem holds for whatever decoder is plugged in.  [Json.loads] is a
    decoder for strict JSON texts used to run the embedding on concrete
    inputs.  It reads a number with a fraction or an exponent as the decimal
    written, and knows neither the [\u] escapes nor the tokens [NaN] and
    [Infinity] that CPython also accepts; it has no recursion limit. *)

Module Json.

Definition is_ws (c : ascii) : bool :=
  match nat_of_ascii c with
  | 32%nat | 9%nat | 10%nat | 13%nat => true
  | _ => false
  end.

Fixpoint skip_ws (cs : list ascii) : list ascii :=
  match cs with
  | c :: cs' => if is_ws c then skip_ws cs' else cs
  | [] => []
  end.

Definition digit_of (c : ascii) : option Z :=
  let n := nat_of_ascii c in
  if ((48 <=? n)%nat && (n <=? 57)%nat)%bool then Some (Z.of_nat n - 48) else None.

(** Reads a maximal run of decimal digits: its value, its length and the
    rest of the input. *)
Fixpoint digits (cs : list ascii) (acc : Z) (len : nat) : Z * nat * list ascii :=
  match cs with
  | c :: cs' =>
      match digit_of c with
      | Some d => digits cs' (10 * acc + d) (S len)
      | None => (acc, len, cs)
      end
  | [] => (acc, len, [])
  end.

Fixpoint expect (lit : list ascii) (cs : list ascii) : option (list ascii) :=
  match lit with
  | [] => Some cs
  | a :: lit' =>
      match cs with
      | b :: cs' => if Ascii.eqb a b then expect lit' cs' else None
      | [] => None
      end
  end.

(** The value denoted by the literal [int.frac e exp]. *)
Definition decimal (neg : bool) (int frac : Z) (fraclen : nat) (exp : Z) : Q :=
  let m := int * 10 ^ Z.of_nat fraclen + frac in
  let m := if neg then - m else m in
  let e := exp - Z.of_nat fraclen in
  Qred (if 0 <=? e then inject_Z (m * 10 ^ e) else m # Z.to_pos (10 ^ (- e))).

(** An optional sign, an integer part without a leading zero, an optional
    fraction and an optional exponent; an integer literal decodes to an
    [int], the others to a [float]. *)
Definition number (cs : list ascii) : option (pyval * list ascii) :=
  let '(neg, cs) :=
    match cs with
    | c :: cs' => if Ascii.eqb c "-" then (true, cs') else (false, cs)
    | [] => (false, cs)
    end in
  let '(i, ilen, rest) := digits cs 0 O in
  let leading_zero :=
    match cs with
    | c :: _ => Ascii.eqb c "0" && negb (Nat.eqb ilen 1)
    | [] => false
    end in
  if Nat.eqb ilen 0 || leading_zero then None else
  let '(f, flen, rest1, has_frac) :=
    match rest with
    | c :: r =>
        if Ascii.eqb c "." then
          let '(f, flen, r') := digits r 0 O in
          if Nat.eqb flen 0 then (0, O, rest, false) else (f, flen, r', true)
        else (0, O, rest, false)
    | [] => (0, O, rest, false)
    end in
  let '(e, rest2, has_exp) :=
    match rest1 with
    | c :: r =>
        if Ascii.eqb c "e" || Ascii.eqb c "E" then
          let '(eneg, r1) :=
            match r with
            | s :: r' =>
                if Ascii.eqb s "-" then (true, r')
                else if Ascii.eqb s "+" then (false, r') else (false, r)
            | [] => (false, r)
            end in
          let '(e, elen, r2) := digits r1 0 O in
          if Nat.eqb elen 0 then (0, rest1, false)
          else ((if eneg then - e else e), r2, true)
        else (0, rest1, false)
    | [] => (0, rest1, false)
    end in
  if has_frac || has_exp
  then Some (VFloat (decimal neg i f flen e), rest2)
  else Some (VInt (if neg then - i else i), rest2).

(** The body of a string after its opening quote.  Control characters are
    refused, the two-character escapes are decoded; [\u] escapes are not
    part of this reference decoder. *)
Fixpoint string_body (cs : list ascii) : option (string * list ascii) :=
  match cs with
  | [] => None
  | c :: cs' =>
      if Ascii.eqb c "034" then Some (EmptyString, cs')
      else if (nat_of_ascii c <? 32)%nat then None
      else if Ascii.eqb c "\" then
        match cs' with
        | e :: cs'' =>
            let put (x : ascii) :=
              match string_body cs'' with
              | Some (s, r) => Some (String x s, r)
              | None => None
              end in
            if Ascii.eqb e "034" then put "034"%char
            else if Ascii.eqb e "\" then put "\"%char
            else if Ascii.eqb e "/" then put "/"%char
            else if Ascii.eqb e "b" then put "008"%char
            else if Ascii.eqb e "f" then put "012"%char
            else if Ascii.eqb e "n" then put "010"%char
            else if Ascii.eqb e "r" then put "013"%char
            else if Ascii.eqb e "t" then put "009"%char
            else None
        | [] => None
        end
      else
        match string_body cs' with
        | Some (s, r) => Some (String c s, r)
        | None => None
        end
  end.

(** Recursive descent; the fuel bounds the number of values and
    separators read, so the length of the text is enough. *)
Fixpoint value (n : nat) (cs : list ascii) {struct n} : option (pyval * list ascii) :=
  match n with
  | O => None
  | S n' =>
      match skip_ws cs with
      | [] => None
      | c :: cs' =>
          if Ascii.eqb c "n" then
            match expect (String.list_ascii_of_string "ull") cs' with
            | Some r => Some (VNone, r) | None => None end
          else if Ascii.eqb c "t" then
            match expect (String.list_ascii_of_string "rue") cs' with
            | Some r => Some (VBool true, r) | None => None end
          else if Ascii.eqb c "f" then
            match expect (String.list_ascii_of_string "alse") cs' with
            | Some r => Some (VBool false, r) | None => None end
          else if Ascii.eqb c "034" then
            match string_body cs' with
            | Some (s, r) => Some (VStr s, r) | None => None end
          else if Ascii.eqb c "[" then
            match skip_ws cs' with
            | d :: r =>
                if Ascii.eqb d "]" then Some (VList [], r)
                else match elements n' cs' with
                     | Some (l, r') => Some (VList l, r') | None => None end
            | [] => None
            end
          else if Ascii.eqb c "{" then
            match skip_ws cs' with
            | d :: r =>
                if Ascii.eqb d "}" then Some (VDict ∅, r)
                else match members n' cs' ∅ with
                     | Some (m, r') => Some (VDict m, r') | None => None end
            | [] => None
            end
          else number (c :: cs')
      end
  end
with elements (n : nat) (cs : list ascii) {struct n} : option (list pyval * list ascii) :=
  match n with
  | O => None
  | S n' =>
      match value n' cs with
      | None => None
      | Some (v, r) =>
          match skip_ws r with
          | c :: r' =>
              if Ascii.eqb c "]" then Some ([v], r')
              else if Ascii.eqb c "," then
                match elements n' r' with
                | Some (l, r'') => Some (v :: l, r'') | None => None end
              else None
          | [] => None
          end
      end
  end
with members (n : nat) (cs : list ascii) (acc : pydict) {struct n}
  : option (pydict * list ascii) :=
  match n with
  | O => None
  | S n' =>
      match skip_ws cs with
      | q :: r0 =>
          if Ascii.eqb q "034" then
            match string_body r0 with
            | None => None
            | Some (k, r1) =>
                match skip_ws r1 with
                | c :: r2 =>
                    if Ascii.eqb c ":" then
                      match value n' r2 with
                      | None => None
                      | Some (v, r3) =>
                          (* a repeated key keeps its last value *)
                          let acc' := <[k := v]> acc in
                          match skip_ws r3 with
                          | e :: r4 =>
                              if Ascii.eqb e "}" then Some (acc', r4)
                              else if Ascii.eqb e "," then members n' r4 acc'
                              else None
                          | [] => None
                          end
                      end
                    else None
                | [] => None
                end
            end
          else None
      | [] => None
      end
  end.

(** One value, surrounded by JSON white space only; [None] when the text
    is not of this form. *)
Definition decode (s : string) : option pyval :=
  let cs := String.list_ascii_of_string s in
  match value (S (List.length cs)) cs with
  | Some (v, r) => match skip_ws r with [] => Some v | _ => None end
  | None => None
  end.

Definition loads (s : string) : Result pyval :=
  match decode s with
  | Some v => Return v
  | None => Raise JSONDecodeError
  end.

End Json.

Record AgentConfig := {
  cfg_agent_id : string;
  cfg_agent_type : AgentType;
  cfg_name : string;
  cfg_description : string;
  cfg_model_name : string;
  cfg_temperature : Q;
  cfg_max_tokens : Z;
  cfg_max_retries : Z;
  cfg_timeout_seconds : Z;
  cfg_max_iterations : Z;
  cfg_allowed_tools : list string;
  cfg_system_prompt : string;
  cfg_extra_config : pydict
}.

(** [AgentInput], without its [timestamp]. *)
Record AgentInput := {
  in_task_id : string;
  in_task_type : string;
  in_content : pydict;
  in_context : pydict;
  in_metadata : pydict
}.

(** [Decision], without its [timestamp].  The fields hold what the agent
    read from the model's answer, whatever its type. *)
Record Decision := {
  decision_type : DecisionType;
  symbol : pyval;
  confidence : pyval;
  reasoning : pyval;
  risk_factors : pyval;
  supporting_data : pydict;
  recommended_action : pyval
}.

(** [AgentOutput]; the wall-clock fields ([execution_time_ms], [timestamp])
    are left out of the embedding, [token_usage] keeps its default. *)
Record AgentOutput := {
  out_task_id : string;
  out_agent_id : string;
  out_agent_type : AgentType;
  out_status : AgentStatus;
  out_result : pyval;
  out_decisions : list Decision;
  out_error : option string
}.

(** [Decision.confidence_level] on a number.  The thresholds are the
    decimals of the source; on the value of a finite float, comparing with
    the literal [0.9] and with 9/10 agree, since no float lies between 9/10
    and the float nearest to it, and 0.75, 0.5 and 0.25 are floats. *)
Definition confidence_level (c : Q) : ConfidenceLevel :=
  if Qle_bool (9 # 10) c then VERY_HIGH
  else if Qle_bool (75 # 100) c then HIGH
  else if Qle_bool (5 # 10) c then MEDIUM
  else if Qle_bool (25 # 100) c then LOW
  else VERY_LOW.

(** The number a value stands for in a comparison with a [float]: a
    [float], an [int] or a [bool] (which is an [int] in Python). *)
Definition py_number (v : pyval) : option Q :=
  match v with
  | VFloat q => Some q
  | VInt z => Some (inject_Z z)
  | VBool b => Some (if b then 1 else 0)%Q
  | _ => None
  end.

(** The property as Python evaluates it on the stored field: a number is
    compared with the thresholds, anything else makes [>=] raise
    [TypeError]. *)
Definition Decision_confidence_level (d : Decision) : Result ConfidenceLevel :=
  match py_number (confidence d) with
  | Some c => Return (confidence_level c)
  | None =>
      Raise (PyError "TypeError"
               ("'>=' not supported between instances of '"
                  +:+ type_name (confidence d) +:+ "' and 'float'"))
  end.

(** [str(n)] for an [int]. *)
Definition Z_str (z : Z) : string := NilZero.string_of_int (Z.to_int z).

(** ** Messages, tools and the shared state *)

(** A tool-call request of an assistant message. *)
Record ToolCallReq := {
  tc_name : string;
  tc_args : pyval;
  tc_id : string
}.

Inductive BaseMessage : Type :=
| SystemMessage (content : string)
| HumanMessage (content : string)
| AIMessage (content : string) (tool_calls : list ToolCallReq)
| ToolMessage (content : string) (tool_call_id : string).

Definition msg_content (m : BaseMessage) : string :=
  match m with
  | SystemMessage c | HumanMessage c | AIMessage c _ | ToolMessage c _ => c
  end.

Definition msg_tool_calls (m : BaseMessage) : list ToolCallReq :=
  match m with AIMessage _ tcs => tcs | _ => [] end.

(** What [llm.ainvoke] hands back when it does not raise: an [AIMessage],
    or some other object known by its [str]. *)
Inductive llm_reply : Type :=
| ReplyAI (content : string) (tool_calls : list ToolCallReq)
| ReplyOther (text : string).

(** [AgentState] as [BaseAgent._prepare_initial_state] builds it: every key
    of the typed dictionary is present. *)
Record AgentState := {
  messages : list BaseMessage;
  task_id : string;
  task_type : string;
  task_input : pydict;
  current_agent : string;
  agent_outputs : pydict;
  agent_errors : gmap string string;
  tool_results : pydict;
  decisions : list pyval;
  final_decision : option pyval;
  metadata : pydict;
  iteration_count : Z;
  max_iterations : Z;
  should_end : bool
}.

(** What a run awaits, in order: a call of the model (the [n]-th one), a
    sleep of [d] seconds, a call of a tool (the [n]-th tool call). *)
Inductive Event : Type :=
| LLMCalled (n : nat)
| Slept (d : Q)
| ToolInvoked (n : nat) (name : string).

(** The world of a run: the number of model calls and of tool calls made so
    far (the outside may answer each call differently), the log of the
    events, oldest first, and the event, counted from the start of the log,
    during which the task is cancelled, if it is. *)
Record World := {
  llm_calls : nat;
  tool_invocations : nat;
  log : list Event;
  cancel_at : option nat
}.

Definition world0 : World :=
  {| llm_calls := 0; tool_invocations := 0; log := []; cancel_at := None |}.

(** A tool: its name and what [ainvoke] does at the [n]-th tool call. *)
Record Tool := {
  tool_name : string;
  tool_ainvoke : nat -> pyval -> Result pyval
}.

(** How an [async] method ends: as a call does, or with the
    [asyncio.CancelledError] that a cancelled task receives at an [await].
    A [Result] is read as an [Outcome] where one is expected. *)
Inductive Outcome (A : Type) : Type :=
| Done (r : Result A)
| Cancelled.
Arguments Done {A} r.
Arguments Cancelled {A}.
Coercion Done : Result >-> Outcome.

(** The components of a pair and the argument of [Some] are read with the
    type that is expected of them, so that [Some (Return a, w)] is the
    result of an [async] method. *)
Arguments pair {A B}%_type_scope & a b.
Arguments Some {A}%_type_scope & a.

(** An [async] method: a function of the world that gives the outcome and
    the world after it.  [None] is for what the embedding gives no answer
    to: a loop that was given too little fuel, or a Python value that the
    embedding cannot store (see [settle]). *)
Definition M (A : Type) : Type := World -> option (Outcome A * World).

Definition ret {A} (a : A) : M A := fun w => Some (Done (Return a), w).
Definition raise {A} (e : exception) : M A := fun w => Some (Done (Raise e), w).
Definition bind {A B} (m : M A) (k : A -> M B) : M B :=
  fun w =>
    match m w with
    | Some (Done (Return a), w') => k a w'
    | Some (Done (Raise e), w') => Some (Done (Raise e), w')
    | Some (Cancelled, w') => Some (Cancelled, w')
    | None => None
    end.

(** [try: m except Exception as e: h e].  The clause catches the instances
    of [Exception]; a cancellation passes through it. *)
Definition try_except {A} (m : M A) (h : exception -> M A) : M A :=
  fun w =>
    match m w with
    | Some (Done (Raise e), w') => h e w'
    | r => r
    end.

(** A call that does not touch the world. *)
Definition lift {A} (r : Result A) : M A :=
  match r with Return a => ret a | Raise e => raise e end.

(** A call that does not touch the world and whose result the embedding
    may be unable to store. *)
Definition settle {A} (o : option (Result A)) : M A :=
  fun w => match o with Some r => lift r w | None => None end.

(** An [await] that suspends the task: the event is logged, and the task
    resumes with the answer [r] unless it is cancelled during this event. *)
Definition await {A} (ev : Event) (llm_calls' tool_invocations' : nat) (r : Result A)
  : M A :=
  fun w =>
    Some (if bool_decide (cancel_at w = Some (length (log w))) then Cancelled else Done r,
          {| llm_calls := llm_calls';
             tool_invocations := tool_invocations';
             log := log w ++ [ev];
             cancel_at := cancel_at w |}).

Declare Scope py_scope.
Delimit Scope py_scope with py.
Notation "'let*' x ':=' m 'in' k" := (bind m (fun x => k))
  (at level 10, x pattern, m at level 100, k at level 200) : py_scope.
Local Open Scope py_scope.

(** ** Helpers shared by the agents: indexing, [dict.get], fenced JSON *)

(** [l[i]], raising [IndexError] out of range. *)
Definition getitem {A} (l : list A) (i : nat) : Result A :=
  match l !! i with
  | Some x => Return x
  | None => Raise (PyError "IndexError" "list index out of range")
  end.

(** [v.get(key, default)]: only a [dict] has the method. *)
Definition py_get (v : pyval) (key : string) (dflt : pyval) : Result pyval :=
  match v with
  | VDict d => Return (default dflt (d !! key))
  | _ =>
      Raise (PyError "AttributeError"
               ("'" +:+ type_name v +:+ "' object has no attribute 'get'"))
  end.

(** [str(n)] for a count. *)
Definition nat_str (n : nat) : string := Z_str (Z.of_nat n).

Definition update_length_error (i n : nat) : exception :=
  PyError "ValueError"
    ("dictionary update sequence element #" +:+ nat_str i +:+ " has length "
       +:+ nat_str n +:+ "; 2 is required").

(** The key and the value that [dict.update] reads from the element
    number [i] of a sequence: the element is iterated and must have two
    items.  [None] stands for a pair that Python stores and the embedding
    cannot: its key is hashable and no string, or the pair is read from a
    dictionary of two keys, whose order the embedding does not keep. *)
Definition update_item (i : nat) (item : pyval) : Result (option (string * pyval)) :=
  match item with
  | VList [k; v] =>
      match k with
      | VStr s => Return (Some (s, v))
      | VList _ | VDict _ =>
          Raise (PyError "TypeError" ("unhashable type: '" +:+ type_name k +:+ "'"))
      | _ => Return None
      end
  | VList l => Raise (update_length_error i (length l))
  | VStr s =>
      match utf8_chars s with
      | [k; v] => Return (Some (k, VStr v))
      | chars => Raise (update_length_error i (length chars))
      end
  | VDict d =>
      if decide (size d = 2%nat) then Return None
      else Raise (update_length_error i (size d))
  | _ =>
      Raise (PyError "TypeError"
               ("cannot convert dictionary update sequence element #" +:+ nat_str i
                  +:+ " to a sequence"))
  end.

(** The loop of [dict.update] over a sequence, from its element number
    [i]; the dictionary is [None] once it holds a pair that the embedding
    cannot store. *)
Fixpoint update_items (acc : option pydict) (i : nat) (items : list pyval)
  : Result (option pydict) :=
  match items with
  | [] => Return acc
  | item :: rest =>
      match update_item i item with
      | Raise e => Raise e
      | Return None => update_items None (S i) rest
      | Return (Some (k, v)) => update_items (insert k v <$> acc) (S i) rest
      end
  end.

(** [acc.update(x)], and [dict(x)] when [acc] is empty: the entries of a
    dictionary, or the pairs of a sequence; a string is the sequence of its
    characters, none of which is a pair. *)
Definition dict_update (acc : option pydict) (x : pyval) : Result (option pydict) :=
  match x with
  | VDict d => Return (union d <$> acc)
  | VList items => update_items acc 0 items
  | VStr s =>
      match utf8_chars s with
      | [] => Return acc
      | c :: _ => Raise (update_length_error 0 1)
      end
  | _ => Raise (PyError "TypeError" ("'" +:+ type_name x +:+ "' object is not iterable"))
  end.

(** The text handed to [json.loads], as every agent selects it:
<<
    if "```json" in content:
        json_str = content.split("```json")[1].split("```")[0]
    elif "```" in content:
        json_str = content.split("```")[1].split("```")[0]
    else:
        json_str = content
>> *)
Definition json_candidate (content : string) : Result string :=
  if str_in "```json" content then
    match getitem (split "```json" content) 1 with
    | Return piece => getitem (split "```" piece) 0
    | Raise e => Raise e
    end
  else if str_in "```" content then
    match getitem (split "```" content) 1 with
    | Return piece => getitem (split "```" piece) 0
    | Raise e => Raise e
    end
  else Return content.

(** A chat model: what its [n]-th [ainvoke] call answers, given whether the
    tools are bound and the messages sent. *)
Definition LLM : Type := nat -> bool -> list BaseMessage -> Result llm_reply.

(** ** agents/core/base.py *)

(** *** [BaseAgent] *)

Module BaseAgent.

(** An agent object: its configuration, the attributes of its class
    ([agent_type], [default_system_prompt], the overridable
    [_format_task_message], which may raise) and its tools.  The chat model
    of the agent is a parameter of the methods that call it. *)
Record t := {
  config : AgentConfig;
  agent_type : AgentType;
  default_system_prompt : string;
  _format_task_message : AgentInput -> Result string;
  tools : list Tool
}.

Definition agent_id (self : t) : string := cfg_agent_id (config self).

(** [config.system_prompt or default_system_prompt]. *)
Definition system_prompt (self : t) : string :=
  if decide (cfg_system_prompt (config self) = "")
  then default_system_prompt self
  else cfg_system_prompt (config self).

(** [{tool.name: tool for tool in self.tools}]: a later tool of the same
    name replaces the earlier one. *)
Definition _tool_map (self : t) : gmap string Tool :=
  foldl (fun m tool => <[tool_name tool := tool]> m) ∅ (tools self).

Definition get_tool (self : t) (name : string) : option Tool :=
  _tool_map self !! name.

(** [AgentError(code, message, self.agent_id, self.agent_type, details)],
    raised [from] the cause when there is one. *)
Definition agent_error (self : t) (code : AgentErrorCode) (msg : string)
    (details : pydict) (cause : option exception) : exception :=
  AgentError code msg (Some (agent_id self)) (Some (agent_type self)) details cause.

Definition _validate_input (self : t) (agent_input : AgentInput) : Result unit :=
  if decide (in_task_id agent_input = "")
  then Raise (agent_error self INVALID_INPUT "Task ID is required" ∅ None)
  else Return tt.

Definition _prepare_initial_state (self : t) (agent_input : AgentInput)
  : Result AgentState :=
  let system :=
    if decide (system_prompt self = "") then []
    else [SystemMessage (system_prompt self)] in
  match _format_task_message self agent_input with
  | Raise e => Raise e
  | Return task_message =>
      Return
        {| messages := system ++ [HumanMessage task_message];
           task_id := in_task_id agent_input;
           task_type := in_task_type agent_input;
           task_input := in_content agent_input;
           current_agent := agent_id self;
           agent_outputs := ∅;
           agent_errors := ∅;
           tool_results := ∅;
           decisions := [];
           final_decision := None;
           metadata := in_metadata agent_input;
           iteration_count := 0;
           max_iterations := cfg_max_iterations (config self);
           should_end := false |}
  end.

(** The [AgentOutput] that [run] builds. *)
Definition output (self : t) (agent_input : AgentInput) (status : AgentStatus)
    (result : pyval) (ds : list Decision) (err : option string) : AgentOutput :=
  {| out_task_id := in_task_id agent_input;
     out_agent_id := agent_id self;
     out_agent_type := agent_type self;
     out_status := status;
     out_result := result;
     out_decisions := ds;
     out_error := err |}.

Section Run.
(** The [execute] method of the concrete agent class. *)
Variable execute : t -> AgentState -> AgentInput -> M (pyval * list Decision).

(** Steps 1 to 3 of [run], the part of the [try] block that may raise:
    validation, the initial state, [execute]. *)
Definition try_body (self : t) (agent_input : AgentInput) : M (pyval * list Decision) :=
  let* _ := lift (_validate_input self agent_input) in
  let* state := lift (_prepare_initial_state self agent_input) in
  execute self state agent_input.

(** [BaseAgent.run]: an [AgentError] raised in the [try] block is
    re-raised, any other exception becomes a [FAILED] output. *)
Definition run (self : t) (agent_input : AgentInput) : M AgentOutput :=
  try_except
    (let* (result, ds) := try_body self agent_input in
     ret (output self agent_input COMPLETED result ds None))
    (fun e =>
       if is_AgentError e then raise e
       else ret (output self agent_input FAILED (VDict ∅) []
                        (Some (exception_str e)))).
End Run.

(** [self.llm_with_tools if use_tools and self.tools else self.llm]: whether
    the call goes to the model with the tools bound. *)
Definition bound_tools (self : t) (use_tools : bool) : bool :=
  use_tools && match tools self with [] => false | _ => true end.

(** [(2 ** attempt) * 0.5], for an [attempt] of [range(max_retries)]: the
    product converts the integer to a [float], which is exact up to
    [2 ** 1023] and raises [OverflowError] from [2 ** 1024] on. *)
Definition wait_time (attempt : Z) : Result Q :=
  if 1024 <=? attempt
  then Raise (PyError "OverflowError" "int too large to convert to float")
  else Return (inject_Z (2 ^ attempt) * (1 # 2))%Q.

(** [str(last_error)]. *)
Definition last_error_str (last_error : option exception) : string :=
  match last_error with Some e => exception_str e | None => "None" end.

(** The error raised when the retries are used up. *)
Definition llm_error (self : t) (last_error : option exception) : exception :=
  agent_error self LLM_ERROR
    ("LLM invocation failed after " +:+ Z_str (cfg_max_retries (config self))
       +:+ " attempts: " +:+ last_error_str last_error)
    ∅ last_error.

(** [response if isinstance(response, AIMessage) else
    AIMessage(content=str(response))]. *)
Definition as_AIMessage (response : llm_reply) : BaseMessage :=
  match response with
  | ReplyAI c tcs => AIMessage c tcs
  | ReplyOther text => AIMessage text []
  end.

(** [await asyncio.sleep(d)]. *)
Definition sleep (d : Q) : M unit :=
  fun w => await (Slept d) (llm_calls w) (tool_invocations w) (Return tt) w.

Section Model.
(** The chat model of the agent. *)
Variable llm : LLM.

(** [await llm.ainvoke(messages)]. *)
Definition ainvoke (with_tools : bool) (msgs : list BaseMessage) : M llm_reply :=
  fun w =>
    await (LLMCalled (llm_calls w)) (S (llm_calls w)) (tool_invocations w)
          (llm (llm_calls w) with_tools msgs) w.

(** The body of [for attempt in range(max_retries)], with [remaining]
    attempts left, and the [raise] that follows the loop.  The waiting time
    is computed inside the [except] clause, so an exception of that
    computation, like a cancellation of the sleep, leaves the helper. *)
Fixpoint invoke_llm_loop (self : t) (with_tools : bool) (msgs : list BaseMessage)
    (remaining : nat) (attempt : Z) (last_error : option exception) : M BaseMessage :=
  match remaining with
  | O => raise (llm_error self last_error)
  | S remaining' =>
      try_except
        (let* response := ainvoke with_tools msgs in
         ret (as_AIMessage response))
        (fun e =>
           let* _ := (if attempt <? cfg_max_retries (config self) - 1
                      then let* d := lift (wait_time attempt) in sleep d
                      else ret tt) in
           invoke_llm_loop self with_tools msgs remaining' (attempt + 1) (Some e))
  end.

(** [BaseAgent.invoke_llm]. *)
Definition invoke_llm (self : t) (msgs : list BaseMessage) (use_tools : bool)
  : M BaseMessage :=
  invoke_llm_loop self (bound_tools self use_tools) msgs
    (Z.to_nat (cfg_max_retries (config self))) 0 None.
End Model.

(** [await tool.ainvoke(arguments)], as the [n]-th tool call of the run. *)
Definition tool_await (tool : Tool) (name : string) (arguments : pyval) : M pyval :=
  fun w =>
    await (ToolInvoked (tool_invocations w) name) (llm_calls w) (S (tool_invocations w))
          (tool_ainvoke tool (tool_invocations w) arguments) w.

(** [BaseAgent.execute_tool]: a missing tool and a failing tool both
    raise [TOOL_EXECUTION_FAILED]; the second keeps the tool's name and
    arguments and the original exception. *)
Definition execute_tool (self : t) (name : string) (arguments : pyval) : M pyval :=
  match get_tool self name with
  | None =>
      raise (agent_error self TOOL_EXECUTION_FAILED
               ("Tool '" +:+ name +:+ "' not found") ∅ None)
  | Some tool =>
      try_except (tool_await tool name arguments)
        (fun e =>
           raise (agent_error self TOOL_EXECUTION_FAILED
                    ("Tool '" +:+ name +:+ "' execution failed: " +:+ exception_str e)
                    (<["tool_name" := VStr name]> (<["arguments" := arguments]> ∅))
                    (Some e)))
  end.

(** [update_state] as the ReAct loop calls it: the messages, the counter,
    the tool results and the termination flag are given, the other keys are
    copied. *)
Definition update_state (st : AgentState) (msgs : list BaseMessage)
    (iteration : Z) (results : pydict) (stop : bool) : AgentState :=
  {| messages := msgs;
     task_id := task_id st;
     task_type := task_type st;
     task_input := task_input st;
     current_agent := current_agent st;
     agent_outputs := agent_outputs st;
     agent_errors := agent_errors st;
     tool_results := results;
     decisions := decisions st;
     final_decision := final_decision st;
     metadata := metadata st;
     iteration_count := iteration;
     max_iterations := max_iterations st;
     should_end := stop |}.

End BaseAgent.

(** *** [ReActAgent] *)

Module ReActAgent.

(** [ReActAgent._execute_tool_calls]: a call that raises an [AgentError]
    leaves an error text in place of its result. *)
Fixpoint _execute_tool_calls (self : BaseAgent.t) (tcs : list ToolCallReq)
  : M (list pyval) :=
  match tcs with
  | [] => ret []
  | tc :: tcs' =>
      let* r := try_except (BaseAgent.execute_tool self (tc_name tc) (tc_args tc))
                  (fun e =>
                     if is_AgentError e
                     then ret (VStr ("Error: " +:+ exception_str e))
                     else raise e) in
      let* rs := _execute_tool_calls self tcs' in
      ret (r :: rs)
  end.

(** The error of the loop guard. *)
Definition max_iterations_error (self : BaseAgent.t) (st : AgentState) : exception :=
  BaseAgent.agent_error self MAX_ITERATIONS_EXCEEDED
    ("Max iterations (" +:+ Z_str (max_iterations st) +:+ ") exceeded") ∅ None.

(** The result dictionary built after the loop. *)
Definition final_result (st : AgentState) : pyval :=
  VDict (<["response" := VStr match last (messages st) with
                              | Some m => msg_content m
                              | None => ""
                              end]>
         (<["tool_results" := VDict (tool_results st)]>
         (<["iteration_count" := VInt (iteration_count st)]> ∅))).

Section Execute.
Variable llm : LLM.
(** [str] on data values. *)
Variable py_str : pyval -> string.
(** The [extract_result] method of the concrete ReAct agent. *)
Variable extract_result :
  BaseAgent.t -> BaseMessage -> AgentState -> Result (pyval * list Decision).

(** The [while not should_end] loop of [execute], from the state [st] with
    the decisions [ds] collected so far.  The fuel is consumed by each pass
    through the body. *)
Fixpoint react_loop (fuel : nat) (self : BaseAgent.t) (st : AgentState)
    (ds : list Decision) : M (AgentState * list Decision) :=
  if should_end st then ret (st, ds)
  else
    let iteration := iteration_count st in
    if max_iterations st <=? iteration then raise (max_iterations_error self st)
    else
      match fuel with
      | O => fun _ => None
      | S fuel' =>
          let msgs := messages st in
          let* response := BaseAgent.invoke_llm llm self msgs true in
          let new_messages := msgs ++ [response] in
          match msg_tool_calls response with
          | (_ :: _) as tcs =>
              let* results := _execute_tool_calls self tcs in
              let tool_messages :=
                zip_with (fun tc r => ToolMessage (py_str r) (tc_id tc)) tcs results in
              let merged :=
                foldl (fun m p => <[tc_name p.1 := p.2]> m)
                      (tool_results st) (zip tcs results) in
              react_loop fuel' self
                (BaseAgent.update_state st (new_messages ++ tool_messages)
                   (iteration + 1) merged (should_end st)) ds
          | [] =>
              let* (_, extracted) := lift (extract_result self response st) in
              react_loop fuel' self
                (BaseAgent.update_state st new_messages (iteration + 1)
                   (tool_results st) true) (ds ++ extracted)
          end
      end.

(** [ReActAgent.execute].  The loop body runs at most
    [max_iterations - iteration_count] times, which is the fuel. *)
Definition execute (self : BaseAgent.t) (st : AgentState) (agent_input : AgentInput)
  : M (pyval * list Decision) :=
  let* (st', ds) :=
    react_loop (Z.to_nat (max_iterations st - iteration_count st)) self st [] in
  ret (final_result st', ds).
End Execute.

(** [ReActAgent.extract_result], which subclasses override. *)
Definition extract_result (self : BaseAgent.t) (response : BaseMessage)
    (st : AgentState) : Result (pyval * list Decision) :=
  Return (VDict (<["content" := VStr (msg_content response)]> ∅), []).

End ReActAgent.

(** *** [PlanAndExecuteAgent] *)

Module PlanAndExecuteAgent.

(** [plan_prompt.format(task=...)]. *)
Definition plan_prompt (task : string) : string :=
  "请根据以下任务制定执行计划：

任务: " +:+ task +:+ dq "

请输出一个 JSON 格式的计划，包含步骤列表：
{
    'plan': [
        {'step': 1, 'action': '动作描述', 'expected_output': '预期输出'},
        ...
    ]
}
".

(** The plan used when the model's answer is not JSON. *)
Definition single_step_plan (agent_input : AgentInput) : pyval :=
  VList [VDict (<["step" := VInt 1]>
                (<["action" := VStr "Execute task directly"]>
                (<["task" := VDict (in_content agent_input)]> ∅)))].

Section CreatePlan.
Variable llm : LLM.
(** [str] on data values. *)
Variable py_str : pyval -> string.
(** [json.loads]. *)
Variable json_loads : string -> Result pyval.

(** [except json.JSONDecodeError]. *)
Definition handled (e : exception) : bool :=
  match e with
  | PyError cls _ => bool_decide (cls = "JSONDecodeError")
  | AgentError _ _ _ _ _ _ => false
  end.

(** The body of the [try] block. *)
Definition plan_body (content : string) : Result pyval :=
  match json_candidate content with
  | Raise e => Raise e
  | Return content =>
      match json_loads content with
      | Raise e => Raise e
      | Return plan_data => py_get plan_data "plan" (VList [])
      end
  end.

(** [PlanAndExecuteAgent.create_plan]: the model call is outside the
    [try]; inside it only [json.JSONDecodeError] is handled. *)
Definition create_plan (self : BaseAgent.t) (agent_input : AgentInput) : M pyval :=
  let plan_message :=
    HumanMessage (plan_prompt (py_str (VDict (in_content agent_input)))) in
  let msgs := [SystemMessage (BaseAgent.system_prompt self); plan_message] in
  let* response := BaseAgent.invoke_llm llm self msgs false in
  lift match plan_body (msg_content response) with
       | Raise e => if handled e then Return (single_step_plan agent_input) else Raise e
       | r => r
       end.
End CreatePlan.

End PlanAndExecuteAgent.

(** ** agents/implementations/strategy_analyzer.py *)

Module StrategyAnalyzerAgent.

(** [decision_type_map.get(key, DecisionType.HOLD)]: a key that cannot be
    hashed makes the lookup raise. *)
Definition decision_type_map_get (key : pyval) : Result DecisionType :=
  match key with
  | VStr s =>
      Return (if decide (s = "buy") then BUY
              else if decide (s = "sell") then SELL
              else if decide (s = "hold") then HOLD
              else if decide (s = "observe") then OBSERVE
              else HOLD)
  | VList _ | VDict _ =>
      Raise (PyError "TypeError" ("unhashable type: '" +:+ type_name key +:+ "'"))
  | _ => Return HOLD
  end.

(** The exceptions named by the [except] clause. *)
Definition handled (e : exception) : bool :=
  match e with
  | PyError cls _ =>
      bool_decide (cls = "JSONDecodeError") || bool_decide (cls = "IndexError")
      || bool_decide (cls = "KeyError")
  | AgentError _ _ _ _ _ _ => false
  end.

Section Extract.
(** [json.loads]. *)
Variable json_loads : string -> Result pyval.

(** The body of the [try] block. *)
Definition extract_body (content : string) (st : AgentState)
  : Result (pyval * list Decision) :=
  match json_candidate content with
  | Raise e => Raise e
  | Return json_str =>
      match json_loads (strip json_str) with
      | Raise e => Raise e
      | Return result =>
          match py_get result "decision" (VStr "hold") with
          | Raise e => Raise e
          | Return key =>
              match decision_type_map_get key with
              | Raise e => Raise e
              | Return dt =>
                  let field k d := match result with
                                   | VDict o => default d (o !! k)
                                   | _ => d
                                   end in
                  Return (result,
                          [{| decision_type := dt;
                              symbol := default (VStr "UNKNOWN") (task_input st !! "symbol");
                              confidence := field "confidence" (VFloat (1 # 2));
                              reasoning := field "reasoning" (VList []);
                              risk_factors := field "risk_factors" (VList []);
                              supporting_data := tool_results st;
                              recommended_action := field "recommended_action" (VStr "") |}])
              end
          end
      end
  end.

(** [StrategyAnalyzerAgent.extract_result]. *)
Definition extract_result (self : BaseAgent.t) (response : BaseMessage) (st : AgentState)
  : Result (pyval * list Decision) :=
  let content := msg_content response in
  match extract_body content st with
  | Raise e =>
      if handled e
      then Return (VDict (<["raw_response" := VStr content]> ∅), [])
      else Raise e
  | r => r
  end.
End Extract.

End StrategyAnalyzerAgent.

(** ** agents/tools/base.py *)

Module ToolRegistry.

Inductive ToolCategory : Set :=
| DATA_FETCH | DATA_ANALYSIS | CALCULATION | MARKET_DATA | NEWS
| TECHNICAL | FUNDAMENTAL | RISK | NOTIFICATION | UTILITY.

#[global] Instance ToolCategory_eq_dec : EqDecision ToolCategory.
Proof. solve_decision. Defined.

Record ToolMetadata := {
  md_name : string;
  md_description : string;
  md_category : ToolCategory;
  md_version : string;
  md_author : string;
  md_tags : list string;
  md_requires_api_key : bool;
  md_rate_limit : option Z
}.

(** [ToolMetadata(name, "", category)]: the other fields take their
    defaults. *)
Definition default_metadata (name : string) (category : ToolCategory) : ToolMetadata :=
  {| md_name := name; md_description := ""; md_category := category;
     md_version := "1.0.0"; md_author := ""; md_tags := [];
     md_requires_api_key := false; md_rate_limit := None |}.

(** The two dictionaries of the registry.  A [gmap] keeps the bindings,
    not the insertion order in which Python lists them. *)
Record t := {
  _tools : gmap string Tool;
  _metadata : gmap string ToolMetadata
}.

Definition empty : t := {| _tools := ∅; _metadata := ∅ |}.

(** [register(tool, metadata=None)]: the metadata entry is written only
    when metadata is given. *)
Definition register (self : t) (tool : Tool) (metadata : option ToolMetadata)
  : t :=
  {| _tools := <[tool_name tool := tool]> (_tools self);
     _metadata := match metadata with
                  | Some md => <[tool_name tool := md]> (_metadata self)
                  | None => _metadata self
                  end |}.

Definition unregister (self : t) (name : string) : t :=
  {| _tools := delete name (_tools self);
     _metadata := delete name (_metadata self) |}.

Definition get (self : t) (name : string) : option Tool :=
  _tools self !! name.

Definition get_metadata (self : t) (name : string) : option ToolMetadata :=
  _metadata self !! name.

(** The filter of [get_by_category]:
    [self._metadata.get(name, ToolMetadata(name, "", category)).category == category]. *)
Definition in_category (self : t) (category : ToolCategory) (name : string) : bool :=
  bool_decide
    (md_category (default (default_metadata name category) (_metadata self !! name))
     = category).

Definition get_by_category (self : t) (category : ToolCategory) : list Tool :=
  List.map snd
    (List.filter (fun nt => in_category self category nt.1)
                 (map_to_list (_tools self))).

End ToolRegistry.

(** ** agents/core/factory.py *)

(** An agent object as the factory hands it out: the agent and the chat
    model it was built with. *)
Record AgentObject := {
  obj_agent : BaseAgent.t;
  obj_llm : LLM
}.

(** An agent class, called as [agent_class(config=, llm=, tools=)]; the
    constructor may raise. *)
Definition AgentClass : Type :=
  AgentConfig -> LLM -> option (list Tool) -> Result AgentObject.

Definition AgentType_code (t : AgentType) : nat :=
  match t with
  | STRATEGY_ANALYZER => 0 | RISK_ASSESSOR => 1 | SIGNAL_GENERATOR => 2
  | DATA_COLLECTOR => 3 | DATA_ANALYZER => 4 | ORCHESTRATOR => 5
  | SUPERVISOR => 6 | TECHNICAL_ANALYST => 7 | FUNDAMENTAL_ANALYST => 8
  | SENTIMENT_ANALYST => 9 | NEWS_ANALYST => 10
  end%nat.

Definition AgentType_of_code (n : nat) : option AgentType :=
  match n with
  | 0 => Some STRATEGY_ANALYZER | 1 => Some RISK_ASSESSOR | 2 => Some SIGNAL_GENERATOR
  | 3 => Some DATA_COLLECTOR | 4 => Some DATA_ANALYZER | 5 => Some ORCHESTRATOR
  | 6 => Some SUPERVISOR | 7 => Some TECHNICAL_ANALYST | 8 => Some FUNDAMENTAL_ANALYST
  | 9 => Some SENTIMENT_ANALYST | 10 => Some NEWS_ANALYST
  | _ => None
  end%nat.

#[global] Instance AgentType_countable : Countable AgentType.
Proof.
  apply (inj_countable AgentType_code AgentType_of_code).
  intros []; reflexivity.
Defined.

(** [AgentType.value]. *)
Definition AgentType_value (t : AgentType) : string :=
  match t with
  | STRATEGY_ANALYZER => "strategy_analyzer" | RISK_ASSESSOR => "risk_assessor"
  | SIGNAL_GENERATOR => "signal_generator" | DATA_COLLECTOR => "data_collector"
  | DATA_ANALYZER => "data_analyzer" | ORCHESTRATOR => "orchestrator"
  | SUPERVISOR => "supervisor" | TECHNICAL_ANALYST => "technical_analyst"
  | FUNDAMENTAL_ANALYST => "fundamental_analyst"
  | SENTIMENT_ANALYST => "sentiment_analyst" | NEWS_ANALYST => "news_analyst"
  end.

(** *** [AgentRegistry] *)

Module AgentRegistry.

(** The global [agent_registry]. *)
Record t := {
  _agents : gmap AgentType AgentClass;
  _agent_configs : gmap string AgentConfig
}.

Definition get_class (self : t) (agent_type : AgentType) : option AgentClass :=
  _agents self !! agent_type.

Definition get_config (self : t) (agent_id : string) : option AgentConfig :=
  _agent_configs self !! agent_id.

End AgentRegistry.

(** *** [AgentFactory] *)

Module AgentFactory.

Record t := {
  _llm_factory : option (string -> Result LLM);
  _tool_factory : option (list string -> Result (list Tool));
  _instances : gmap string AgentObject
}.

(** [AgentFactory.create]. *)
Definition create (registry : AgentRegistry.t) (self : t)
    (agent_type : AgentType) (config : AgentConfig)
    (llm : option LLM) (tools : option (list Tool)) : Result AgentObject :=
  match AgentRegistry.get_class registry agent_type with
  | None =>
      Raise (AgentError AGENT_NOT_FOUND
               ("Agent type '" +:+ AgentType_value agent_type +:+ "' is not registered")
               None (Some agent_type) ∅ None)
  | Some agent_class =>
      let llm_r :=
        match llm with
        | Some l => Return l
        | None =>
            match _llm_factory self with
            | None =>
                Raise (AgentError AGENT_INITIALIZATION_FAILED
                         "No LLM instance or factory provided"
                         None (Some agent_type) ∅ None)
            | Some mk => mk (cfg_model_name config)
            end
        end in
      match llm_r with
      | Raise e => Raise e
      | Return l =>
          let tools_r :=
            match tools, cfg_allowed_tools config with
            | None, _ :: _ =>
                match _tool_factory self with
                | Some mk =>
                    match mk (cfg_allowed_tools config) with
                    | Return ts => Return (Some ts)
                    | Raise e => Raise e
                    end
                | None => Return (Some [])
                end
            | _, _ => Return tools
            end in
          match tools_r with
          | Raise e => Raise e
          | Return ts =>
              match agent_class config l ts with
              | Return agent => Return agent
              | Raise e =>
                  Raise (AgentError AGENT_INITIALIZATION_FAILED
                           ("Failed to create agent: " +:+ exception_str e)
                           None (Some agent_type) ∅ (Some e))
              end
          end
      end
  end.

(** [AgentFactory.get_or_create]: the result and the factory afterwards. *)
Definition get_or_create (registry : AgentRegistry.t) (self : t)
    (agent_type : AgentType) (config : AgentConfig)
    (llm : option LLM) (tools : option (list Tool)) : Result AgentObject * t :=
  match _instances self !! cfg_agent_id config with
  | Some agent => (Return agent, self)
  | None =>
      match create registry self agent_type config llm tools with
      | Return agent =>
          (Return agent,
           {| _llm_factory := _llm_factory self;
              _tool_factory := _tool_factory self;
              _instances := <[cfg_agent_id config := agent]> (_instances self) |})
      | Raise e => (Raise e, self)
      end
  end.

Definition clear_cache (self : t) : t :=
  {| _llm_factory := _llm_factory self;
     _tool_factory := _tool_factory self;
     _instances := ∅ |}.

(** One later call of [get_or_create], with the registry as it is then. *)
Record Call := {
  call_registry : AgentRegistry.t;
  call_agent_type : AgentType;
  call_config : AgentConfig;
  call_llm : option LLM;
  call_tools : option (list Tool)
}.

Definition do_call (self : t) (c : Call) : Result AgentObject * t :=
  get_or_create (call_registry c) self (call_agent_type c) (call_config c)
                (call_llm c) (call_tools c).

(** The factory after a sequence of [get_or_create] calls. *)
Definition after_calls (self : t) (cs : list Call) : t :=
  foldl (fun f c => (do_call f c).2) self cs.

End AgentFactory.

(** ** agents/workflows/engine.py *)

Module MultiAgentWorkflow.

(** A node handler: what it returns or raises on a state snapshot.  The
    state is the dictionary itself, since the node tests and copies its
    keys. *)
Definition Handler : Type := pydict -> Result pyval.

(** [MultiAgentWorkflow._agent_handlers] and [add_agent]. *)
Definition add_agent (agent_handlers : gmap string Handler)
    (agent_id : string) (handler : Handler) : gmap string Handler :=
  <[agent_id := handler]> agent_handlers.

(** [dict(state.get(key, {}))]. *)
Definition dict_of_entry (state : pydict) (key : string) : Result (option pydict) :=
  match state !! key with
  | None => Return (Some ∅)
  | Some x => dict_update (Some ∅) x
  end.

(** The tasks handed to [asyncio.gather]: one per listed agent that has a
    handler. *)
Definition tasks (agent_handlers : gmap string Handler) (parallel_agents : list string)
  : list Handler :=
  omap (fun agent_id => agent_handlers !! agent_id) parallel_agents.

(** [asyncio.gather] with [return_exceptions=True]: every task runs on
    the same state; an exception is a result like any other. *)
Definition gather (ts : list Handler) (state : pydict) : list (Result pyval) :=
  List.map (fun h => h state) ts.

(** One step of the merge loop over [zip(parallel_agents, results)]. *)
Definition merge_one (acc : Result (option pydict * option pydict))
    (p : string * Result pyval) : Result (option pydict * option pydict) :=
  match acc with
  | Raise e => Raise e
  | Return (new_outputs, new_errors) =>
      match p.2 with
      | Raise e =>
          Return (new_outputs, insert p.1 (VStr (exception_str e)) <$> new_errors)
      | Return (VDict result) =>
          match result !! "agent_outputs" with
          | Some x =>
              match dict_update new_outputs x with
              | Raise e => Raise e
              | Return outs => Return (outs, new_errors)
              end
          | None => Return (insert p.1 (VDict result) <$> new_outputs, new_errors)
          end
      | Return _ => Return (new_outputs, new_errors)
      end
  end.

(** The [TypeError] of a call of [AgentState] that gets the keyword [key]
    twice; the class is named with its module, [src.agents.core.types] when
    the package is imported from the backend directory. *)
Definition duplicate_keyword (key : string) : exception :=
  PyError "TypeError"
    ("src.agents.core.types.AgentState() got multiple values for keyword argument '"
       +:+ key +:+ "'").

(** [AgentState] called with [dict(state)] unpacked into keywords and with
    the keywords [agent_outputs] and [agent_errors]: a keyword given twice
    is a [TypeError].  Otherwise the state is built, and the embedding has
    it when it can store the two dictionaries. *)
Definition rebuild (state : pydict) (new_outputs new_errors : option pydict)
  : option (Result pydict) :=
  match state !! "agent_outputs", state !! "agent_errors" with
  | None, None =>
      match new_outputs, new_errors with
      | Some outs, Some errs =>
          Some (Return (<["agent_errors" := VDict errs]>
                          (<["agent_outputs" := VDict outs]> state)))
      | _, _ => None
      end
  | Some _, _ => Some (Raise (duplicate_keyword "agent_outputs"))
  | None, Some _ => Some (Raise (duplicate_keyword "agent_errors"))
  end.

(** The node built by [setup_parallel_then_aggregate]; [None] when the
    state it returns holds a dictionary that the embedding cannot store. *)
Definition parallel_executor (agent_handlers : gmap string Handler)
    (parallel_agents : list string) (state : pydict) : option (Result pydict) :=
  match tasks agent_handlers parallel_agents with
  | [] => Some (Return state)
  | ts =>
      let results := gather ts state in
      match dict_of_entry state "agent_outputs" with
      | Raise e => Some (Raise e)
      | Return new_outputs =>
          match dict_of_entry state "agent_errors" with
          | Raise e => Some (Raise e)
          | Return new_errors =>
              match foldl merge_one (Return (new_outputs, new_errors))
                          (zip parallel_agents results) with
              | Raise e => Some (Raise e)
              | Return (outs, errs) => rebuild state outs errs
              end
          end
      end
  end.

End MultiAgentWorkflow.

(** ** Vocabulary of the statements *)

(** The outcome of the [i]-th model call counted from the world [w]. *)
Definition attempt_outcome (llm : LLM)
    (with_tools : bool) (msgs : list BaseMessage) (w : World) (i : nat) : Result llm_reply :=
  llm (llm_calls w + i)%nat with_tools msgs.

Definition attempt_failed (llm : LLM)
    (with_tools : bool) (msgs : list BaseMessage) (w : World) (i : nat) : Prop :=
  exists e, attempt_outcome llm with_tools msgs w i = Raise e.

(** [0.5 * 2^attempt] seconds. *)
Definition backoff (attempt : Z) : Q := (inject_Z (2 ^ attempt) * (1 # 2))%Q.

(** The log of [n] failed attempts, each followed by its backoff sleep: the
    calls are numbered from [call], the attempts from [attempt]. *)
Fixpoint retry_log (call : nat) (attempt : Z) (n : nat) : list Event :=
  match n with
  | O => []
  | S n' =>
      LLMCalled call :: Slept (backoff attempt)
        :: retry_log (S call) (attempt + 1) n'
  end.



(** How the loop ends with [remaining] attempts left, the next one numbered
    [attempt], in the world [w]: with the answer of an attempt, with the
    error of the loop's end, with the [OverflowError] of a waiting time, or
    with a cancellation, during a model call or during a sleep. *)
Definition loop_ends (llm : LLM) (self : BaseAgent.t) (with_tools : bool)
    (msgs : list BaseMessage)
    (remaining : nat) (attempt : Z) (last : option exception)
    (w : World) (r : Outcome BaseMessage) (w' : World) : Prop :=
  let call := llm_calls w in
  let outcome := attempt_outcome llm with_tools msgs in
  let failed := attempt_failed llm with_tools msgs in
  match r with
  | Done (Return response) =>
      exists j reply,
        (j < remaining)%nat
        /\ attempt + Z.of_nat j <= 1024
        /\ llm_calls w' = (call + S j)%nat
        /\ (forall i, (i < j)%nat -> failed w i)
        /\ outcome w j = Return reply
        /\ response = BaseAgent.as_AIMessage reply
        /\ log w' = log w ++ retry_log call attempt j ++ [LLMCalled (call + j)]
  | Done (Raise e) =>
      (llm_calls w' = (call + remaining)%nat
       /\ (forall i, (i < remaining)%nat -> failed w i)
       /\ (remaining <> O -> attempt + Z.of_nat remaining <= 1025)
       /\ e = BaseAgent.llm_error self
                match remaining with
                | O => last
                | S n => match outcome w n with
                         | Raise e' => Some e'
                         | Return _ => None
                         end
                end
       /\ log w' = log w ++ match remaining with
                            | O => []
                            | S n => retry_log call attempt n ++ [LLMCalled (call + n)]
                            end)
      \/ (exists j,
            (S j < remaining)%nat
            /\ attempt + Z.of_nat j = 1024
            /\ llm_calls w' = (call + S j)%nat
            /\ (forall i, (i <= j)%nat -> failed w i)
            /\ e = PyError "OverflowError" "int too large to convert to float"
            /\ log w' = log w ++ retry_log call attempt j ++ [LLMCalled (call + j)])
  | Cancelled =>
      cancel_at w = Some (pred (length (log w')))
      /\ exists j,
           (j < remaining)%nat
           /\ attempt + Z.of_nat j <= 1024
           /\ llm_calls w' = (call + S j)%nat
           /\ (forall i, (i < j)%nat -> failed w i)
           /\ (log w' = log w ++ retry_log call attempt j ++ [LLMCalled (call + j)]
               \/ (failed w j /\ (S j < remaining)%nat
                   /\ log w' = log w ++ retry_log call attempt (S j)))
  end.


(** The fenced-block policy in the words of the specification.  [before sep
    s] is [s] up to the first occurrence of [sep] (all of [s] when there is
    none); the contents of the block opened by [marker] are what follows
    the first [marker], up to the next [marker] and up to the next fence. *)
Definition before (sep s : string) : string :=
  match partition sep s with Some (a, _) => a | None => s end.

Definition block_contents (marker content : string) : option string :=
  match partition marker content with
  | Some (_, rest) => Some (before "```" (before marker rest))
  | None => None
  end.

(** [has_char c s]: the character [c] occurs in [s]. *)
Fixpoint has_char (c : ascii) (s : string) : bool :=
  match s with
  | EmptyString => false
  | String a s' => Ascii.eqb c a || has_char c s'
  end.

(** The candidate text: the contents of a [```json] block if there is one,
    else those of the first fenced block if there is one, else the whole
    text. *)
Definition candidate_text (content : string) : string :=
  match block_contents "```json" content with
  | Some c => c
  | None =>
      match block_contents "```" content with
      | Some c => c
      | None => content
      end
  end.

(** The decision kind that a text names: one of the four kinds that the
    strategy analyzer is asked for, and [hold] for any other text. *)
Definition kind_named (s : string) : DecisionType :=
  if decide (s = "buy") then BUY
  else if decide (s = "sell") then SELL
  else if decide (s = "observe") then OBSERVE
  else HOLD.

(** The exceptions of [json.loads] that the strategy analyzer turns into
    its fallback result: the instances of the three classes named by its
    [except] clause. *)
Definition parse_failure (e : exception) : Prop :=
  exists cls msg,
    e = PyError cls msg
    /\ (cls = "JSONDecodeError" \/ cls = "IndexError" \/ cls = "KeyError").

(** What an agent contributes to the two dictionaries of the merge. *)
Definition contribution (agent_id : string) (r : Result pyval)
    (acc : pydict * pydict) : pydict * pydict :=
  match r with
  | Raise e => (acc.1, <[agent_id := VStr (exception_str e)]> acc.2)
  | Return v => (<[agent_id := v]> acc.1, acc.2)
  end.

(** The same when a dictionary that has an [agent_outputs] entry, itself
    a dictionary, stands for a state: its outputs are merged into the
    outputs, replacing the entries of the same keys. *)
Definition merge_step (agent_id : string) (r : Result pyval)
    (acc : pydict * pydict) : pydict * pydict :=
  match r with
  | Return (VDict d) =>
      match d !! "agent_outputs" with
      | Some (VDict sub) => (sub ∪ acc.1, acc.2)
      | _ => contribution agent_id r acc
      end
  | _ => contribution agent_id r acc
  end.

(** A handler result that is an exception, a dictionary without
    [agent_outputs] entry, or a state whose [agent_outputs] entry is a
    dictionary. *)
Definition state_or_plain (r : Result pyval) : Prop :=
  match r with
  | Raise _ => True
  | Return (VDict d) =>
      d !! "agent_outputs" = None \/ exists sub, d !! "agent_outputs" = Some (VDict sub)
  | Return _ => False
  end.

(** A handler result the merge records under the agent's own id: an
    exception, or a dictionary that is not a state carrying
    [agent_outputs]. *)
Definition plain (r : Result pyval) : Prop :=
  match r with
  | Raise _ => True
  | Return (VDict d) => d !! "agent_outputs" = None
  | Return _ => False
  end.

(** * The rest of the agent layer

    The functions of the same source files that the statements above do
    not reach, and the callers of [BaseAgent.run]. *)

(** ** agents/tools/base.py: the other methods of the registry *)

Module ToolRegistryOps.
Import ToolRegistry.

(** [get_all]: a copy of the tool dictionary. *)
Definition get_all (self : t) : gmap string Tool := _tools self.

(** [get_names]: the keys of the tool dictionary (in the order of the
    embedding's dictionary, not in Python's insertion order). *)
Definition get_names (self : t) : list string :=
  List.map fst (map_to_list (_tools self)).

(** [clear]: both dictionaries are emptied. *)
Definition clear (self : t) : t := {| _tools := ∅; _metadata := ∅ |}.

(** A call of one of the methods that change the registry. *)
Inductive Op : Type :=
| Register (tool : Tool) (metadata : option ToolMetadata)
| Unregister (name : string)
| Clear.

Definition apply (self : t) (op : Op) : t :=
  match op with
  | Register tool metadata => register self tool metadata
  | Unregister name => unregister self name
  | Clear => clear self
  end.

(** The registry after a sequence of calls. *)
Definition after (self : t) (ops : list Op) : t := foldl apply self ops.

End ToolRegistryOps.

(** [BaseAgentTool]: a tool that carries its own category and version. *)
Module BaseAgentTool.
Import ToolRegistry.

Record t := {
  tool : Tool;
  description : string;
  category : ToolCategory;
  version : string
}.

(** [BaseAgentTool.get_metadata]. *)
Definition get_metadata (self : t) : ToolMetadata :=
  {| md_name := tool_name (tool self);
     md_description := description self;
     md_category := category self;
     md_version := version self;
     md_author := "";
     md_tags := [];
     md_requires_api_key := false;
     md_rate_limit := None |}.

(** [BaseAgentTool.register]: [tool_registry.register(self,
    self.get_metadata())]. *)
Definition register (tool_registry : ToolRegistry.t) (self : t) : ToolRegistry.t :=
  ToolRegistry.register tool_registry (tool self) (Some (get_metadata self)).

End BaseAgentTool.

(** ** agents/core/factory.py: the registry of agent classes and the other
    methods of the factory *)

Module AgentRegistryOps.
Import AgentRegistry.

Definition empty : t := {| _agents := ∅; _agent_configs := ∅ |}.

(** [AgentRegistry.register]. *)
Definition register (self : t) (agent_type : AgentType) (agent_class : AgentClass) : t :=
  {| _agents := <[agent_type := agent_class]> (_agents self);
     _agent_configs := _agent_configs self |}.

(** [AgentRegistry.register_config]: the key is the [agent_id] given, not
    the one inside the configuration. *)
Definition register_config (self : t) (agent_id : string) (config : AgentConfig) : t :=
  {| _agents := _agents self;
     _agent_configs := <[agent_id := config]> (_agent_configs self) |}.

(** [AgentRegistry.unregister]: only the class is removed. *)
Definition unregister (self : t) (agent_type : AgentType) : t :=
  {| _agents := delete agent_type (_agents self);
     _agent_configs := _agent_configs self |}.

(** [AgentRegistry.clear]. *)
Definition clear (self : t) : t := empty.

End AgentRegistryOps.

Module AgentFactoryOps.
Import AgentFactory.

(** [AgentFactory.create_from_id]. *)
Definition create_from_id (registry : AgentRegistry.t) (self : t)
    (agent_id : string) (llm : option LLM) (tools : option (list Tool))
  : Result AgentObject :=
  match AgentRegistry.get_config registry agent_id with
  | None =>
      Raise (AgentError AGENT_NOT_FOUND
               ("Agent config for '" +:+ agent_id +:+ "' not found")
               None None ∅ None)
  | Some config => create registry self (cfg_agent_type config) config llm tools
  end.

(** [create_tools], the tool factory of [create_default_factory]: the
    names the tool registry does not know are left out. *)
Definition create_tools (tool_registry : ToolRegistry.t) (tool_names : list string)
  : list Tool :=
  omap (ToolRegistry.get tool_registry) tool_names.

End AgentFactoryOps.


(** ** Vocabulary of the statements on the registries *)

(** Every tool is stored under its own name, and metadata is recorded only
    for names that hold a tool. *)
Definition registry_consistent (self : ToolRegistry.t) : Prop :=
  (forall name tool, ToolRegistry.get self name = Some tool -> tool_name tool = name)
  /\ (forall name, is_Some (ToolRegistry.get_metadata self name) ->
                   is_Some (ToolRegistry.get self name)).



(** ** Vocabulary of the statements on tool calls *)

(** What [_execute_tool_calls] puts in its result list for one call, the
    tool being invoked as the [n]-th tool call of the run: the value the
    tool returns, or the text of the error. *)
Definition tool_call_result (self : BaseAgent.t) (n : nat) (tc : ToolCallReq) : pyval :=
  match BaseAgent.get_tool self (tc_name tc) with
  | None => VStr ("Error: Tool '" +:+ tc_name tc +:+ "' not found")
  | Some tool =>
      match tool_ainvoke tool n (tc_args tc) with
      | Return v => v
      | Raise e =>
          VStr ("Error: Tool '" +:+ tc_name tc +:+ "' execution failed: "
                  +:+ exception_str e)
      end
  end.

(** The calls among [tcs] that name a tool of the agent. *)
Definition known_calls (self : BaseAgent.t) (tcs : list ToolCallReq) : list ToolCallReq :=
  filter (fun tc => is_Some (BaseAgent.get_tool self (tc_name tc))) tcs.

(** ** Vocabulary of the statements on the factory *)

(** The two errors that [AgentFactory.create] raises by itself, and the
    one in which it wraps an exception of the agent class. *)
Definition not_registered (agent_type : AgentType) : exception :=
  AgentError AGENT_NOT_FOUND
    ("Agent type '" +:+ AgentType_value agent_type +:+ "' is not registered")
    None (Some agent_type) ∅ None.

Definition no_llm (agent_type : AgentType) : exception :=
  AgentError AGENT_INITIALIZATION_FAILED "No LLM instance or factory provided"
    None (Some agent_type) ∅ None.

Definition creation_failed (agent_type : AgentType) (cause : exception) : exception :=
  AgentError AGENT_INITIALIZATION_FAILED
    ("Failed to create agent: " +:+ exception_str cause)
    None (Some agent_type) ∅ (Some cause).

(** Why a call of [create] failed. *)
Inductive create_failure (registry : AgentRegistry.t) (self : AgentFactory.t)
    (agent_type : AgentType) (config : AgentConfig)
    (llm : option LLM) (tools : option (list Tool)) : exception -> Prop :=
| Unregistered_type :
    AgentRegistry.get_class registry agent_type = None ->
    create_failure registry self agent_type config llm tools (not_registered agent_type)
| No_llm :
    llm = None -> AgentFactory._llm_factory self = None ->
    create_failure registry self agent_type config llm tools (no_llm agent_type)
| Llm_factory_raised (mk : string -> Result LLM) (e : exception) :
    llm = None -> AgentFactory._llm_factory self = Some mk ->
    mk (cfg_model_name config) = Raise e ->
    create_failure registry self agent_type config llm tools e
| Tool_factory_raised (mk : list string -> Result (list Tool)) (e : exception) :
    tools = None -> cfg_allowed_tools config <> [] ->
    AgentFactory._tool_factory self = Some mk ->
    mk (cfg_allowed_tools config) = Raise e ->
    create_failure registry self agent_type config llm tools e
| Class_raised (agent_class : AgentClass) (l : LLM) (ts : option (list Tool))
    (cause : exception) :
    AgentRegistry.get_class registry agent_type = Some agent_class ->
    agent_class config l ts = Raise cause ->
    create_failure registry self agent_type config llm tools
      (creation_failed agent_type cause).

(** ** agents/implementations/strategy_analyzer.py: the other agents *)

Module RiskAssessorAgent.

(** The exceptions named by the [except] clause. *)
Definition handled (e : exception) : bool :=
  match e with
  | PyError cls _ => bool_decide (cls = "JSONDecodeError") || bool_decide (cls = "IndexError")
  | AgentError _ _ _ _ _ _ => false
  end.

Section Extract.
(** [json.loads]. *)
Variable json_loads : string -> Result pyval.

(** The body of the [try] block. *)
Definition extract_body (content : string) : Result (pyval * list Decision) :=
  match json_candidate content with
  | Raise e => Raise e
  | Return json_str =>
      match json_loads (strip json_str) with
      | Raise e => Raise e
      | Return result => Return (result, [])
      end
  end.

(** [RiskAssessorAgent.extract_result]. *)
Definition extract_result (self : BaseAgent.t) (response : BaseMessage) (st : AgentState)
  : Result (pyval * list Decision) :=
  let content := msg_content response in
  match extract_body content with
  | Raise e =>
      if handled e
      then Return (VDict (<["raw_response" := VStr content]> ∅), [])
      else Raise e
  | r => r
  end.
End Extract.

End RiskAssessorAgent.

Module SignalGeneratorAgent.

(** The exceptions named by the [except] clause. *)
Definition handled (e : exception) : bool :=
  match e with
  | PyError cls _ => bool_decide (cls = "JSONDecodeError") || bool_decide (cls = "IndexError")
  | AgentError _ _ _ _ _ _ => false
  end.

(** [decision_type_map.get(signal, DecisionType.HOLD)] with the three keys
    [buy], [sell] and [hold]; a key that cannot be hashed makes the lookup
    raise. *)
Definition decision_type_map_get (key : pyval) : Result DecisionType :=
  match key with
  | VStr s =>
      Return (if decide (s = "buy") then BUY
              else if decide (s = "sell") then SELL
              else HOLD)
  | VList _ | VDict _ =>
      Raise (PyError "TypeError" ("unhashable type: '" +:+ type_name key +:+ "'"))
  | _ => Return HOLD
  end.

(** [result.get(key)] on a dictionary: [None] when the key is missing. *)
Definition get_or_None (o : pydict) (key : string) : pyval :=
  default VNone (o !! key).

(** The [supporting_data] of the decision. *)
Definition supporting (o : pydict) : pydict :=
  <["entry_price" := get_or_None o "entry_price"]>
  (<["stop_loss" := get_or_None o "stop_loss"]>
  (<["take_profit" := get_or_None o "take_profit"]>
  (<["position_size" := get_or_None o "position_size"]>
  (<["time_frame" := get_or_None o "time_frame"]> ∅)))).

Section Extract.
(** [json.loads]. *)
Variable json_loads : string -> Result pyval.

(** The body of the [try] block. *)
Definition extract_body (content : string) (st : AgentState)
  : Result (pyval * list Decision) :=
  match json_candidate content with
  | Raise e => Raise e
  | Return json_str =>
      match json_loads (strip json_str) with
      | Raise e => Raise e
      | Return result =>
          match py_get result "signal" (VStr "hold") with
          | Raise e => Raise e
          | Return signal =>
              match decision_type_map_get signal with
              | Raise e => Raise e
              | Return dt =>
                  let o := match result with VDict o => o | _ => ∅ end in
                  Return (result,
                          [{| decision_type := dt;
                              symbol := default (VStr "UNKNOWN") (task_input st !! "symbol");
                              confidence := default (VFloat (1 # 2)) (o !! "confidence");
                              reasoning := VList [default (VStr "") (o !! "notes")];
                              risk_factors := VList [];
                              supporting_data := supporting o;
                              recommended_action := VStr "" |}])
              end
          end
      end
  end.

(** [SignalGeneratorAgent.extract_result]. *)
Definition extract_result (self : BaseAgent.t) (response : BaseMessage) (st : AgentState)
  : Result (pyval * list Decision) :=
  let content := msg_content response in
  match extract_body content st with
  | Raise e =>
      if handled e
      then Return (VDict (<["raw_response" := VStr content]> ∅), [])
      else Raise e
  | r => r
  end.
End Extract.

End SignalGeneratorAgent.

(** ** Vocabulary of the statements on extraction *)

(** The exceptions of [json.loads] that the risk assessor, the signal
    generator, the orchestrator and the supervisor turn into their fallback
    result: the instances of the two classes named by their [except]
    clauses. *)
Definition decode_failure (e : exception) : Prop :=
  exists cls msg,
    e = PyError cls msg /\ (cls = "JSONDecodeError" \/ cls = "IndexError").

(** The fallback result of the agents. *)
Definition raw_response (content : string) : pyval :=
  VDict (<["raw_response" := VStr content]> ∅).

(** ** Truth values and comparisons of Python data *)

(** [bool(v)]. *)
Definition truthy (v : pyval) : bool :=
  match v with
  | VNone => false
  | VBool b => b
  | VInt z => negb (z =? 0)
  | VFloat q => negb (Qeq_bool q 0)
  | VStr s => negb (bool_decide (s = ""))
  | VList l => match l with [] => false | _ => true end
  | VDict d => negb (bool_decide (d = ∅))
  end.

(** [v >= n] for an [int] [n]: a number is compared, anything else raises
    [TypeError]. *)
Definition py_ge (v : pyval) (n : Z) : Result bool :=
  match py_number v with
  | Some q => Return (Qle_bool (inject_Z n) q)
  | None =>
      Raise (PyError "TypeError"
               ("'>=' not supported between instances of '" +:+ type_name v
                  +:+ "' and 'int'"))
  end.

(** ** agents/workflows/engine.py: [create_should_continue] *)

Module Engine.

(** An extra end condition: a function of the state whose result is used
    as a truth value; it may raise. *)
Definition Condition : Type := pydict -> Result pyval.

(** [for condition in end_conditions: if condition(state): return "end"],
    then [return "continue"]. *)
Fixpoint check_conditions (end_conditions : list Condition) (state : pydict)
  : Result string :=
  match end_conditions with
  | [] => Return "continue"
  | condition :: rest =>
      match condition state with
      | Raise e => Raise e
      | Return v => if truthy v then Return "end" else check_conditions rest state
      end
  end.

(** The function [should_continue] that [create_should_continue] returns. *)
Definition create_should_continue (max_iterations : Z)
    (end_conditions : option (list Condition)) (state : pydict) : Result string :=
  let end_conditions := default [] end_conditions in
  if truthy (default (VBool false) (state !! "should_end")) then Return "end"
  else
    match py_ge (default (VInt 0) (state !! "iteration_count")) max_iterations with
    | Raise e => Raise e
    | Return true => Return "end"
    | Return false => check_conditions end_conditions state
    end.

End Engine.

(** ** agents/workflows/strategy_workflow.py: [ResearchWorkflow] *)

Module ResearchWorkflow.

(** The routing function [should_continue] of [ResearchWorkflow.setup]:
    the iteration count is tested first. *)
Definition should_continue (max_iterations : Z) (state : pydict) : Result string :=
  match py_ge (default (VInt 0) (state !! "iteration_count")) max_iterations with
  | Raise e => Raise e
  | Return true => Return "finish"
  | Return false =>
      if truthy (default (VBool false) (state !! "should_end")) then Return "finish"
      else Return "continue"
  end.

End ResearchWorkflow.

(** ** Vocabulary of the statements on the routing functions *)

(** A condition that returns a false value on the state. *)
Definition passes (state : pydict) (condition : Engine.Condition) : Prop :=
  exists v, condition state = Return v /\ truthy v = false.

(** The state's [should_end] flag as a truth value, [False] when absent. *)
Definition flag_set (state : pydict) : bool :=
  truthy (default (VBool false) (state !! "should_end")).

(** The state's iteration count as a number, [0] when absent. *)
Definition count_of (state : pydict) : option Q :=
  py_number (default (VInt 0) (state !! "iteration_count")).

(** ** Iterating over Python data *)

(** [for x in v]: the elements of a list, the characters of a string, the
    keys of a dictionary; anything else is not iterable.  The embedding's
    dictionaries do not keep the order in which Python lists the keys, so a
    dictionary of two keys or more has no answer here. *)
Definition py_iter (v : pyval) : option (Result (list pyval)) :=
  match v with
  | VList l => Some (Return l)
  | VStr s => Some (Return (List.map VStr (utf8_chars s)))
  | VDict d =>
      match map_to_list d with
      | [] => Some (Return [])
      | [kv] => Some (Return [VStr kv.1])
      | _ => None
      end
  | _ =>
      Some (Raise (PyError "TypeError"
                     ("'" +:+ type_name v +:+ "' object is not iterable")))
  end.

(** ** agents/core/base.py: the rest of [PlanAndExecuteAgent] *)

Module PlanAndExecute.

(** [summarize_results]. *)
Definition summarize_results (results : list pyval) (agent_input : AgentInput) : pyval :=
  VDict (<["steps_completed" := VInt (Z.of_nat (length results))]>
         (<["results" := VList results]> ∅)).

Section Execute.
Variable llm : LLM.
(** [str] on data values. *)
Variable py_str : pyval -> string.
(** [json.loads]. *)
Variable json_loads : string -> Result pyval.

(** [execute_step]: one model call on the messages of the state followed
    by the step. *)
Definition execute_step (self : BaseAgent.t) (step : pyval) (st : AgentState)
    (agent_input : AgentInput) : M (pyval * list Decision) :=
  let step_message := HumanMessage ("请执行以下步骤:
" +:+ py_str step) in
  let msgs := messages st ++ [step_message] in
  let* response := BaseAgent.invoke_llm llm self msgs true in
  ret (VDict (<["step" := step]> (<["result" := VStr (msg_content response)]> ∅)),
       []).

(** The loop [for step in plan] of [execute], with the results and the
    decisions collected so far. *)
Fixpoint execute_steps (self : BaseAgent.t) (steps : list pyval) (st : AgentState)
    (agent_input : AgentInput) (results : list pyval) (ds : list Decision)
  : M (list pyval * list Decision) :=
  match steps with
  | [] => ret (results, ds)
  | step :: rest =>
      let* (step_result, step_decisions) := execute_step self step st agent_input in
      execute_steps self rest st agent_input
        (results ++ [step_result]) (ds ++ step_decisions)
  end.

(** [PlanAndExecuteAgent.execute]. *)
Definition execute (self : BaseAgent.t) (st : AgentState) (agent_input : AgentInput)
  : M (pyval * list Decision) :=
  let* plan := PlanAndExecuteAgent.create_plan llm py_str json_loads self agent_input in
  let* steps := settle (py_iter plan) in
  let* (results, ds) := execute_steps self steps st agent_input [] [] in
  ret (summarize_results results agent_input, ds).
End Execute.

End PlanAndExecute.

(** ** Vocabulary of the statements on plans *)

(** The record of one executed step. *)
Definition step_record (step : pyval) (text : string) : pyval :=
  VDict (<["step" := step]> (<["result" := VStr text]> ∅)).

(** ** Vocabulary of the statements on ReAct runs *)

(** The result dictionary of a ReAct run that took one pass and called no
    tool. *)
Definition single_pass_result (response : BaseMessage) : pyval :=
  VDict (<["response" := VStr (msg_content response)]>
         (<["tool_results" := VDict ∅]>
         (<["iteration_count" := VInt 1]> ∅))).

(** ** agents/core/types.py: [Decision.to_dict] *)

(** [DecisionType.value] and [ConfidenceLevel.value]. *)
Definition DecisionType_value (t : DecisionType) : string :=
  match t with
  | BUY => "buy" | SELL => "sell" | HOLD => "hold"
  | OBSERVE => "observe" | ALERT => "alert"
  end.

Definition ConfidenceLevel_value (l : ConfidenceLevel) : string :=
  match l with
  | VERY_HIGH => "very_high" | HIGH => "high" | MEDIUM => "medium"
  | LOW => "low" | VERY_LOW => "very_low"
  end.

(** [Decision.to_dict].  The [timestamp] field, which [Decision] leaves
    out, comes as its [isoformat] text.  The entries are evaluated in the
    order of the source; the only one that can raise is
    [confidence_level]. *)
Definition Decision_to_dict (self : Decision) (timestamp : string) : Result pydict :=
  match Decision_confidence_level self with
  | Raise e => Raise e
  | Return level =>
      Return (<["decision_type" := VStr (DecisionType_value (decision_type self))]>
              (<["symbol" := symbol self]>
              (<["confidence" := confidence self]>
              (<["confidence_level" := VStr (ConfidenceLevel_value level)]>
              (<["reasoning" := reasoning self]>
              (<["risk_factors" := risk_factors self]>
              (<["supporting_data" := VDict (supporting_data self)]>
              (<["recommended_action" := recommended_action self]>
              (<["timestamp" := VStr timestamp]> ∅)))))))))
  end.

(** The keys of the dictionary that [Decision.to_dict] builds. *)
Definition decision_keys : gset string :=
  {["decision_type"; "symbol"; "confidence"; "confidence_level"; "reasoning";
    "risk_factors"; "supporting_data"; "recommended_action"; "timestamp"]}.

(** ** agents/implementations/orchestrator.py *)

Module OrchestratorAgent.

(** The exceptions named by the [except] clauses of this file. *)
Definition handled (e : exception) : bool :=
  match e with
  | PyError cls _ => bool_decide (cls = "JSONDecodeError") || bool_decide (cls = "IndexError")
  | AgentError _ _ _ _ _ _ => false
  end.

(** The plan used when the model's answer does not decode. *)
Definition default_plan : pyval :=
  VDict (<["analysis_type" := VStr "default"]>
         (<["agents_to_call" := VList [VStr "technical_analyst"; VStr "risk_assessor"]]>
         (<["execution_order" := VStr "sequential"]>
         (<["reasoning" := VStr "使用默认执行计划"]> ∅)))).

Section ParsePlan.
(** [json.loads]. *)
Variable json_loads : string -> Result pyval.

(** The body of the [try] block of [_parse_plan]. *)
Definition parse_body (content : string) : Result pyval :=
  match json_candidate content with
  | Raise e => Raise e
  | Return json_str =>
      match json_loads (strip json_str) with
      | Raise e => Raise e
      | Return plan => Return plan
      end
  end.

(** [OrchestratorAgent._parse_plan]. *)
Definition _parse_plan (response : BaseMessage) : Result pyval :=
  match parse_body (msg_content response) with
  | Raise e => if handled e then Return default_plan else Raise e
  | r => r
  end.
End ParsePlan.

End OrchestratorAgent.

Module SupervisorAgent.

(** The result used when the model's answer does not decode. *)
Definition default_result (content : string) : pyval :=
  VDict (<["quality_score" := VFloat (1 # 2)]>
         (<["issues_found" := VList []]>
         (<["recommendations" := VList []]>
         (<["action" := VStr "approve"]>
         (<["raw_response" := VStr content]> ∅))))).

Section Execute.
Variable llm : LLM.
(** [json.dumps(_, indent=2, ensure_ascii=False)] on data values. *)
Variable json_dumps : pyval -> string.
(** [json.loads]. *)
Variable json_loads : string -> Result pyval.

(** The message that asks for the check. *)
Definition check_message (agent_input : AgentInput) (outputs : pydict) : string :=
  "请检查以下 Agent 的输出质量：

任务输入：
" +:+ json_dumps (VDict (in_content agent_input)) +:+ "

Agent 输出：
" +:+ json_dumps (VDict outputs) +:+ "

请给出你的评估。
".

(** The [try] block that decodes the answer, and its [except] clause. *)
Definition parse_result (content : string) : Result pyval :=
  match OrchestratorAgent.parse_body json_loads content with
  | Raise e =>
      if OrchestratorAgent.handled e then Return (default_result content) else Raise e
  | r => r
  end.

(** [SupervisorAgent.execute]. *)
Definition execute (self : BaseAgent.t) (st : AgentState) (agent_input : AgentInput)
  : M (pyval * list Decision) :=
  let msgs := messages st ++ [HumanMessage (check_message agent_input (agent_outputs st))] in
  let* response := BaseAgent.invoke_llm llm self msgs false in
  let* result := lift (parse_result (msg_content response)) in
  ret (result, []).
End Execute.

End SupervisorAgent.

(** ** agents/workflows/strategy_workflow.py: the first two nodes of the
    standard flow *)

Module StrategyDecisionWorkflow.

(** An agent as the workflow uses it: its id and its [run] method. *)
Record Agent := {
  agent_id : string;
  run : AgentInput -> M AgentOutput
}.

(** [AgentInput(task_id=state.get("task_id", ""), task_type=...,
    content=state.get("task_input", {}), context=...)].  [AgentInput] is
    typed in the embedding: the input exists when the state's [task_id] is a
    string or absent and its [task_input] a dictionary or absent, and the
    nodes are embedded on these states. *)
Definition node_input (state : pydict) (task_type : string) (context : pydict)
  : option AgentInput :=
  match default (VStr "") (state !! "task_id"),
        default (VDict ∅) (state !! "task_input") with
  | VStr id, VDict content =>
      Some {| in_task_id := id; in_task_type := task_type; in_content := content;
              in_context := context; in_metadata := ∅ |}
  | _, _ => None
  end.

(** [AgentState] called with [dict(state)] unpacked into keywords and with
    the keyword [agent_outputs]: a keyword given twice is a [TypeError].
    Otherwise the state is built, and the embedding has it when it can
    store the dictionary. *)
Definition with_outputs (state : pydict) (new_outputs : option pydict)
  : option (Result pydict) :=
  match state !! "agent_outputs" with
  | None => (fun outs => Return (<["agent_outputs" := VDict outs]> state)) <$> new_outputs
  | Some _ => Some (Raise (MultiAgentWorkflow.duplicate_keyword "agent_outputs"))
  end.

(** The node [collect_data]. *)
Definition collect_data (data_collector : Agent) (state : pydict) : option (M pydict) :=
  match node_input state "data_collection" ∅ with
  | None => None
  | Some agent_input =>
      Some (let* output := run data_collector agent_input in
            let* new_outputs :=
              lift (MultiAgentWorkflow.dict_of_entry state "agent_outputs") in
            settle (with_outputs state
                      (insert "data_collector" (out_result output) <$> new_outputs)))
  end.

(** [asyncio.gather] over the analyzers, each giving the pair of its id and
    its result.  The embedding runs them one after the other, in list
    order, which is one of the schedules; an exception of a run leaves the
    gathering. *)
Fixpoint run_analyzers (analyzers : list Agent) (agent_input : AgentInput)
  : M (list (string * pyval)) :=
  match analyzers with
  | [] => ret []
  | analyzer :: rest =>
      let* output := run analyzer agent_input in
      let* results := run_analyzers rest agent_input in
      ret ((agent_id analyzer, out_result output) :: results)
  end.

(** [dict(results)] on a list of pairs: a later pair replaces an earlier
    one of the same key. *)
Definition dict_of_pairs (pairs : list (string * pyval)) : pydict :=
  foldl (fun d kv => <[kv.1 := kv.2]> d) ∅ pairs.

(** The node [analyze]. *)
Definition analyze (analyzers : list Agent) (state : pydict) : option (M pydict) :=
  match node_input state "analysis" ∅ with
  | None => None
  | Some typed =>
      Some (let* collected_data :=
              lift (py_get (default (VDict ∅) (state !! "agent_outputs"))
                           "data_collector" (VDict ∅)) in
            let agent_input :=
              {| in_task_id := in_task_id typed; in_task_type := "analysis";
                 in_content := in_content typed;
                 in_context := <["collected_data" := collected_data]> ∅;
                 in_metadata := ∅ |} in
            let* results := run_analyzers analyzers agent_input in
            let* new_outputs :=
              lift (MultiAgentWorkflow.dict_of_entry state "agent_outputs") in
            settle (with_outputs state
                      (insert "analysis" (VDict (dict_of_pairs results)) <$> new_outputs)))
  end.

End StrategyDecisionWorkflow.

(** ** Vocabulary of the statements on the nodes *)

(** A node that does not return, in whatever world it runs: it ends in an
    exception, or with the cancellation of its task. *)
Definition never_returns (node : option (M pydict)) : Prop :=
  exists m, node = Some m
            /\ forall w r w', m w = Some (r, w') -> r = Cancelled \/ exists e, r = Raise e.

(** * Concrete inputs

    The values used below to run the embedding. *)

Definition decision_095 : Decision :=
  {| decision_type := BUY; symbol := VStr "600519"; confidence := VFloat (95 # 100);
     reasoning := VList []; risk_factors := VList []; supporting_data := ∅;
     recommended_action := VStr "" |}.

(** A printer standing for [str] on data values where one is needed to run
    an example; no statement depends on what it prints. *)
Definition show (v : pyval) : string :=
  match v with
  | VStr s => s
  | VInt z => Z_str z
  | VNone => "None"
  | VBool true => "True"
  | VBool false => "False"
  | _ => "<object>"
  end.

Definition analyst_config : AgentConfig :=
  {| cfg_agent_id := "strategy_analyzer_1";
     cfg_agent_type := STRATEGY_ANALYZER;
     cfg_name := "analyst";
     cfg_description := "";
     cfg_model_name := "qwen3-max";
     cfg_temperature := 7 # 10;
     cfg_max_tokens := 4096;
     cfg_max_retries := 3;
     cfg_timeout_seconds := 120;
     cfg_max_iterations := 2;
     cfg_allowed_tools := ["get_stock_price"];
     cfg_system_prompt := "";
     cfg_extra_config := ∅ |}.

(** A tool that answers every call with the same quote. *)
Definition price_tool : Tool :=
  {| tool_name := "get_stock_price";
     tool_ainvoke := fun _ _ => Return (VDict (<["price" := VInt 1700]> ∅)) |}.

Definition analyst : BaseAgent.t :=
  {| BaseAgent.config := analyst_config;
     BaseAgent.agent_type := STRATEGY_ANALYZER;
     BaseAgent.default_system_prompt := "You are a strategy analyst.";
     BaseAgent._format_task_message :=
       fun i => Return ("Analyse: " +:+ show (VDict (in_content i)));
     BaseAgent.tools := [price_tool] |}.

(** The analyst with 1030 retries allowed. *)
Definition patient_analyst : BaseAgent.t :=
  {| BaseAgent.config :=
       {| cfg_agent_id := "strategy_analyzer_1";
          cfg_agent_type := STRATEGY_ANALYZER;
          cfg_name := "analyst";
          cfg_description := "";
          cfg_model_name := "qwen3-max";
          cfg_temperature := 7 # 10;
          cfg_max_tokens := 4096;
          cfg_max_retries := 1030;
          cfg_timeout_seconds := 120;
          cfg_max_iterations := 2;
          cfg_allowed_tools := ["get_stock_price"];
          cfg_system_prompt := "";
          cfg_extra_config := ∅ |};
     BaseAgent.agent_type := STRATEGY_ANALYZER;
     BaseAgent.default_system_prompt := "You are a strategy analyst.";
     BaseAgent._format_task_message :=
       fun i => Return ("Analyse: " +:+ show (VDict (in_content i)));
     BaseAgent.tools := [price_tool] |}.

Definition task_600519 : AgentInput :=
  {| in_task_id := "task_1";
     in_task_type := "strategy_analysis";
     in_content := <["symbol" := VStr "600519"]> ∅;
     in_context := ∅;
     in_metadata := ∅ |}.

(** The same task with an empty task id. *)
Definition task_without_id : AgentInput :=
  {| in_task_id := "";
     in_task_type := "strategy_analysis";
     in_content := <["symbol" := VStr "600519"]> ∅;
     in_context := ∅;
     in_metadata := ∅ |}.

(** A model whose every call fails. *)
Definition llm_down : LLM :=
  fun _ _ _ => Raise (PyError "ConnectionError" "connection refused").

(** A model that asks for the price tool at every turn. *)
Definition llm_asks_tool : LLM :=
  fun n _ _ =>
    Return (ReplyAI "" [{| tc_name := "get_stock_price";
                           tc_args := VDict (<["symbol" := VStr "600519"]> ∅);
                           tc_id := "call_" +:+ Z_str (Z.of_nat n) |}]).

(** A model that fails twice and then answers with a decision. *)
Definition llm_third_time : LLM :=
  fun n _ _ =>
    if (n <? 2)%nat then Raise (PyError "TimeoutError" "timed out")
    else Return (ReplyAI (dq "{'decision':'buy','confidence':0.82,'reasoning':['strong momentum']}") []).

(** A model that always answers with the given text. *)
Definition llm_says (text : string) : LLM :=
  fun _ _ _ => Return (ReplyAI text []).

(** A decoder with a recursion limit, which CPython's [json.loads] has:
    beyond three opening brackets in a row it raises [RecursionError]. *)
Definition shallow_loads (s : string) : Result pyval :=
  if str_in "[[[[" s
  then Raise (PyError "RecursionError"
                "maximum recursion depth exceeded while decoding a JSON array from a unicode string")
  else Json.loads s.

Definition planner : BaseAgent.t :=
  {| BaseAgent.config :=
       {| cfg_agent_id := "orchestrator_1";
          cfg_agent_type := ORCHESTRATOR;
          cfg_name := "planner";
          cfg_description := "";
          cfg_model_name := "qwen3-max";
          cfg_temperature := 7 # 10;
          cfg_max_tokens := 4096;
          cfg_max_retries := 3;
          cfg_timeout_seconds := 120;
          cfg_max_iterations := 10;
          cfg_allowed_tools := [];
          cfg_system_prompt := "";
          cfg_extra_config := ∅ |};
     BaseAgent.agent_type := ORCHESTRATOR;
     BaseAgent.default_system_prompt := "You plan the work.";
     BaseAgent._format_task_message :=
       fun i => Return ("Plan: " +:+ show (VDict (in_content i)));
     BaseAgent.tools := [] |}.

(** A registry with one agent class, and a factory with nothing cached. *)
Definition analyst_class : AgentClass :=
  fun config llm tools =>
    Return {| obj_agent :=
                {| BaseAgent.config := config;
                   BaseAgent.agent_type := STRATEGY_ANALYZER;
                   BaseAgent.default_system_prompt := "You are a strategy analyst.";
                   BaseAgent._format_task_message :=
                     fun i => Return ("Analyse: " +:+ show (VDict (in_content i)));
                   BaseAgent.tools := default [] tools |};
              obj_llm := llm |}.

Definition registry0 : AgentRegistry.t :=
  {| AgentRegistry._agents := <[STRATEGY_ANALYZER := analyst_class]> ∅;
     AgentRegistry._agent_configs := ∅ |}.

Definition factory0 : AgentFactory.t :=
  {| AgentFactory._llm_factory := None;
     AgentFactory._tool_factory := None;
     AgentFactory._instances := ∅ |}.

Definition analyst_instance : AgentObject :=
  {| obj_agent := analyst; obj_llm := llm_down |}.

Definition factory1 : AgentFactory.t :=
  {| AgentFactory._llm_factory := None;
     AgentFactory._tool_factory := None;
     AgentFactory._instances := <["strategy_analyzer_1" := analyst_instance]> ∅ |}.

(** A call for another agent id, and a call for the first id again with
    another type, other settings, another model and no tools. *)
Definition call_other : AgentFactory.Call :=
  {| AgentFactory.call_registry := registry0;
     AgentFactory.call_agent_type := STRATEGY_ANALYZER;
     AgentFactory.call_config :=
       {| cfg_agent_id := "strategy_analyzer_2"; cfg_agent_type := STRATEGY_ANALYZER;
          cfg_name := "second"; cfg_description := ""; cfg_model_name := "qwen3-max";
          cfg_temperature := 7 # 10; cfg_max_tokens := 4096; cfg_max_retries := 3;
          cfg_timeout_seconds := 120; cfg_max_iterations := 10;
          cfg_allowed_tools := []; cfg_system_prompt := ""; cfg_extra_config := ∅ |};
     AgentFactory.call_llm := Some (llm_says "ok");
     AgentFactory.call_tools := None |}.

Definition call_again : AgentFactory.Call :=
  {| AgentFactory.call_registry := registry0;
     AgentFactory.call_agent_type := RISK_ASSESSOR;
     AgentFactory.call_config :=
       {| cfg_agent_id := "strategy_analyzer_1"; cfg_agent_type := RISK_ASSESSOR;
          cfg_name := "renamed"; cfg_description := "changed"; cfg_model_name := "other";
          cfg_temperature := 0; cfg_max_tokens := 16; cfg_max_retries := 1;
          cfg_timeout_seconds := 1; cfg_max_iterations := 1;
          cfg_allowed_tools := []; cfg_system_prompt := "x"; cfg_extra_config := ∅ |};
     AgentFactory.call_llm := Some (llm_says "ok");
     AgentFactory.call_tools := None |}.

(** Three analysts for the fan-out node: two return a result dictionary,
    the middle one raises. *)
Definition technical_handler : MultiAgentWorkflow.Handler :=
  fun _ => Return (VDict (<["trend" := VStr "up"]> ∅)).

Definition fundamental_handler : MultiAgentWorkflow.Handler :=
  fun _ => Raise (PyError "ValueError" "no filings found").

Definition sentiment_handler : MultiAgentWorkflow.Handler :=
  fun _ => Return (VDict (<["mood" := VStr "calm"]> ∅)).

Definition analysts : list string := ["technical"; "fundamental"; "sentiment"].

Definition analyst_handlers : gmap string MultiAgentWorkflow.Handler :=
  MultiAgentWorkflow.add_agent
    (MultiAgentWorkflow.add_agent
       (MultiAgentWorkflow.add_agent ∅ "technical" technical_handler)
       "fundamental" fundamental_handler)
    "sentiment" sentiment_handler.

(** A state before any node has written outputs or errors. *)
Definition fresh_state : pydict := <["task_id" := VStr "task_1"]> ∅.

(** The state as [BaseAgent._prepare_initial_state] fills it: the two
    dictionaries are present and empty. *)
Definition prepared_state : pydict :=
  <["agent_errors" := VDict ∅]> (<["agent_outputs" := VDict ∅]> fresh_state).

(** Handlers in the style of the workflow nodes of this repository: each
    returns the state with its result stored in [agent_outputs] under a key
    of its own choosing, here the same key for both. *)
Definition technical_node : MultiAgentWorkflow.Handler :=
  fun state =>
    Return (VDict (<["agent_outputs" :=
                       VDict (<["analysis" := VDict (<["trend" := VStr "up"]> ∅)]> ∅)]>
                     state)).

Definition sentiment_node : MultiAgentWorkflow.Handler :=
  fun state =>
    Return (VDict (<["agent_outputs" :=
                       VDict (<["analysis" := VDict (<["mood" := VStr "calm"]> ∅)]> ∅)]>
                     state)).

Definition node_handlers : gmap string MultiAgentWorkflow.Handler :=
  MultiAgentWorkflow.add_agent
    (MultiAgentWorkflow.add_agent
       (MultiAgentWorkflow.add_agent ∅ "technical" technical_node)
       "fundamental" fundamental_handler)
    "sentiment" sentiment_node.

(** Handlers of both styles: the first agent returns a result dictionary,
    the second raises, the third returns a state. *)
Definition mixed_handlers : gmap string MultiAgentWorkflow.Handler :=
  MultiAgentWorkflow.add_agent
    (MultiAgentWorkflow.add_agent
       (MultiAgentWorkflow.add_agent ∅ "technical" technical_handler)
       "fundamental" fundamental_handler)
    "sentiment" sentiment_node.

Definition mixed_of (agent_id : string) : MultiAgentWorkflow.Handler :=
  if decide (agent_id = "technical") then technical_handler
  else if decide (agent_id = "fundamental") then fundamental_handler
  else sentiment_node.

(** ** Further concrete inputs *)

(** An older tool of the same name as [price_tool], recorded as a news
    tool. *)
Definition quote_tool : Tool :=
  {| tool_name := "get_stock_price";
     tool_ainvoke := fun _ _ => Return (VDict (<["price" := VInt 1650]> ∅)) |}.

Definition news_metadata : ToolRegistry.ToolMetadata :=
  ToolRegistry.default_metadata "get_stock_price" ToolRegistry.NEWS.

Definition kline_tool : Tool :=
  {| tool_name := "get_kline";
     tool_ainvoke := fun _ _ => Return (VDict (<["count" := VInt 100]> ∅)) |}.

(** A registry built by three calls. *)
Definition registry_ops : list ToolRegistryOps.Op :=
  [ToolRegistryOps.Register quote_tool (Some news_metadata);
   ToolRegistryOps.Register kline_tool None;
   ToolRegistryOps.Unregister "get_macd"].





(** The state in which the analyst starts on the task, an answer that is
    JSON but no object, and the world after one model call. *)
Definition analyst_state : AgentState :=
  {| messages := [SystemMessage "You are a strategy analyst.";
                  HumanMessage "Analyse: <object>"];
     task_id := "task_1"; task_type := "strategy_analysis";
     task_input := <["symbol" := VStr "600519"]> ∅;
     current_agent := "strategy_analyzer_1";
     agent_outputs := ∅; agent_errors := ∅; tool_results := ∅;
     decisions := []; final_decision := None; metadata := ∅;
     iteration_count := 0; max_iterations := 2; should_end := false |}.

Definition list_answer : BaseMessage := AIMessage "[1, 2]" [].

Definition world1 : World :=
  {| llm_calls := 1; tool_invocations := 0; log := [LLMCalled 0]; cancel_at := None |}.

(** A data collector that answers every task with the same quote, and an
    analyzer that finds a trend. *)
Definition quote_collector : StrategyDecisionWorkflow.Agent :=
  {| StrategyDecisionWorkflow.agent_id := "data_collector_1";
     StrategyDecisionWorkflow.run :=
       fun agent_input =>
         ret (BaseAgent.output analyst agent_input COMPLETED
                (VDict (<["price" := VInt 1700]> ∅)) [] None) |}.

Definition trend_analyzer : StrategyDecisionWorkflow.Agent :=
  {| StrategyDecisionWorkflow.agent_id := "technical_analyst_1";
     StrategyDecisionWorkflow.run :=
       fun agent_input =>
         ret (BaseAgent.output analyst agent_input COMPLETED
                (VDict (<["trend" := VStr "up"]> ∅)) [] None) |}.

(** * Properties *)

(** ** Confidence tiers *)

Lemma Qle_bool_false (x y : Q) : Qle_bool x y = false <-> (y < x)%Q.
Proof.
  split; intros H.
  - apply Qnot_le_lt. intros Hle. apply Qle_bool_iff in Hle. congruence.
  - destruct (Qle_bool x y) eqn:E; [|reflexivity].
    apply Qle_bool_iff in E. exfalso. exact (Qlt_not_le _ _ H E).
Qed.

(** The thresholds are tested from the highest down, so each tier is an
    interval closed below and open above. *)
Lemma confidence_level_cases (c : Q) :
  ((9 # 10 <= c)%Q /\ confidence_level c = VERY_HIGH) \/
  ((75 # 100 <= c)%Q /\ (c < 9 # 10)%Q /\ confidence_level c = HIGH) \/
  ((5 # 10 <= c)%Q /\ (c < 75 # 100)%Q /\ confidence_level c = MEDIUM) \/
  ((25 # 100 <= c)%Q /\ (c < 5 # 10)%Q /\ confidence_level c = LOW) \/
  ((c < 25 # 100)%Q /\ confidence_level c = VERY_LOW).
Proof.
  unfold confidence_level.
  destruct (Qle_bool (9 # 10) c) eqn:E1.
  { left. split; [now apply Qle_bool_iff | reflexivity]. }
  apply Qle_bool_false in E1. right.
  destruct (Qle_bool (75 # 100) c) eqn:E2.
  { left. repeat split; [now apply Qle_bool_iff | exact E1]. }
  apply Qle_bool_false in E2. right.
  destruct (Qle_bool (5 # 10) c) eqn:E3.
  { left. repeat split; [now apply Qle_bool_iff | exact E2]. }
  apply Qle_bool_false in E3. right.
  destruct (Qle_bool (25 # 100) c) eqn:E4.
  { left. repeat split; [now apply Qle_bool_iff | exact E3]. }
  apply Qle_bool_false in E4. right. split; [exact E4 | reflexivity].
Qed.

Ltac tier_absurd :=
  match goal with
  | H1 : (?a <= ?c)%Q, H2 : (?c < ?b)%Q |- _ =>
      exfalso; apply (Qlt_irrefl c);
      apply (Qlt_le_trans _ _ _ H2); apply (Qle_trans _ a); [| exact H1];
      unfold Qle; simpl; lia
  end.

(** C6. For a decision whose confidence is the number [c], the tier is
    very_high iff [c >= 0.9], high iff [0.75 <= c < 0.9], medium iff
    [0.5 <= c < 0.75], low iff [0.25 <= c < 0.5] and very_low iff
    [c < 0.25]; the four thresholds themselves fall in the upper tier. *)
Theorem confidence_level_tiers (d : Decision) (c : Q) :
  py_number (confidence d) = Some c ->
  (Decision_confidence_level d = Return VERY_HIGH <-> (9 # 10 <= c)%Q) /\
  (Decision_confidence_level d = Return HIGH <-> (75 # 100 <= c)%Q /\ (c < 9 # 10)%Q) /\
  (Decision_confidence_level d = Return MEDIUM <-> (5 # 10 <= c)%Q /\ (c < 75 # 100)%Q) /\
  (Decision_confidence_level d = Return LOW <-> (25 # 100 <= c)%Q /\ (c < 5 # 10)%Q) /\
  (Decision_confidence_level d = Return VERY_LOW <-> (c < 25 # 100)%Q) /\
  confidence_level (9 # 10) = VERY_HIGH /\
  confidence_level (75 # 100) = HIGH /\
  confidence_level (5 # 10) = MEDIUM /\
  confidence_level (25 # 100) = LOW.
Proof.
  intros Hc. unfold Decision_confidence_level. rewrite Hc.
  pose proof (confidence_level_cases c) as Hcases.
  assert (Hinj : forall l, Return (confidence_level c) = Return l -> confidence_level c = l)
    by (intros l Heq; congruence).
  split; [|split; [|split; [|split; [|split; [|repeat split]]]]].
  all: try (split; [intros Hl; apply Hinj in Hl | intros Hr; f_equal]).
  all: destruct Hcases as [[? E]|[(? & ? & E)|[(? & ? & E)|[(? & ? & E)|[? E]]]]].
  all: repeat match goal with H : _ /\ _ |- _ => destruct H end.
  all: try (rewrite E in *; try discriminate).
  all: try reflexivity; try assumption; try (split; assumption); try tier_absurd.
Qed.

Lemma confidence_level_tiers_witness :
  py_number (confidence decision_095) = Some (95 # 100)
  /\ (Decision_confidence_level decision_095 = Return VERY_HIGH <-> (9 # 10 <= 95 # 100)%Q)
  /\ Decision_confidence_level decision_095 = Return VERY_HIGH.
Proof.
  split; [reflexivity |]. split; [|reflexivity].
  apply (confidence_level_tiers decision_095 (95 # 100)). reflexivity.
Defined.

(** The confidences of the specification's round trip, 0.95, 0.8, 0.6, 0.3
    and 0.1, and a confidence given as the integer 1. *)
Example confidence_level_round_trip :
  confidence_level (95 # 100) = VERY_HIGH
  /\ confidence_level (8 # 10) = HIGH
  /\ confidence_level (6 # 10) = MEDIUM
  /\ confidence_level (3 # 10) = LOW
  /\ confidence_level (1 # 10) = VERY_LOW
  /\ confidence_level (inject_Z 1) = VERY_HIGH.
Proof. repeat split. Qed.

(** ** The retry loop of [invoke_llm] *)





Lemma wait_time_small (attempt : Z) :
  attempt < 1024 -> BaseAgent.wait_time attempt = Return (backoff attempt).
Proof.
  intros H. unfold BaseAgent.wait_time.
  destruct (1024 <=? attempt) eqn:E; [apply Z.leb_le in E; lia | reflexivity].
Qed.

Lemma wait_time_large (attempt : Z) :
  1024 <= attempt ->
  BaseAgent.wait_time attempt
  = Raise (PyError "OverflowError" "int too large to convert to float").
Proof.
  intros H. unfold BaseAgent.wait_time.
  destruct (1024 <=? attempt) eqn:E; [reflexivity | apply Z.leb_gt in E; lia].
Qed.

(** An [await] logs its event and ends with the answer, or with the
    cancellation when the task is cancelled during this event. *)
Lemma await_eq {A} (ev : Event) (c t : nat) (r : Result A) (w : World) :
  await ev c t r w
  = Some (if bool_decide (cancel_at w = Some (length (log w))) then Cancelled else Done r,
          {| llm_calls := c; tool_invocations := t; log := log w ++ [ev];
             cancel_at := cancel_at w |}).
Proof. reflexivity. Qed.

Lemma pred_length_snoc {A} (l : list A) (x : A) : pred (length (l ++ [x])) = length l.
Proof. rewrite length_app. cbn. lia. Qed.

Section InvokeLLM.
Variable llm : LLM.
Variable self : BaseAgent.t.
Variable with_tools : bool.
Variable msgs : list BaseMessage.

Let max_retries := cfg_max_retries (BaseAgent.config self).

Local Abbreviation outcome := (attempt_outcome llm with_tools msgs).
Local Abbreviation failed := (attempt_failed llm with_tools msgs).

Local Abbreviation loop_ends := (loop_ends llm self with_tools msgs).

Lemma invoke_llm_loop_spec (remaining : nat) :
  forall (attempt : Z) (last : option exception) (w : World),
    (remaining <> O -> attempt + Z.of_nat remaining = max_retries /\ attempt <= 1024) ->
    exists r w',
      BaseAgent.invoke_llm_loop llm self with_tools msgs remaining attempt last w = Some (r, w')
      /\ tool_invocations w' = tool_invocations w
      /\ cancel_at w' = cancel_at w
      /\ loop_ends remaining attempt last w r w'.
Proof.
  induction remaining as [|n IH]; intros attempt last w Hinv.
  - exists (Done (Raise (BaseAgent.llm_error self last))), w.
    split; [reflexivity|]. split; [reflexivity|]. split; [reflexivity|].
    left. repeat split; [lia | intros i Hi; lia | congruence | now rewrite app_nil_r].
  - destruct (Hinv ltac:(discriminate)) as [Hsum Hsmall].
    cbn [BaseAgent.invoke_llm_loop]. unfold try_except, bind at 1.
    unfold BaseAgent.ainvoke at 1. rewrite await_eq.
    set (w1 := {| llm_calls := S (llm_calls w);
                  tool_invocations := tool_invocations w;
                  log := log w ++ [LLMCalled (llm_calls w)];
                  cancel_at := cancel_at w |}).
    destruct (bool_decide (cancel_at w = Some (length (log w)))) eqn:Hcancel.
    { (* the task is cancelled during the model call *)
      apply bool_decide_eq_true in Hcancel.
      exists Cancelled, w1. split; [reflexivity|]. split; [reflexivity|].
      split; [reflexivity|]. split.
      - cbn [log w1]. now rewrite pred_length_snoc.
      - exists 0%nat. split; [lia|]. split; [lia|]. split; [cbn; lia|].
        split; [intros i Hi; lia|]. left. cbn. now rewrite Nat.add_0_r. }
    destruct (llm (llm_calls w) with_tools msgs) as [reply|e] eqn:Hcall.
    + exists (Done (Return (BaseAgent.as_AIMessage reply))), w1.
      split; [reflexivity|]. split; [reflexivity|]. split; [reflexivity|].
      exists 0%nat, reply. cbn.
      repeat split; [lia | lia | lia | intros i Hi; lia | | now rewrite Nat.add_0_r].
      unfold attempt_outcome. now rewrite Nat.add_0_r.
    + assert (Hshift : forall i, outcome w1 i = outcome w (S i)).
      { intros i. unfold attempt_outcome. cbn. f_equal. lia. }
      assert (Hfail0 : failed w 0).
      { exists e. unfold attempt_outcome. now rewrite Nat.add_0_r. }
      assert (Hfails : forall j,
                 (forall i, (i < j)%nat -> failed w1 i) ->
                 forall i, (i < S j)%nat -> failed w i).
      { intros j Hj [|i] Hi; [exact Hfail0|].
        destruct (Hj i) as [x Hx]; [lia|]. exists x. rewrite <- Hshift. exact Hx. }
      destruct n as [|m].
      * (* the last attempt: no sleep, the loop ends *)
        assert (Hlt : (attempt <? max_retries - 1) = false) by (apply Z.ltb_ge; lia).
        fold max_retries. rewrite Hlt.
        exists (Done (Raise (BaseAgent.llm_error self (Some e)))), w1.
        split; [reflexivity|]. split; [reflexivity|]. split; [reflexivity|].
        left. repeat split.
        -- cbn. lia.
        -- intros i Hi. assert (i = 0)%nat as -> by lia. exact Hfail0.
        -- lia.
        -- unfold attempt_outcome. rewrite Nat.add_0_r, Hcall. reflexivity.
        -- cbn. now rewrite Nat.add_0_r.
      * assert (Hlt : (attempt <? max_retries - 1) = true) by (apply Z.ltb_lt; lia).
        fold max_retries. rewrite Hlt. unfold bind at 1. unfold bind at 1, lift.
        destruct (decide (attempt = 1024)) as [Hbig|Hbig].
        { (* the waiting time cannot be computed *)
          rewrite wait_time_large by lia.
          exists (Done (Raise (PyError "OverflowError" "int too large to convert to float"))), w1.
          split; [reflexivity|]. split; [reflexivity|]. split; [reflexivity|].
          right. exists 0%nat. repeat split.
          - lia.
          - lia.
          - cbn. lia.
          - intros i Hi. assert (i = 0)%nat as -> by lia. exact Hfail0.
          - cbn. now rewrite Nat.add_0_r. }
        rewrite wait_time_small by lia. unfold ret at 1.
        unfold BaseAgent.sleep at 1. rewrite await_eq.
        set (w2 := {| llm_calls := llm_calls w1;
                      tool_invocations := tool_invocations w1;
                      log := log w1 ++ [Slept (backoff attempt)];
                      cancel_at := cancel_at w1 |}).
        assert (Hlog : forall tail,
                   log w2 ++ tail
                   = log w ++ LLMCalled (llm_calls w) :: Slept (backoff attempt) :: tail).
        { intros tail. cbn. now rewrite <- !app_assoc. }
        destruct (bool_decide (cancel_at w1 = Some (length (log w1)))) eqn:Hcancel1.
        { (* the task is cancelled during the sleep *)
          apply bool_decide_eq_true in Hcancel1.
          exists Cancelled, w2. split; [reflexivity|]. split; [reflexivity|].
          split; [reflexivity|]. split.
          - cbn [log w2]. rewrite pred_length_snoc. exact Hcancel1.
          - exists 0%nat. split; [lia|]. split; [lia|]. split; [cbn; lia|].
            split; [intros i Hi; lia|]. right. split; [exact Hfail0|]. split; [lia|].
            rewrite <- (app_nil_r (log w2)), Hlog. reflexivity. }
        destruct (IH (attempt + 1) (Some e) w2) as (r & w' & Hrun & Htools & Hkeep & Hr);
          [intros _; lia|].
        exists r, w'. split; [exact Hrun|]. split; [exact Htools|]. split; [exact Hkeep|].
        assert (Hcalls : llm_calls w2 = S (llm_calls w)) by reflexivity.
        assert (Hsnoc : forall j,
                   log w2 ++ retry_log (S (llm_calls w)) (attempt + 1) j
                     ++ [LLMCalled (S (llm_calls w) + j)]
                   = log w ++ retry_log (llm_calls w) attempt (S j)
                       ++ [LLMCalled (llm_calls w + S j)]).
        { intros j. rewrite Hlog. cbn [retry_log app].
          now rewrite Nat.add_succ_comm. }
        assert (Hsnoc' : forall j,
                   log w2 ++ retry_log (S (llm_calls w)) (attempt + 1) j
                   = log w ++ retry_log (llm_calls w) attempt (S j)).
        { intros j. rewrite Hlog. reflexivity. }
        unfold loop_ends in *. rewrite Hcalls in Hr. destruct r as [[response|e']|].
        -- destruct Hr as (j & reply & Hj & Hsmallj & Hmade & Hfailed & Hok & Hresp & Hlogged).
           exists (S j), reply. repeat split.
           ++ lia.
           ++ lia.
           ++ lia.
           ++ now apply Hfails.
           ++ rewrite <- Hshift. exact Hok.
           ++ exact Hresp.
           ++ rewrite Hlogged. apply Hsnoc.
        -- destruct Hr as [(Hmade & Hfailed & Hbound & He & Hlogged)
                          |(j & Hj & Hat & Hmade & Hfailed & He & Hlogged)].
           ++ left. repeat split.
              ** lia.
              ** now apply Hfails.
              ** intros _. specialize (Hbound ltac:(discriminate)). lia.
              ** rewrite He. rewrite <- Hshift. reflexivity.
              ** rewrite Hlogged. apply Hsnoc.
           ++ right. exists (S j). repeat split.
              ** lia.
              ** lia.
              ** lia.
              ** intros i Hi. apply (Hfails (S j)); [|lia].
                 intros i' Hi'. apply Hfailed. lia.
              ** exact He.
              ** rewrite Hlogged. apply Hsnoc.
        -- destruct Hr as (Hat & j & Hj & Hsmallj & Hmade & Hfailed & Hlogged).
           split; [exact Hat|]. exists (S j). split; [lia|]. split; [lia|]. split; [lia|].
           split; [now apply Hfails|].
           destruct Hlogged as [Hlogged|(Hlast & Hleft & Hlogged)].
           ++ left. rewrite Hlogged. apply Hsnoc.
           ++ right. split.
              ** destruct Hlast as [x Hx]. exists x. rewrite <- Hshift. exact Hx.
              ** split; [lia|]. rewrite Hlogged. apply Hsnoc'.
Qed.

(** The loop as [invoke_llm] starts it. *)
Lemma invoke_llm_spec (use_tools : bool) (w : World) :
  with_tools = BaseAgent.bound_tools self use_tools ->
  exists r w',
    BaseAgent.invoke_llm llm self msgs use_tools w = Some (r, w')
    /\ tool_invocations w' = tool_invocations w
    /\ cancel_at w' = cancel_at w
    /\ loop_ends (Z.to_nat max_retries) 0 None w r w'.
Proof.
  intros Hbound. unfold BaseAgent.invoke_llm. rewrite <- Hbound.
  destruct (invoke_llm_loop_spec (Z.to_nat max_retries) 0 None w)
    as (r & w' & Hrun & Htools & Hkeep & Hr).
  { intros Hne. subst max_retries. split; lia. }
  exists r, w'. split; [exact Hrun|]. split; [exact Htools|]. split; [exact Hkeep | exact Hr].
Qed.
End InvokeLLM.


(** The helper on a model that fails twice and then answers: three calls,
    sleeps of 0.5 and 1 second in between, the third answer returned. *)
Example invoke_llm_third_time :
  BaseAgent.invoke_llm llm_third_time analyst [HumanMessage "hello"] true world0
  = Some (Done (Return (AIMessage (dq "{'decision':'buy','confidence':0.82,'reasoning':['strong momentum']}") [])),
          {| llm_calls := 3; tool_invocations := 0;
             log := [LLMCalled 0; Slept (1 # 2); LLMCalled 1; Slept (2 # 2); LLMCalled 2];
             cancel_at := None |}).
Proof. vm_compute. reflexivity. Qed.


(** A task cancelled during the first backoff sleep: the cancellation ends
    the helper, no second attempt is made. *)
Example invoke_llm_cancelled_asleep :
  BaseAgent.invoke_llm llm_down analyst [HumanMessage "hello"] true
    {| llm_calls := 0; tool_invocations := 0; log := []; cancel_at := Some 1%nat |}
  = Some (Cancelled,
          {| llm_calls := 1; tool_invocations := 0;
             log := [LLMCalled 0; Slept (1 # 2)]; cancel_at := Some 1%nat |}).
Proof. vm_compute. reflexivity. Qed.

(** With 1030 retries allowed and a model that is down, the helper does
    not end with [LLM_ERROR]: after the attempt number 1024 the waiting
    time overflows. *)
Example invoke_llm_overflow :
  fst <$> BaseAgent.invoke_llm llm_down patient_analyst [HumanMessage "hello"] true world0
  = Some (Done (Raise (PyError "OverflowError" "int too large to convert to float"))).
Proof. vm_compute. reflexivity. Qed.
(** ** [BaseAgent.run] *)

Section RunFacts.
Variable execute : BaseAgent.t -> AgentState -> AgentInput -> M (pyval * list Decision).
Variable self : BaseAgent.t.
Variable agent_input : AgentInput.

Lemma validate_input_empty :
  in_task_id agent_input = "" ->
  BaseAgent._validate_input self agent_input
  = Raise (BaseAgent.agent_error self INVALID_INPUT "Task ID is required" ∅ None).
Proof. intros H. unfold BaseAgent._validate_input. now rewrite decide_True. Qed.

Lemma validate_input_nonempty :
  in_task_id agent_input <> "" -> BaseAgent._validate_input self agent_input = Return tt.
Proof. intros H. unfold BaseAgent._validate_input. now rewrite decide_False. Qed.

(** The [try] block stops at a failed validation, before anything else. *)
Lemma try_body_invalid (w : World) :
  in_task_id agent_input = "" ->
  BaseAgent.try_body execute self agent_input w
  = Some (Raise (BaseAgent.agent_error self INVALID_INPUT "Task ID is required" ∅ None), w).
Proof.
  intros H. unfold BaseAgent.try_body, bind. now rewrite (validate_input_empty H).
Qed.

(** With a task id and a task message it goes on to [execute]. *)
Lemma try_body_valid (st : AgentState) (w : World) :
  in_task_id agent_input <> "" ->
  BaseAgent._prepare_initial_state self agent_input = Return st ->
  BaseAgent.try_body execute self agent_input w = execute self st agent_input w.
Proof.
  intros Hid Hst. unfold BaseAgent.try_body, bind.
  rewrite (validate_input_nonempty Hid), Hst. reflexivity.
Qed.

(** [run] on each outcome of its [try] block. *)
Lemma run_unfold (w : World) :
  BaseAgent.run execute self agent_input w
  = match BaseAgent.try_body execute self agent_input w with
    | Some (Done (Return (result, ds)), w') =>
        Some (Done (Return (BaseAgent.output self agent_input COMPLETED result ds None)), w')
    | Some (Done (Raise e), w') =>
        if is_AgentError e then Some (Done (Raise e), w')
        else Some (Done (Return (BaseAgent.output self agent_input FAILED (VDict ∅) []
                                   (Some (exception_str e)))), w')
    | Some (Cancelled, w') => Some (Cancelled, w')
    | None => None
    end.
Proof.
  unfold BaseAgent.run, try_except, bind.
  destruct (BaseAgent.try_body execute self agent_input w) as [[[[[result ds]|e]|] w']|];
    try reflexivity.
  destruct (is_AgentError e); reflexivity.
Qed.

Lemma run_invalid (w : World) :
  in_task_id agent_input = "" ->
  BaseAgent.run execute self agent_input w
  = Some (Raise (BaseAgent.agent_error self INVALID_INPUT "Task ID is required" ∅ None), w).
Proof. intros H. now rewrite run_unfold, (try_body_invalid w H). Qed.
End RunFacts.

(** C1, amended. [run] returns a [COMPLETED] output when its [try] block
    (validation, initial state, [execute]) returns, a [FAILED] output with
    the exception's message when the block raises an exception that is not
    an [AgentError], and re-raises to its caller the [AgentError] the block
    raises.  A cancellation of the task at an [await] of the block is not
    caught by [except Exception]: it ends [run], which ends that way in no
    other case.  So every output returned is [COMPLETED] or [FAILED], and
    an exception that [run] raises is an [AgentError] raised inside it. *)
Theorem run_returns_or_reraises
    (execute : BaseAgent.t -> AgentState -> AgentInput -> M (pyval * list Decision))
    (self : BaseAgent.t) (agent_input : AgentInput) (w : World) :
  let run := BaseAgent.run execute self agent_input w in
  let body := BaseAgent.try_body execute self agent_input w in
  match body with
  | Some (Done (Return (result, ds)), w') =>
      run = Some (Done (Return (BaseAgent.output self agent_input COMPLETED result ds None)),
                  w')
  | Some (Done (Raise e), w') =>
      if is_AgentError e then run = Some (Done (Raise e), w')
      else run = Some (Done (Return (BaseAgent.output self agent_input FAILED (VDict ∅) []
                                       (Some (exception_str e)))), w')
  | Some (Cancelled, w') => run = Some (Cancelled, w')
  | None => run = None
  end
  /\ (forall out w',
        run = Some (Done (Return out), w') ->
        (out_status out = COMPLETED /\ out_error out = None)
        \/ (out_status out = FAILED /\ exists msg, out_error out = Some msg))
  /\ (forall e w',
        run = Some (Done (Raise e), w') ->
        is_AgentError e = true /\ body = Some (Done (Raise e), w'))
  /\ (forall w', run = Some (Cancelled, w') <-> body = Some (Cancelled, w')).
Proof.
  intros run body. subst run. rewrite run_unfold. fold body.
  destruct body as [[[[[result ds]|e]|] w1]|].
  - split; [reflexivity|]. split; [|split].
    + intros out w' [= <- <-]. left. split; reflexivity.
    + intros e w' [=].
    + intros w'. split; intros [=].
  - destruct (is_AgentError e) eqn:He.
    + split; [reflexivity|]. split; [|split].
      * intros out w' [=].
      * intros e' w' [= <- <-]. split; [exact He | reflexivity].
      * intros w'. split; intros [=].
    + split; [reflexivity|]. split; [|split].
      * intros out w' [= <- <-]. right. split; [reflexivity|]. eexists. reflexivity.
      * intros e' w' [=].
      * intros w'. split; intros [=].
  - split; [reflexivity|]. split; [|split].
    + intros out w' [=].
    + intros e w' [=].
    + intros w'. split; intros [= ->]; reflexivity.
  - split; [reflexivity|]. split; [|split]; try (intros ? ? [=]).
    intros w'. split; intros [=].
Qed.

(** C4, amended. Validation raises exactly when the task id is the empty
    string, the exception is the [AgentError] with code [INVALID_INPUT], and
    [run] re-raises it to its caller at once: no model call, no retry and no
    output. *)
Theorem run_invalid_input
    (execute : BaseAgent.t -> AgentState -> AgentInput -> M (pyval * list Decision))
    (self : BaseAgent.t) (agent_input : AgentInput) (w : World) :
  let invalid := BaseAgent.agent_error self INVALID_INPUT "Task ID is required" ∅ None in
  ((exists e, BaseAgent._validate_input self agent_input = Raise e)
   <-> in_task_id agent_input = "")
  /\ (forall e, BaseAgent._validate_input self agent_input = Raise e ->
        e = invalid /\ error_code e = Some INVALID_INPUT
        /\ BaseAgent.run execute self agent_input w = Some (Raise e, w))
  /\ (in_task_id agent_input <> "" ->
        BaseAgent._validate_input self agent_input = Return tt).
Proof.
  intros invalid. split; [split|split].
  - intros [e He]. destruct (decide (in_task_id agent_input = "")) as [Hid|Hid]; [exact Hid|].
    rewrite (validate_input_nonempty self agent_input Hid) in He. discriminate.
  - intros Hid. eexists. now apply validate_input_empty.
  - intros e He. destruct (decide (in_task_id agent_input = "")) as [Hid|Hid].
    + rewrite (validate_input_empty self agent_input Hid) in He.
      injection He as <-. repeat split. now apply run_invalid.
    + rewrite (validate_input_nonempty self agent_input Hid) in He. discriminate.
  - apply validate_input_nonempty.
Qed.

(** ** The ReAct loop *)

Section ReActFacts.
Variable llm : LLM.
Variable py_str : pyval -> string.
Variable extract_result :
  BaseAgent.t -> BaseMessage -> AgentState -> Result (pyval * list Decision).
Variable self : BaseAgent.t.

Local Abbreviation react_loop := (ReActAgent.react_loop llm py_str extract_result).

Lemma invoke_llm_total (msgs : list BaseMessage) (use_tools : bool) (w : World) :
  exists r w', BaseAgent.invoke_llm llm self msgs use_tools w = Some (r, w').
Proof.
  destruct (invoke_llm_spec llm self (BaseAgent.bound_tools self use_tools) msgs
              use_tools w eq_refl) as (r & w' & H & _).
  eauto.
Qed.

Lemma execute_tool_total (name : string) (arguments : pyval) (w : World) :
  exists r w', BaseAgent.execute_tool self name arguments w = Some (r, w').
Proof.
  unfold BaseAgent.execute_tool.
  destruct (BaseAgent.get_tool self name) as [tool|]; [|unfold raise; eauto].
  unfold try_except, BaseAgent.tool_await. rewrite await_eq.
  destruct (bool_decide (cancel_at w = Some (length (log w)))); [eauto|].
  destruct (tool_ainvoke tool (tool_invocations w) arguments); unfold raise; eauto.
Qed.

Lemma execute_tool_calls_total (tcs : list ToolCallReq) :
  forall w, exists r w', ReActAgent._execute_tool_calls self tcs w = Some (r, w').
Proof.
  induction tcs as [|tc tcs IH]; intros w; cbn [ReActAgent._execute_tool_calls].
  - unfold ret. eauto.
  - unfold bind at 1, try_except.
    destruct (execute_tool_total (tc_name tc) (tc_args tc) w) as ([[v|e]|] & w1 & ->).
    + unfold bind. destruct (IH w1) as ([[rs|e]|] & w2 & ->); unfold ret; eauto.
    + destruct (is_AgentError e); unfold raise, ret.
      * unfold bind. destruct (IH w1) as ([[rs|e']|] & w2 & ->); eauto.
      * eauto.
    + eauto.
Qed.

(** With fuel for the remaining iterations the loop ends: it raises, or
    it stops in a state whose termination flag is set and whose counter
    has not passed the maximum (when the loop body ran at all). *)
Lemma react_loop_spec (fuel : nat) :
  forall (st : AgentState) (ds : list Decision) (w : World),
    (Z.to_nat (max_iterations st - iteration_count st) <= fuel)%nat ->
    exists r w',
      react_loop fuel self st ds w = Some (r, w')
      /\ match r with
         | Done (Return (st', _)) =>
             should_end st' = true
             /\ max_iterations st' = max_iterations st
             /\ (should_end st = true -> st' = st)
             /\ (should_end st = false ->
                 iteration_count st < iteration_count st' <= max_iterations st)
         | _ => True
         end.
Proof.
  induction fuel as [|fuel IH]; intros st ds w Hfuel.
  - cbn [ReActAgent.react_loop].
    destruct (should_end st) eqn:Hend.
    { eexists _, _. split; [reflexivity|]. cbn. repeat split; auto; discriminate. }
    destruct (max_iterations st <=? iteration_count st) eqn:Hmax.
    { eexists _, _. split; [reflexivity|]. exact I. }
    apply Z.leb_gt in Hmax. lia.
  - cbn [ReActAgent.react_loop].
    destruct (should_end st) eqn:Hend.
    { eexists _, _. split; [reflexivity|]. cbn. repeat split; auto; discriminate. }
    destruct (max_iterations st <=? iteration_count st) eqn:Hmax.
    { eexists _, _. split; [reflexivity|]. exact I. }
    apply Z.leb_gt in Hmax.
    unfold bind at 1.
    destruct (invoke_llm_total (messages st) true w) as ([[response|e]|] & w1 & ->);
      [|eexists _, _; split; [reflexivity | exact I]
       |eexists _, _; split; [reflexivity | exact I]].
    destruct (msg_tool_calls response) as [|tc tcs] eqn:Htcs.
    + (* no tool call: extraction, then the loop stops *)
      unfold bind at 1, lift.
      destruct (extract_result self response st) as [[res extracted]|e];
        [|eexists _, _; split; [reflexivity | exact I]].
      unfold ret at 1.
      match goal with |- context [react_loop fuel self ?s ?d ?w0] =>
        destruct (IH s d w0) as (r & w' & Hrun & Hr); [cbn; lia|];
        exists r, w'; split; [exact Hrun|] end.
      destruct r as [[[st' ds']|]|]; [|exact I|exact I].
      cbn in Hr. destruct Hr as (Hend' & Hmax' & Hsame & _).
      specialize (Hsame eq_refl). subst st'. cbn.
      repeat split; try lia; discriminate.
    + unfold bind at 1.
      destruct (execute_tool_calls_total (tc :: tcs) w1) as ([[results|e]|] & w2 & ->);
        [|eexists _, _; split; [reflexivity | exact I]
         |eexists _, _; split; [reflexivity | exact I]].
      match goal with |- context [react_loop fuel self ?s ?d ?w0] =>
        destruct (IH s d w0) as (r & w' & Hrun & Hr); [cbn; lia|];
        exists r, w'; split; [exact Hrun|] end.
      destruct r as [[[st' ds']|]|]; [|exact I|exact I].
      cbn in Hr. destruct Hr as (Hend' & Hmax' & _ & Hcount).
      specialize (Hcount eq_refl).
      repeat split; try lia; try assumption; discriminate.
Qed.

(** When the loop is about to run its body with the counter at the
    maximum, it raises [MAX_ITERATIONS_EXCEEDED]. *)
Lemma react_loop_guard (fuel : nat) (st : AgentState) (ds : list Decision) (w : World) :
  should_end st = false ->
  max_iterations st <= iteration_count st ->
  react_loop fuel self st ds w = Some (Raise (ReActAgent.max_iterations_error self st), w).
Proof.
  intros Hend Hmax. destruct fuel; cbn [ReActAgent.react_loop]; rewrite Hend;
    (destruct (max_iterations st <=? iteration_count st) eqn:E;
     [reflexivity | apply Z.leb_gt in E; lia]).
Qed.
End ReActFacts.

Lemma final_result_iteration_count (st : AgentState) :
  exists d, ReActAgent.final_result st = VDict d
            /\ d !! "iteration_count" = Some (VInt (iteration_count st)).
Proof.
  eexists. split; [reflexivity|].
  rewrite lookup_insert_ne by discriminate.
  rewrite lookup_insert_ne by discriminate.
  apply lookup_insert_eq.
Qed.

(** [ReActAgent.execute] ends, and what it returns carries a counter that
    has not passed the maximum, provided the loop was entered or the
    counter was within the maximum to begin with. *)
Lemma ReAct_execute_spec
    (llm : LLM)
    (py_str : pyval -> string)
    (extract_result : BaseAgent.t -> BaseMessage -> AgentState -> Result (pyval * list Decision))
    (self : BaseAgent.t) (st : AgentState) (agent_input : AgentInput) (w : World) :
  exists r w',
    ReActAgent.execute llm py_str extract_result self st agent_input w = Some (r, w')
    /\ match r with
       | Done (Return (result, _)) =>
           exists d n,
             result = VDict d /\ d !! "iteration_count" = Some (VInt n)
             /\ (should_end st = false -> iteration_count st < n <= max_iterations st)
             /\ (should_end st = true -> n = iteration_count st)
       | _ => True
       end.
Proof.
  unfold ReActAgent.execute, bind.
  destruct (react_loop_spec llm py_str extract_result self
              (Z.to_nat (max_iterations st - iteration_count st)) st [] w)
    as (r & w' & -> & Hr); [lia|].
  destruct r as [[[st' ds]|e]|]; eexists _, _; (split; [reflexivity|]);
    [|exact I|exact I].
  destruct Hr as (_ & _ & Hsame & Hcount).
  destruct (final_result_iteration_count st') as (d & Hd & Hlook).
  exists d, (iteration_count st'). repeat split; auto.
  - now apply Hcount.
  - now apply Hcount.
  - intros Hend. now rewrite (Hsame Hend).
Qed.

Lemma prepare_initial_state_fields
    (self : BaseAgent.t) (agent_input : AgentInput) (st : AgentState) :
  BaseAgent._prepare_initial_state self agent_input = Return st ->
  iteration_count st = 0 /\ should_end st = false
  /\ max_iterations st = cfg_max_iterations (BaseAgent.config self).
Proof.
  unfold BaseAgent._prepare_initial_state.
  destruct (BaseAgent._format_task_message self agent_input); [|discriminate].
  intros [= <-]. repeat split.
Qed.

(** C3, amended. A run of a ReAct agent ends.  The [iteration_count] of a
    returned result never exceeds [max_iterations].  When the loop is about
    to run its body with the counter at or above the maximum it raises
    [MAX_ITERATIONS_EXCEEDED], and [run] re-raises that error to its caller
    instead of returning an output. *)
Theorem react_iteration_bound
    (llm : LLM) (py_str : pyval -> string)
    (extract_result : BaseAgent.t -> BaseMessage -> AgentState -> Result (pyval * list Decision))
    (self : BaseAgent.t) (agent_input : AgentInput) (w : World) :
  let execute := ReActAgent.execute llm py_str extract_result in
  let react_loop := ReActAgent.react_loop llm py_str extract_result in
  let run := BaseAgent.run execute self agent_input w in
  let max := cfg_max_iterations (BaseAgent.config self) in
  (exists r w', run = Some (r, w'))
  /\ (forall out w',
        run = Some (Return out, w') ->
        (out_status out = FAILED /\ out_result out = VDict ∅)
        \/ (out_status out = COMPLETED
            /\ exists d n, out_result out = VDict d
                           /\ d !! "iteration_count" = Some (VInt n) /\ 0 < n <= max))
  /\ (forall fuel st ds w0,
        should_end st = false -> max_iterations st <= iteration_count st ->
        react_loop fuel self st ds w0
        = Some (Raise (ReActAgent.max_iterations_error self st), w0)
        /\ error_code (ReActAgent.max_iterations_error self st)
           = Some MAX_ITERATIONS_EXCEEDED)
  /\ (forall e w',
        BaseAgent.try_body execute self agent_input w = Some (Raise e, w') ->
        error_code e = Some MAX_ITERATIONS_EXCEEDED ->
        run = Some (Raise e, w')).
Proof.
  intros execute react_loop run max. subst run. rewrite run_unfold.
  (* the [try] block ends, and a result it returns comes from the loop *)
  assert (Hbody : exists r w1,
             BaseAgent.try_body execute self agent_input w = Some (r, w1)
             /\ match r with
                | Done (Return (result, _)) =>
                    exists d n, result = VDict d
                                /\ d !! "iteration_count" = Some (VInt n) /\ 0 < n <= max
                | _ => True
                end).
  { destruct (decide (in_task_id agent_input = "")) as [Hid|Hid].
    { rewrite (try_body_invalid execute self agent_input w Hid).
      eexists _, _. split; [reflexivity | exact I]. }
    destruct (BaseAgent._prepare_initial_state self agent_input) as [st|e] eqn:Hst.
    - rewrite (try_body_valid execute self agent_input st w Hid Hst).
      destruct (ReAct_execute_spec llm py_str extract_result self st agent_input w)
        as (r & w1 & Hexec & Hr).
      exists r, w1. split; [exact Hexec|].
      destruct r as [[[result ds]|]|]; [|exact I|exact I].
      destruct Hr as (d & n & Hd & Hlook & Hcount & _).
      destruct (prepare_initial_state_fields self agent_input st Hst) as (H0 & Hend & Hmax).
      specialize (Hcount Hend). exists d, n. repeat split; auto; subst max; lia.
    - unfold BaseAgent.try_body, bind.
      rewrite (validate_input_nonempty self agent_input Hid), Hst.
      eexists _, _. split; [reflexivity | exact I]. }
  destruct Hbody as (r & w1 & Hbody & Hr). rewrite Hbody.
  split; [|split; [|split]].
  - destruct r as [[[result ds]|e]|]; [eauto| |eauto]. destruct (is_AgentError e); eauto.
  - intros out w' Hrun. destruct r as [[[result ds]|e]|].
    + injection Hrun as <- <-. right. split; [reflexivity | exact Hr].
    + destruct (is_AgentError e); [discriminate|].
      injection Hrun as <- <-. left. split; reflexivity.
    + discriminate.
  - intros fuel st ds w0 Hend Hmax. split; [|reflexivity].
    now apply react_loop_guard.
  - intros e w' [= -> ->] Hcode. destruct e; [reflexivity | discriminate].
Qed.

(** ** Runs on concrete inputs *)

(** C1, as stated, fails: when the model is down on all three attempts the
    [LLM_ERROR] raised by [invoke_llm] leaves [run] as an exception; no
    output is returned. *)
Lemma run_llm_error_propagates :
  BaseAgent.run (ReActAgent.execute llm_down show ReActAgent.extract_result)
           analyst task_600519 world0
  = Some (Raise (AgentError LLM_ERROR
                   "LLM invocation failed after 3 attempts: connection refused"
                   (Some "strategy_analyzer_1") (Some STRATEGY_ANALYZER) ∅
                   (Some (PyError "ConnectionError" "connection refused"))),
          {| llm_calls := 3; tool_invocations := 0; log := [LLMCalled 0; Slept (1 # 2); LLMCalled 1; Slept (2 # 2); LLMCalled 2];
             cancel_at := None |}).
Proof. vm_compute. reflexivity. Qed.

(** A task cancelled during the second model call: the cancellation leaves
    [run]; no output is returned and no [AgentError] is raised. *)
Example run_cancelled_passes_through :
  BaseAgent.run (ReActAgent.execute llm_third_time show ReActAgent.extract_result)
           analyst task_600519
           {| llm_calls := 0; tool_invocations := 0; log := []; cancel_at := Some 2%nat |}
  = Some (Cancelled,
          {| llm_calls := 2; tool_invocations := 0;
             log := [LLMCalled 0; Slept (1 # 2); LLMCalled 1];
             cancel_at := Some 2%nat |}).
Proof. vm_compute. reflexivity. Qed.

(** C3, as stated, fails in its last part: with [max_iterations = 2] and a
    model that keeps asking for a tool, the loop raises
    [MAX_ITERATIONS_EXCEEDED] at its third pass and [run] lets the error
    through instead of returning a [FAILED] output. *)
Lemma run_max_iterations_propagates :
  BaseAgent.run (ReActAgent.execute llm_asks_tool show ReActAgent.extract_result)
           analyst task_600519 world0
  = Some (Raise (AgentError MAX_ITERATIONS_EXCEEDED "Max iterations (2) exceeded"
                   (Some "strategy_analyzer_1") (Some STRATEGY_ANALYZER) ∅ None),
          {| llm_calls := 2; tool_invocations := 2;
             log := [LLMCalled 0; ToolInvoked 0 "get_stock_price";
                     LLMCalled 1; ToolInvoked 1 "get_stock_price"];
             cancel_at := None |}).
Proof. vm_compute. reflexivity. Qed.

(** C4, as stated, fails in its last part: with an empty task id [run]
    raises the [INVALID_INPUT] error; it returns no [FAILED] output. *)
Lemma run_invalid_input_propagates :
  BaseAgent.run (ReActAgent.execute llm_third_time show ReActAgent.extract_result)
           analyst task_without_id world0
  = Some (Raise (AgentError INVALID_INPUT "Task ID is required"
                   (Some "strategy_analyzer_1") (Some STRATEGY_ANALYZER) ∅ None),
          world0).
Proof. vm_compute. reflexivity. Qed.

(** The end-to-end example of the specification, with two failed model
    calls before the answer: the run completes with one decision. *)
Example run_strategy_analyzer :
  BaseAgent.run (ReActAgent.execute llm_third_time show
              (StrategyAnalyzerAgent.extract_result Json.loads))
           analyst task_600519 world0
  = Some (Return
            {| out_task_id := "task_1";
               out_agent_id := "strategy_analyzer_1";
               out_agent_type := STRATEGY_ANALYZER;
               out_status := COMPLETED;
               out_result :=
                 ReActAgent.final_result
                   {| messages :=
                        [SystemMessage "You are a strategy analyst.";
                         HumanMessage "Analyse: <object>";
                         AIMessage (dq "{'decision':'buy','confidence':0.82,'reasoning':['strong momentum']}") []];
                      task_id := "task_1"; task_type := "strategy_analysis";
                      task_input := <["symbol" := VStr "600519"]> ∅;
                      current_agent := "strategy_analyzer_1";
                      agent_outputs := ∅; agent_errors := ∅; tool_results := ∅;
                      decisions := []; final_decision := None; metadata := ∅;
                      iteration_count := 1; max_iterations := 2; should_end := true |};
               out_decisions :=
                 [{| decision_type := BUY; symbol := VStr "600519";
                     confidence := VFloat (41 # 50);
                     reasoning := VList [VStr "strong momentum"];
                     risk_factors := VList []; supporting_data := ∅;
                     recommended_action := VStr "" |}];
               out_error := None |},
          {| llm_calls := 3; tool_invocations := 0; log := [LLMCalled 0; Slept (1 # 2); LLMCalled 1; Slept (2 # 2); LLMCalled 2];
             cancel_at := None |}).
Proof. vm_compute. reflexivity. Qed.

(** ** Splitting and the candidate text *)

Lemma strip_prefix_Some (p s r : string) :
  strip_prefix p s = Some r -> s = p +:+ r.
Proof.
  revert s. induction p as [|a p IH]; intros s H; cbn in H.
  - now injection H as ->.
  - destruct s as [|b s]; [discriminate|].
    destruct (Ascii.eqb a b) eqn:E; [|discriminate].
    apply Ascii.eqb_eq in E. subst b.
    change (String a p +:+ r) with (String a (p +:+ r)). f_equal. now apply IH.
Qed.

Lemma partition_Some (sep s a b : string) :
  partition sep s = Some (a, b) -> s = a +:+ sep +:+ b.
Proof.
  revert a b. induction s as [|c s IH]; intros a b H.
  - cbn in H. destruct (strip_prefix sep "") as [r|] eqn:E; [|discriminate].
    injection H as <- <-. change ("" +:+ sep +:+ r) with (sep +:+ r).
    now apply strip_prefix_Some.
  - cbn [partition] in H.
    destruct (strip_prefix sep (String c s)) as [r|] eqn:E.
    + injection H as <- <-. change ("" +:+ sep +:+ r) with (sep +:+ r).
      now apply strip_prefix_Some.
    + destruct (partition sep s) as [[a' b']|] eqn:P; [|discriminate].
      injection H as <- <-.
      change (String c a' +:+ sep +:+ b') with (String c (a' +:+ sep +:+ b')).
      f_equal. now apply IH.
Qed.

Lemma length_app (s t : string) :
  String.length (s +:+ t) = (String.length s + String.length t)%nat.
Proof.
  induction s as [|c s IH]; [reflexivity|].
  change (String c s +:+ t) with (String c (s +:+ t)). cbn. now rewrite IH.
Qed.

Lemma partition_length (sep s a b : string) :
  partition sep s = Some (a, b) ->
  String.length s = (String.length a + String.length sep + String.length b)%nat.
Proof.
  intros H. apply partition_Some in H. subst s. rewrite !length_app. lia.
Qed.

Lemma partition_empty (sep : string) : sep <> "" -> partition sep "" = None.
Proof. destruct sep; [congruence | reflexivity]. Qed.

(** The fuel of [split] is enough: more fuel changes nothing. *)
Lemma split_fuel_enough (sep : string) :
  sep <> "" ->
  forall n m s,
    (String.length s <= n)%nat -> (String.length s <= m)%nat ->
    split_fuel n sep s = split_fuel m sep s.
Proof.
  intros Hsep. induction n as [|n IH]; intros m s Hn Hm.
  - destruct s; [|cbn in Hn; lia].
    destruct m; cbn [split_fuel]; [reflexivity|]. now rewrite partition_empty.
  - destruct m as [|m].
    + destruct s; [|cbn in Hm; lia]. cbn [split_fuel]. now rewrite partition_empty.
    + cbn [split_fuel]. destruct (partition sep s) as [[a b]|] eqn:P; [|reflexivity].
      f_equal. pose proof (partition_length _ _ _ _ P) as Hlen.
      assert (0 < String.length sep)%nat by (destruct sep; [congruence | cbn; lia]).
      apply IH; lia.
Qed.

(** [split] cuts at the first occurrence and goes on with the rest. *)
Lemma split_unfold (sep s : string) :
  sep <> "" ->
  split sep s = match partition sep s with
                | Some (a, b) => a :: split sep b
                | None => [s]
                end.
Proof.
  intros Hsep. unfold split.
  destruct (String.length s) as [|n] eqn:Hlen.
  - destruct s; [|discriminate]. cbn [split_fuel]. now rewrite partition_empty.
  - cbn [split_fuel]. destruct (partition sep s) as [[a b]|] eqn:P; [|reflexivity].
    f_equal. pose proof (partition_length _ _ _ _ P) as Hl.
    assert (0 < String.length sep)%nat by (destruct sep; [congruence | cbn; lia]).
    apply split_fuel_enough; [exact Hsep | lia | lia].
Qed.

Lemma getitem_split_0 (sep s : string) :
  sep <> "" -> getitem (split sep s) 0 = Return (before sep s).
Proof.
  intros Hsep. rewrite split_unfold by exact Hsep. unfold before.
  destruct (partition sep s) as [[a b]|]; reflexivity.
Qed.

Lemma getitem_split_1 (sep s a b : string) :
  sep <> "" -> partition sep s = Some (a, b) ->
  getitem (split sep s) 1 = Return (before sep b).
Proof.
  intros Hsep P. rewrite split_unfold, P by exact Hsep.
  unfold getitem. cbn. apply (getitem_split_0 sep b Hsep).
Qed.

(** The indexing of the source never fails, and what it selects is the
    candidate text of the specification. *)
Lemma json_candidate_spec (content : string) :
  json_candidate content = Return (candidate_text content).
Proof.
  unfold json_candidate, candidate_text, block_contents, str_in.
  destruct (partition "```json" content) as [[a b]|] eqn:P1.
  - rewrite (getitem_split_1 "```json" content a b) by (discriminate || exact P1).
    apply getitem_split_0. discriminate.
  - destruct (partition "```" content) as [[a b]|] eqn:P2; [|reflexivity].
    rewrite (getitem_split_1 "```" content a b) by (discriminate || exact P2).
    apply getitem_split_0. discriminate.
Qed.

(** *** Fenced blocks in well-formed answers *)

Lemma strip_prefix_app (p r : string) : strip_prefix p (p +:+ r) = Some r.
Proof.
  induction p as [|a p IH]; [reflexivity|].
  change (String a p +:+ r) with (String a (p +:+ r)). cbn.
  now rewrite Ascii.eqb_refl.
Qed.

Lemma partition_unfold (sep s : string) :
  partition sep s
  = match strip_prefix sep s with
    | Some rest => Some (EmptyString, rest)
    | None =>
        match s with
        | EmptyString => None
        | String c s' =>
            match partition sep s' with
            | Some (a, b) => Some (String c a, b)
            | None => None
            end
        end
    end.
Proof. destruct s; reflexivity. Qed.

(** A separator that begins with a character absent from [pre] is first met
    right after [pre]. *)
Lemma partition_app_first (c : ascii) (sep' pre rest : string) :
  has_char c pre = false ->
  partition (String c sep') (pre +:+ String c sep' +:+ rest) = Some (pre, rest).
Proof.
  intros Hpre. induction pre as [|a pre IH].
  - change ("" +:+ String c sep' +:+ rest) with (String c sep' +:+ rest).
    now rewrite partition_unfold, strip_prefix_app.
  - cbn in Hpre. apply orb_false_iff in Hpre as [Hca Hpre].
    change (String a pre +:+ String c sep' +:+ rest)
      with (String a (pre +:+ String c sep' +:+ rest)).
    rewrite partition_unfold. cbn [strip_prefix]. rewrite Hca, (IH Hpre). reflexivity.
Qed.

Lemma partition_absent (c : ascii) (sep' s : string) :
  has_char c s = false -> partition (String c sep') s = None.
Proof.
  induction s as [|a s IH]; intros H; [reflexivity|].
  cbn in H. apply orb_false_iff in H as [Hca Hs].
  rewrite partition_unfold. cbn [strip_prefix]. now rewrite Hca, (IH Hs).
Qed.

(** An occurrence anywhere is found. *)
Lemma partition_occurs (sep a b : string) :
  exists x y, partition sep (a +:+ sep +:+ b) = Some (x, y).
Proof.
  induction a as [|c a IH].
  - change ("" +:+ sep +:+ b) with (sep +:+ b).
    rewrite partition_unfold, strip_prefix_app. eauto.
  - change (String c a +:+ sep +:+ b) with (String c (a +:+ sep +:+ b)).
    rewrite partition_unfold.
    destruct (strip_prefix sep (String c (a +:+ sep +:+ b))); [eauto|].
    destruct IH as (x & y & ->). eauto.
Qed.

(** A text without fence has no [```json] marker either. *)
Lemma no_fence_no_json (content : string) :
  partition "```" content = None -> partition "```json" content = None.
Proof.
  intros Hnone. destruct (partition "```json" content) as [[a b]|] eqn:P; [|reflexivity].
  apply partition_Some in P. subst content.
  change ("```json" +:+ b) with ("```" +:+ "json" +:+ b) in Hnone.
  destruct (partition_occurs "```" a ("json" +:+ b)) as (x & y & Hxy).
  congruence.
Qed.

Lemma str_in_false (sub s : string) :
  str_in sub s = false <-> partition sub s = None.
Proof. unfold str_in. destruct (partition sub s); split; congruence. Qed.

(** The policy on an answer whose prose and payload contain no backquote: a
    [```json] block (with no second marker after it) gives its payload, and
    so does a plain block in a text without [```json] marker. *)
Lemma candidate_text_block (pre body post : string) :
  has_char "`" pre = false ->
  has_char "`" body = false ->
  (str_in "```json" (body +:+ "```" +:+ post) = false ->
   candidate_text (pre +:+ "```json" +:+ body +:+ "```" +:+ post) = body)
  /\ (str_in "```json" (pre +:+ "```" +:+ body +:+ "```" +:+ post) = false ->
      candidate_text (pre +:+ "```" +:+ body +:+ "```" +:+ post) = body).
Proof.
  intros Hpre Hbody.
  assert (Hcut : forall rest, before "```" (body +:+ "```" +:+ rest) = body).
  { intros rest. unfold before.
    now rewrite (partition_app_first "`" "``" body rest Hbody). }
  split.
  - intros Hone. apply str_in_false in Hone. unfold candidate_text, block_contents.
    rewrite (partition_app_first "`" "``json" pre _ Hpre).
    unfold before at 2. rewrite Hone. now rewrite Hcut.
  - intros Hnojson. apply str_in_false in Hnojson.
    unfold candidate_text, block_contents. rewrite Hnojson.
    rewrite (partition_app_first "`" "``" pre _ Hpre).
    rewrite Hcut. unfold before. now rewrite (partition_absent "`" "``" body Hbody).
Qed.

(** Without any fence the candidate is the whole text. *)
Lemma candidate_text_no_fence (content : string) :
  str_in "```" content = false -> candidate_text content = content.
Proof.
  intros H. apply str_in_false in H. unfold candidate_text, block_contents.
  now rewrite (no_fence_no_json content H), H.
Qed.

(** ** Decision extraction *)

Lemma handled_parse_failure (e : exception) :
  StrategyAnalyzerAgent.handled e = true <-> parse_failure e.
Proof.
  unfold parse_failure. destruct e as [code msg id type details cause|cls msg]; cbn.
  - split; [discriminate | now intros (cls & m & [=] & _)].
  - rewrite !orb_true_iff, !bool_decide_eq_true. split.
    + intros H. exists cls, msg. split; [reflexivity | tauto].
    + intros (cls' & msg' & [= -> ->] & H). tauto.
Qed.

(** C5, amended. The text decoded is the candidate text of the
    specification: the contents of a [```json] block if present, else of the
    first fenced block, else the whole text; on an answer
    [pre ```json body ``` post] or [pre ``` body ``` post] whose prose [pre]
    and payload [body] hold no backquote it is [body].  When [json.loads]
    on the stripped candidate raises [JSONDecodeError] (or [IndexError] or
    [KeyError]) the result is [{raw_response: content}] with no decision;
    any other exception that it raises leaves the extraction.  When the
    candidate decodes to an object, the result is the object with one
    decision, whose kind is the one that the [decision] entry names,
    [hold] when the entry is missing, and whose confidence is the
    [confidence] entry, [0.5] when it is missing; a [decision] entry that is
    a list or an object raises [TypeError].  When the candidate decodes to
    a value that is no object, the extraction raises [AttributeError]. *)
Theorem extract_result_policy
    (json_loads : string -> Result pyval)
    (self : BaseAgent.t) (response : BaseMessage) (st : AgentState) :
  let content := msg_content response in
  let candidate := candidate_text content in
  let extracted := StrategyAnalyzerAgent.extract_result json_loads self response st in
  json_candidate content = Return candidate
  /\ (forall pre body post,
        has_char "`" pre = false -> has_char "`" body = false ->
        (content = pre +:+ "```json" +:+ body +:+ "```" +:+ post ->
         str_in "```json" (body +:+ "```" +:+ post) = false -> candidate = body)
        /\ (content = pre +:+ "```" +:+ body +:+ "```" +:+ post ->
            str_in "```json" content = false -> candidate = body))
  /\ (str_in "```" content = false -> candidate = content)
  /\ match json_loads (strip candidate) with
     | Raise e =>
         (parse_failure e ->
          extracted = Return (VDict (<["raw_response" := VStr content]> ∅), []))
         /\ (~ parse_failure e -> extracted = Raise e)
     | Return (VDict o) =>
         match o !! "decision" with
         | Some ((VList _ | VDict _) as key) =>
             extracted
             = Raise (PyError "TypeError" ("unhashable type: '" +:+ type_name key +:+ "'"))
         | entry =>
             exists d,
               extracted = Return (VDict o, [d])
               /\ decision_type d = match entry with
                                    | Some (VStr s) => kind_named s
                                    | _ => HOLD
                                    end
               /\ confidence d = default (VFloat (1 # 2)) (o !! "confidence")
         end
     | Return v =>
         extracted
         = Raise (PyError "AttributeError"
                    ("'" +:+ type_name v +:+ "' object has no attribute 'get'"))
     end.
Proof.
  intros content candidate extracted.
  pose proof (json_candidate_spec content) as Hcand. fold candidate in Hcand.
  split; [exact Hcand|]. split; [|split].
  - intros pre body post Hpre Hbody.
    destruct (candidate_text_block pre body post Hpre Hbody) as [Hjson Hplain].
    split.
    + intros Hcontent Hone. subst candidate. rewrite Hcontent. now apply Hjson.
    + intros Hcontent Hnone. subst candidate. rewrite Hcontent in *. now apply Hplain.
  - intros Hnone. now apply candidate_text_no_fence.
  - subst extracted.
    unfold StrategyAnalyzerAgent.extract_result, StrategyAnalyzerAgent.extract_body.
    fold content. rewrite Hcand.
    destruct (json_loads (strip candidate)) as [v|e].
    + destruct v as [| | | | | |o]; try reflexivity.
      cbn [py_get]. destruct (o !! "decision") as [key|] eqn:Hkey; cbn [default].
      * destruct key as [| | | |s| |]; cbn [StrategyAnalyzerAgent.decision_type_map_get];
          try reflexivity;
          (eexists; split; [reflexivity|]; split; [|reflexivity]);
          cbn [decision_type]; try reflexivity.
        unfold kind_named. repeat case_decide; subst; try reflexivity; congruence.
      * eexists. split; [reflexivity|]. split; reflexivity.
    + destruct (StrategyAnalyzerAgent.handled e) eqn:Hhandled.
      * split; [reflexivity|]. intros Hnot. exfalso. apply Hnot.
        now apply handled_parse_failure.
      * split; [|reflexivity]. intros Hfail. apply handled_parse_failure in Hfail.
        congruence.
Qed.

(** C5, as stated, fails: an answer that is valid JSON and no object, here
    the list [[1, 2]], is parsed without failure and the extraction then
    raises [AttributeError]; it returns neither a decision nor the
    [raw_response] fallback. *)
Lemma extract_result_raises_on_list :
  StrategyAnalyzerAgent.extract_result Json.loads analyst (AIMessage "[1, 2]" []) analyst_state
  = Raise (PyError "AttributeError" "'list' object has no attribute 'get'").
Proof. vm_compute. reflexivity. Qed.

(** The extraction on an object without [decision] and [confidence]
    entries, and on a text that is not JSON. *)
Example extract_result_defaults :
  StrategyAnalyzerAgent.extract_result Json.loads analyst
    (AIMessage (dq "```json {'reasoning': ['flat']} ```") []) analyst_state
  = Return (VDict (<["reasoning" := VList [VStr "flat"]]> ∅),
            [{| decision_type := HOLD; symbol := VStr "600519";
                confidence := VFloat (1 # 2);
                reasoning := VList [VStr "flat"];
                risk_factors := VList []; supporting_data := ∅;
                recommended_action := VStr "" |}])
  /\ StrategyAnalyzerAgent.extract_result Json.loads analyst
       (AIMessage "I would hold." []) analyst_state
     = Return (VDict (<["raw_response" := VStr "I would hold."]> ∅), []).
Proof. split; vm_compute; reflexivity. Qed.

(** ** Plan creation *)

(** C8, amended. Given the model's response, [create_plan] returns the
    single-step plan, which is not empty and holds the task, when
    [json.loads] raises [JSONDecodeError] on the candidate text, and the
    [plan] entry of the decoded object, [[]] when it has none, when the
    candidate is a JSON object.  It raises in the other cases: an exception
    of [json.loads] of another class leaves it, and a decoded value that is
    no object raises [AttributeError].  When the model call itself fails or
    is cancelled, so does [create_plan]. *)
Theorem create_plan_degrades
    (llm : LLM)
    (py_str : pyval -> string) (json_loads : string -> Result pyval)
    (self : BaseAgent.t) (agent_input : AgentInput) (w : World) :
  let msgs :=
    [SystemMessage (BaseAgent.system_prompt self);
     HumanMessage (PlanAndExecuteAgent.plan_prompt (py_str (VDict (in_content agent_input))))] in
  let plan := PlanAndExecuteAgent.create_plan llm py_str json_loads self agent_input w in
  match BaseAgent.invoke_llm llm self msgs false w with
  | Some (Done (Return response), w1) =>
      match json_loads (candidate_text (msg_content response)) with
      | Raise e =>
          (forall msg, e = PyError "JSONDecodeError" msg ->
             exists step,
               plan = Some (Return (VList [VDict step]), w1)
               /\ step !! "task" = Some (VDict (in_content agent_input))
               /\ step !! "action" = Some (VStr "Execute task directly"))
          /\ ((forall msg, e <> PyError "JSONDecodeError" msg) -> plan = Some (Raise e, w1))
      | Return (VDict o) => plan = Some (Return (default (VList []) (o !! "plan")), w1)
      | Return v =>
          plan = Some (Raise (PyError "AttributeError"
                                ("'" +:+ type_name v +:+ "' object has no attribute 'get'")),
                       w1)
      end
  | Some (Done (Raise e), w1) => plan = Some (Raise e, w1)
  | Some (Cancelled, w1) => plan = Some (Cancelled, w1)
  | None => plan = None
  end.
Proof.
  intros msgs plan. subst plan. unfold PlanAndExecuteAgent.create_plan, bind. fold msgs.
  destruct (BaseAgent.invoke_llm llm self msgs false w) as [[[[response|e]|] w1]|];
    [|reflexivity|reflexivity|reflexivity].
  unfold PlanAndExecuteAgent.plan_body. rewrite json_candidate_spec.
  destruct (json_loads (candidate_text (msg_content response))) as [v|e].
  - destruct v; reflexivity.
  - destruct e as [code msg id type details cause|cls msg].
    + split; [intros m [=]|]. intros _. reflexivity.
    + cbn [PlanAndExecuteAgent.handled]. case_bool_decide as Hcls.
      * subst cls. split.
        -- intros m _. eexists. split; [reflexivity|]. split.
           ++ rewrite !lookup_insert_ne by discriminate. apply lookup_insert_eq.
           ++ rewrite lookup_insert_ne by discriminate. apply lookup_insert_eq.
        -- intros Hnot. now destruct (Hnot msg).
      * split; [|reflexivity]. intros m [= -> _]. contradiction.
Qed.

(** C8, as stated, fails: a response that is valid JSON but not an object
    makes [create_plan] raise [AttributeError], which its [except] clause
    does not handle. *)
Lemma create_plan_raises_on_list :
  PlanAndExecuteAgent.create_plan (llm_says "[]") show Json.loads planner task_600519 world0
  = Some (Raise (PyError "AttributeError" "'list' object has no attribute 'get'"),
          {| llm_calls := 1; tool_invocations := 0; log := [LLMCalled 0];
             cancel_at := None |}).
Proof. vm_compute. reflexivity. Qed.

(** An object without a [plan] entry gives the empty plan. *)
Example create_plan_empty_object :
  PlanAndExecuteAgent.create_plan (llm_says "{}") show Json.loads planner task_600519 world0
  = Some (Return (VList []),
          {| llm_calls := 1; tool_invocations := 0; log := [LLMCalled 0];
             cancel_at := None |}).
Proof. vm_compute. reflexivity. Qed.

(** Free text degrades to the single-step plan. *)
Example create_plan_free_text :
  PlanAndExecuteAgent.create_plan (llm_says "First fetch prices, then decide.") show Json.loads
                   planner task_600519 world0
  = Some (Return (PlanAndExecuteAgent.single_step_plan task_600519),
          {| llm_calls := 1; tool_invocations := 0; log := [LLMCalled 0];
             cancel_at := None |}).
Proof. vm_compute. reflexivity. Qed.

(** A decoder that gives up on deep nesting, as CPython's does: its
    [RecursionError] is not a [JSONDecodeError] and leaves [create_plan]. *)
Example create_plan_recursion_error :
  PlanAndExecuteAgent.create_plan (llm_says "[[[[[[[[1]]]]]]]]") show shallow_loads
                   planner task_600519 world0
  = Some (Raise (PyError "RecursionError"
                   "maximum recursion depth exceeded while decoding a JSON array from a unicode string"),
          {| llm_calls := 1; tool_invocations := 0; log := [LLMCalled 0];
             cancel_at := None |}).
Proof. vm_compute. reflexivity. Qed.

(** The fenced-block precedence on an answer with prose, a plain block and a
    [```json] block. *)
Example candidate_text_precedence :
  candidate_text (dq "Plan: ``` {'a': 1} ``` and ```json {'decision': 'sell'} ``` done")
  = dq " {'decision': 'sell'} "
  /\ candidate_text (dq "Plan: ``` {'a': 1} ``` done") = dq " {'a': 1} "
  /\ candidate_text (dq "{'a': 1}") = dq "{'a': 1}".
Proof. repeat split; vm_compute; reflexivity. Qed.
(** ** The tool registry *)

(** C9, amended. The by-category query returns exactly the registered tools
    whose recorded metadata has the category asked for, together with the
    registered tools for which no metadata is recorded; a tool whose
    recorded metadata has another category is never returned. *)
Theorem get_by_category_spec
    (self : ToolRegistry.t) (category : ToolRegistry.ToolCategory) (tool : Tool) :
  In tool (ToolRegistry.get_by_category self category)
  <-> exists name,
        ToolRegistry._tools self !! name = Some tool
        /\ match ToolRegistry._metadata self !! name with
           | Some md => ToolRegistry.md_category md = category
           | None => True
           end.
Proof.
  unfold ToolRegistry.get_by_category. rewrite List.in_map_iff. split.
  - intros ([name t] & <- & Hin). apply List.filter_In in Hin as [Hin Hcat].
    exists name. split.
    + apply elem_of_map_to_list. now apply list_elem_of_In.
    + unfold ToolRegistry.in_category in Hcat. cbn in Hcat.
      apply bool_decide_eq_true in Hcat.
      destruct (ToolRegistry._metadata self !! name); [exact Hcat | exact I].
  - intros (name & Hlook & Hcat). exists (name, tool). split; [reflexivity|].
    apply List.filter_In. split.
    + apply list_elem_of_In. now apply elem_of_map_to_list.
    + unfold ToolRegistry.in_category. cbn. apply bool_decide_eq_true.
      destruct (ToolRegistry._metadata self !! name); [exact Hcat | reflexivity].
Qed.

(** C9, as stated, fails: a tool registered without metadata is returned
    for every category, here for [NEWS], though no category was recorded
    for it. *)
Lemma get_by_category_without_metadata :
  let registry := ToolRegistry.register ToolRegistry.empty price_tool None in
  ToolRegistry.get_metadata registry "get_stock_price" = None
  /\ ToolRegistry.get_by_category registry ToolRegistry.NEWS = [price_tool]
  /\ ToolRegistry.get_by_category registry ToolRegistry.RISK = [price_tool].
Proof. cbv zeta. repeat split; vm_compute; reflexivity. Qed.

(** A tool registered under [MARKET_DATA] is returned for that category and
    not for another one. *)
Example get_by_category_with_metadata :
  let md := ToolRegistry.default_metadata "get_stock_price" ToolRegistry.MARKET_DATA in
  let registry := ToolRegistry.register ToolRegistry.empty price_tool (Some md) in
  ToolRegistry.get_by_category registry ToolRegistry.MARKET_DATA = [price_tool]
  /\ ToolRegistry.get_by_category registry ToolRegistry.NEWS = [].
Proof. cbv zeta. repeat split; vm_compute; reflexivity. Qed.

(** ** The agent factory *)

Lemma get_or_create_cached
    (registry : AgentRegistry.t) (self : AgentFactory.t)
    (agent_type : AgentType) (config : AgentConfig)
    (llm : option LLM) (tools : option (list Tool))
    (agent : AgentObject) :
  AgentFactory._instances self !! cfg_agent_id config = Some agent ->
  AgentFactory.get_or_create registry self agent_type config llm tools = (Return agent, self).
Proof. intros H. unfold AgentFactory.get_or_create. now rewrite H. Qed.

Lemma get_or_create_caches
    (registry : AgentRegistry.t) (self self' : AgentFactory.t)
    (agent_type : AgentType) (config : AgentConfig)
    (llm : option LLM) (tools : option (list Tool))
    (agent : AgentObject) :
  AgentFactory.get_or_create registry self agent_type config llm tools = (Return agent, self') ->
  AgentFactory._instances self' !! cfg_agent_id config = Some agent.
Proof.
  unfold AgentFactory.get_or_create.
  destruct (AgentFactory._instances self !! cfg_agent_id config) as [a|] eqn:Hc.
  - intros [= <- <-]. exact Hc.
  - destruct (AgentFactory.create registry self agent_type config llm tools) as [a|e];
      intros [= <- <-]. cbn. apply lookup_insert_eq.
Qed.

(** A call never replaces an instance that is cached. *)
Lemma do_call_keeps (self : AgentFactory.t) (c : AgentFactory.Call)
    (key : string) (agent : AgentObject) :
  AgentFactory._instances self !! key = Some agent ->
  AgentFactory._instances (AgentFactory.do_call self c).2 !! key = Some agent.
Proof.
  intros H. unfold AgentFactory.do_call, AgentFactory.get_or_create.
  destruct (AgentFactory._instances self !! cfg_agent_id (AgentFactory.call_config c)) as [a|] eqn:Hc;
    [exact H|].
  destruct (AgentFactory.create _ self _ _ _ _) as [a|e]; [|exact H].
  cbn. rewrite lookup_insert_ne; [exact H|]. intros Heq. rewrite Heq in Hc. congruence.
Qed.

Lemma after_calls_keeps (cs : list AgentFactory.Call) :
  forall (self : AgentFactory.t) (key : string) (agent : AgentObject),
    AgentFactory._instances self !! key = Some agent ->
    AgentFactory._instances (AgentFactory.after_calls self cs) !! key = Some agent.
Proof.
  induction cs as [|c cs IH]; intros self key agent H; [exact H|].
  unfold AgentFactory.after_calls. cbn [foldl]. apply IH. now apply do_call_keeps.
Qed.

(** C10. Once [get_or_create] has returned an instance for an agent id,
    every later [get_or_create] call whose configuration carries that id,
    after any number of other [get_or_create] calls and whatever its agent
    type, other configuration fields, model and tools, returns that same
    instance and leaves the factory as it is. *)
Theorem get_or_create_idempotent
    (registry : AgentRegistry.t) (self self1 : AgentFactory.t)
    (agent_type : AgentType) (config : AgentConfig)
    (llm : option LLM) (tools : option (list Tool))
    (agent : AgentObject) :
  AgentFactory.get_or_create registry self agent_type config llm tools = (Return agent, self1) ->
  forall (between : list AgentFactory.Call) (later : AgentFactory.Call),
    cfg_agent_id (AgentFactory.call_config later) = cfg_agent_id config ->
    AgentFactory.do_call (AgentFactory.after_calls self1 between) later
    = (Return agent, AgentFactory.after_calls self1 between).
Proof.
  intros Hfirst between later Hid.
  apply get_or_create_cached. rewrite Hid.
  apply after_calls_keeps. exact (get_or_create_caches _ _ _ _ _ _ _ _ Hfirst).
Qed.

Lemma get_or_create_idempotent_witness :
  AgentFactory.get_or_create registry0 factory0 STRATEGY_ANALYZER analyst_config
                        (Some llm_down) (Some [price_tool])
  = (Return analyst_instance, factory1)
  /\ cfg_agent_id (AgentFactory.call_config call_again) = cfg_agent_id analyst_config
  /\ AgentFactory.do_call (AgentFactory.after_calls factory1 [call_other]) call_again
     = (Return analyst_instance, AgentFactory.after_calls factory1 [call_other]).
Proof.
  split; [vm_compute; reflexivity|]. split; [reflexivity|].
  apply (get_or_create_idempotent registry0 factory0 factory1 STRATEGY_ANALYZER
           analyst_config (Some llm_down) (Some [price_tool]) analyst_instance).
  - vm_compute. reflexivity.
  - reflexivity.
Defined.

(** ** The parallel fan-out node *)

Section FanOut.
Variable agent_handlers : gmap string MultiAgentWorkflow.Handler.
Variable state : pydict.
Hypothesis no_outputs : state !! "agent_outputs" = None.
Hypothesis no_errors : state !! "agent_errors" = None.

Lemma merge_one_step (agent_id : string) (r : Result pyval) (outs errs : pydict) :
  state_or_plain r ->
  MultiAgentWorkflow.merge_one (Return (Some outs, Some errs)) (agent_id, r)
  = Return (Some (merge_step agent_id r (outs, errs)).1,
            Some (merge_step agent_id r (outs, errs)).2).
Proof.
  destruct r as [[| | | | | |d]|e]; cbn; try tauto.
  intros [Hnone|[sub Hsub]].
  - now rewrite Hnone.
  - now rewrite Hsub.
Qed.

Lemma merge_step_plain (agent_id : string) (r : Result pyval) (acc : pydict * pydict) :
  plain r -> merge_step agent_id r acc = contribution agent_id r acc.
Proof.
  destruct r as [[| | | | | |d]|e]; cbn; try tauto. now intros ->.
Qed.

Lemma plain_state_or_plain (r : Result pyval) : plain r -> state_or_plain r.
Proof. destruct r as [[| | | | | |d]|e]; cbn; tauto. Qed.

Lemma merge_one_plain (agent_id : string) (r : Result pyval) (outs errs : pydict) :
  plain r ->
  MultiAgentWorkflow.merge_one (Return (Some outs, Some errs)) (agent_id, r)
  = Return (Some (contribution agent_id r (outs, errs)).1,
            Some (contribution agent_id r (outs, errs)).2).
Proof.
  intros Hplain. rewrite merge_one_step by now apply plain_state_or_plain.
  now rewrite merge_step_plain.
Qed.

(** The node on three registered agents. *)
Lemma parallel_executor_three (a b c : string) (ha hb hc : MultiAgentWorkflow.Handler) :
  agent_handlers !! a = Some ha ->
  agent_handlers !! b = Some hb ->
  agent_handlers !! c = Some hc ->
  state_or_plain (ha state) -> state_or_plain (hb state) -> state_or_plain (hc state) ->
  let merged :=
    merge_step c (hc state)
      (merge_step b (hb state) (merge_step a (ha state) (∅, ∅))) in
  MultiAgentWorkflow.parallel_executor agent_handlers [a; b; c] state
  = Some (Return (<["agent_errors" := VDict merged.2]>
                    (<["agent_outputs" := VDict merged.1]> state))).
Proof.
  intros Ha Hb Hc Pa Pb Pc merged.
  unfold MultiAgentWorkflow.parallel_executor, MultiAgentWorkflow.tasks. cbn [omap list_omap].
  rewrite Ha, Hb, Hc. cbn [MultiAgentWorkflow.gather List.map].
  unfold MultiAgentWorkflow.dict_of_entry. rewrite no_outputs, no_errors.
  cbn [zip zip_with foldl].
  rewrite (merge_one_step a (ha state) ∅ ∅ Pa).
  rewrite (merge_one_step b (hb state) _ _ Pb), <- surjective_pairing.
  rewrite (merge_one_step c (hc state) _ _ Pc), <- surjective_pairing.
  fold merged. destruct merged as [outs errs].
  unfold MultiAgentWorkflow.rebuild. now rewrite no_outputs, no_errors.
Qed.
End FanOut.

(** C2, amended. On a state that has no [agent_outputs] and no
    [agent_errors] entry yet, with three distinct registered agents of which
    one raises and the other two return a dictionary, the node returns: the
    run is not aborted and the other keys of the state are unchanged.  The
    merged state has exactly one error entry, the message of the exception
    under the failing agent's id.  Its outputs are built from the two
    results in the order of the agent list: a dictionary without
    [agent_outputs] entry is recorded under the agent's id, whereas a state
    carrying a dictionary of [agent_outputs] has that dictionary merged into
    the outputs, its entries replacing those already there, and is not
    recorded under the agent's id.  So when neither result carries
    [agent_outputs], the merged state has exactly two output entries, the
    two results under the ids of their agents. *)
Theorem parallel_executor_one_failure
    (agent_handlers : gmap string MultiAgentWorkflow.Handler) (state : pydict)
    (a b c failing : string) (h : string -> MultiAgentWorkflow.Handler) (e : exception) :
  NoDup [a; b; c] ->
  (forall agent_id, In agent_id [a; b; c] -> agent_handlers !! agent_id = Some (h agent_id)) ->
  state !! "agent_outputs" = None ->
  state !! "agent_errors" = None ->
  In failing [a; b; c] ->
  h failing state = Raise e ->
  (forall agent_id, In agent_id [a; b; c] -> agent_id <> failing ->
     exists r, h agent_id state = Return (VDict r)
               /\ (r !! "agent_outputs" = None
                   \/ exists sub, r !! "agent_outputs" = Some (VDict sub))) ->
  exists state' outs errs first second r1 r2 outs1,
    MultiAgentWorkflow.parallel_executor agent_handlers [a; b; c] state = Some (Return state')
    /\ state' !! "agent_outputs" = Some (VDict outs)
    /\ state' !! "agent_errors" = Some (VDict errs)
    /\ (forall key, key <> "agent_outputs" -> key <> "agent_errors" ->
          state' !! key = state !! key)
    /\ errs = <[failing := VStr (exception_str e)]> ∅
    /\ size errs = 1%nat
    /\ filter (fun agent_id => agent_id <> failing) [a; b; c] = [first; second]
    /\ h first state = Return (VDict r1)
    /\ h second state = Return (VDict r2)
    /\ (r1 !! "agent_outputs" = None -> outs1 = <[first := VDict r1]> ∅)
    /\ (forall sub, r1 !! "agent_outputs" = Some (VDict sub) -> outs1 = sub)
    /\ (r2 !! "agent_outputs" = None -> outs = <[second := VDict r2]> outs1)
    /\ (forall sub, r2 !! "agent_outputs" = Some (VDict sub) -> outs = sub ∪ outs1)
    /\ (r1 !! "agent_outputs" = None -> r2 !! "agent_outputs" = None ->
        size outs = 2%nat
        /\ outs !! first = Some (VDict r1) /\ outs !! second = Some (VDict r2)).
Proof.
  intros Hnodup Hreg Hno_out Hno_err Hfailing Hraise Hothers.
  apply NoDup_cons in Hnodup as [Hab Hnodup].
  apply NoDup_cons in Hnodup as [Hbc _].
  assert (Hne_ab : a <> b) by (intros ->; apply Hab; left).
  assert (Hne_ac : a <> c) by (intros ->; apply Hab; right; left).
  assert (Hne_bc : b <> c) by (intros ->; apply Hbc; left).
  assert (Hsimple : forall agent_id, In agent_id [a; b; c] ->
                                     state_or_plain (h agent_id state)).
  { intros agent_id Hin. destruct (decide (agent_id = failing)) as [->|Hne].
    - rewrite Hraise. exact I.
    - destruct (Hothers agent_id Hin Hne) as (r & -> & Hr). exact Hr. }
  pose proof (parallel_executor_three agent_handlers state Hno_out Hno_err a b c
                (h a) (h b) (h c)
                (Hreg a ltac:(cbn; auto)) (Hreg b ltac:(cbn; auto))
                (Hreg c ltac:(cbn; auto))
                (Hsimple a ltac:(cbn; auto)) (Hsimple b ltac:(cbn; auto))
                (Hsimple c ltac:(cbn; auto))) as Hrun.
  cbv zeta in Hrun.
  assert (Hkeys : forall outs errs key,
             key <> "agent_outputs" -> key <> "agent_errors" ->
             (<["agent_errors" := VDict errs]>
                (<["agent_outputs" := VDict outs]> state)) !! key = state !! key).
  { intros outs errs key Hk1 Hk2. now rewrite !lookup_insert_ne by congruence. }
  assert (Hsize2 : forall (x y : string) (u v : pyval),
             x <> y ->
             size (<[y := v]> (<[x := u]> (∅ : pydict))) = 2%nat).
  { intros x y u v Hxy.
    rewrite !map_size_insert_None, map_size_empty; [reflexivity | apply lookup_empty |].
    rewrite lookup_insert_ne by congruence. apply lookup_empty. }
  assert (Hsize1 : size (<[failing := VStr (exception_str e)]> (∅ : pydict)) = 1%nat).
  { now rewrite map_size_insert_None, map_size_empty by apply lookup_empty. }
  (* the two agents that succeed, for each position of the failing one *)
  destruct Hfailing as [<-|[<-|[<-|[]]]];
    [ destruct (Hothers b ltac:(cbn; auto) ltac:(congruence)) as (r1 & H1 & Hr1);
      destruct (Hothers c ltac:(cbn; auto) ltac:(congruence)) as (r2 & H2 & Hr2);
      exists
        (<["agent_errors" := VDict (merge_step c (h c state)
            (merge_step b (h b state) (merge_step a (h a state) (∅, ∅)))).2]>
           (<["agent_outputs" := VDict (merge_step c (h c state)
            (merge_step b (h b state) (merge_step a (h a state) (∅, ∅)))).1]> state)),
        (merge_step c (h c state)
            (merge_step b (h b state) (merge_step a (h a state) (∅, ∅)))).1,
        (merge_step c (h c state)
            (merge_step b (h b state) (merge_step a (h a state) (∅, ∅)))).2,
        b, c, r1, r2,
        (merge_step b (h b state) (merge_step a (h a state) (∅, ∅))).1
    | destruct (Hothers a ltac:(cbn; auto) ltac:(congruence)) as (r1 & H1 & Hr1);
      destruct (Hothers c ltac:(cbn; auto) ltac:(congruence)) as (r2 & H2 & Hr2);
      exists
        (<["agent_errors" := VDict (merge_step c (h c state)
            (merge_step b (h b state) (merge_step a (h a state) (∅, ∅)))).2]>
           (<["agent_outputs" := VDict (merge_step c (h c state)
            (merge_step b (h b state) (merge_step a (h a state) (∅, ∅)))).1]> state)),
        (merge_step c (h c state)
            (merge_step b (h b state) (merge_step a (h a state) (∅, ∅)))).1,
        (merge_step c (h c state)
            (merge_step b (h b state) (merge_step a (h a state) (∅, ∅)))).2,
        a, c, r1, r2,
        (merge_step a (h a state) (∅, ∅)).1
    | destruct (Hothers a ltac:(cbn; auto) ltac:(congruence)) as (r1 & H1 & Hr1);
      destruct (Hothers b ltac:(cbn; auto) ltac:(congruence)) as (r2 & H2 & Hr2);
      exists
        (<["agent_errors" := VDict (merge_step c (h c state)
            (merge_step b (h b state) (merge_step a (h a state) (∅, ∅)))).2]>
           (<["agent_outputs" := VDict (merge_step c (h c state)
            (merge_step b (h b state) (merge_step a (h a state) (∅, ∅)))).1]> state)),
        (merge_step c (h c state)
            (merge_step b (h b state) (merge_step a (h a state) (∅, ∅)))).1,
        (merge_step c (h c state)
            (merge_step b (h b state) (merge_step a (h a state) (∅, ∅)))).2,
        a, b, r1, r2,
        (merge_step a (h a state) (∅, ∅)).1 ];
    (split; [exact Hrun|]);
    (split; [now rewrite lookup_insert_ne, lookup_insert_eq by discriminate|]);
    (split; [now rewrite lookup_insert_eq|]);
    (split; [apply Hkeys|]);
    rewrite Hraise, H1, H2; cbn [merge_step contribution fst snd];
    destruct Hr1 as [Hr1|[sub1 Hr1]], Hr2 as [Hr2|[sub2 Hr2]];
    rewrite Hr1, Hr2; cbn [fst snd]; rewrite ?(right_id_L ∅ (∪));
    (split; [reflexivity|]); (split; [exact Hsize1|]);
    (split; [rewrite ?filter_cons_True by congruence;
             rewrite ?filter_cons_False by (intros Hneg; now apply Hneg);
             rewrite ?filter_cons_True by congruence;
             rewrite ?filter_cons_False by (intros Hneg; now apply Hneg);
             rewrite ?filter_cons_True by congruence;
             rewrite ?filter_cons_False by (intros Hneg; now apply Hneg);
             reflexivity|]);
    (split; [first [exact H1 | reflexivity]|]); (split; [first [exact H2 | reflexivity]|]);
    (split; [first [reflexivity | discriminate]|]);
    (split; [first [now intros sub [= <-] | discriminate]|]);
    (split; [first [reflexivity | discriminate]|]);
    (split; [first [now intros sub [= <-] | discriminate]|]);
    first [discriminate | (intros _ Habsurd; discriminate) | idtac].
  all: intros _ _; (split; [apply Hsize2; congruence|]);
    (split; [rewrite lookup_insert_ne by congruence; apply lookup_insert_eq
            | apply lookup_insert_eq]).
Qed.

Lemma parallel_executor_one_failure_witness :
  exists state' outs errs first second r1 r2 outs1,
    MultiAgentWorkflow.parallel_executor mixed_handlers analysts fresh_state
    = Some (Return state')
    /\ state' !! "agent_outputs" = Some (VDict outs)
    /\ state' !! "agent_errors" = Some (VDict errs)
    /\ (forall key, key <> "agent_outputs" -> key <> "agent_errors" ->
          state' !! key = fresh_state !! key)
    /\ errs = <["fundamental" := VStr "no filings found"]> ∅
    /\ size errs = 1%nat
    /\ filter (fun agent_id => agent_id <> "fundamental") analysts = [first; second]
    /\ mixed_of first fresh_state = Return (VDict r1)
    /\ mixed_of second fresh_state = Return (VDict r2)
    /\ (r1 !! "agent_outputs" = None -> outs1 = <[first := VDict r1]> ∅)
    /\ (forall sub, r1 !! "agent_outputs" = Some (VDict sub) -> outs1 = sub)
    /\ (r2 !! "agent_outputs" = None -> outs = <[second := VDict r2]> outs1)
    /\ (forall sub, r2 !! "agent_outputs" = Some (VDict sub) -> outs = sub ∪ outs1)
    /\ (r1 !! "agent_outputs" = None -> r2 !! "agent_outputs" = None ->
        size outs = 2%nat
        /\ outs !! first = Some (VDict r1) /\ outs !! second = Some (VDict r2)).
Proof.
  apply (parallel_executor_one_failure mixed_handlers fresh_state
           "technical" "fundamental" "sentiment" "fundamental" mixed_of
           (PyError "ValueError" "no filings found")).
  - apply (bool_decide_unpack _). vm_compute. exact I.
  - intros agent_id [<-|[<-|[<-|[]]]]; vm_compute; reflexivity.
  - reflexivity.
  - reflexivity.
  - right; left; reflexivity.
  - reflexivity.
  - intros agent_id [<-|[<-|[<-|[]]]] Hne; [|congruence|];
      eexists; (split; [reflexivity|]); [left | right; eexists]; vm_compute; reflexivity.
Defined.

(** C2, as stated, fails: when the two agents that succeed return states
    that carry [agent_outputs], as the workflow nodes of this repository do,
    the node merges those dictionaries instead of recording each result
    under the agent's id; here both wrote the key [analysis] and the merged
    state has one output entry, not two. *)
Lemma parallel_executor_merges_states :
  let outs : pydict := <["analysis" := VDict (<["mood" := VStr "calm"]> ∅)]> ∅ in
  let errs : pydict := <["fundamental" := VStr "no filings found"]> ∅ in
  MultiAgentWorkflow.parallel_executor node_handlers analysts fresh_state
  = Some (Return (<["agent_errors" := VDict errs]>
                    (<["agent_outputs" := VDict outs]> fresh_state)))
  /\ size outs = 1%nat
  /\ outs !! "technical" = None
  /\ outs !! "sentiment" = None.
Proof. cbv zeta. repeat split; vm_compute; reflexivity. Qed.

(** On a state that already has the two dictionaries, as the one
    [_prepare_initial_state] builds, the call that rebuilds the state gets
    each of the two keywords twice and the node raises [TypeError]. *)
Example parallel_executor_duplicate_keyword :
  MultiAgentWorkflow.parallel_executor analyst_handlers analysts prepared_state
  = Some (Raise (PyError "TypeError"
                   "src.agents.core.types.AgentState() got multiple values for keyword argument 'agent_outputs'")).
Proof. vm_compute. reflexivity. Qed.

(** A result whose [agent_outputs] entry is an empty list, which
    [dict.update] accepts, merges nothing; one whose entry is a number makes
    the node raise. *)
Example parallel_executor_updates_from_sequences :
  MultiAgentWorkflow.parallel_executor
    (MultiAgentWorkflow.add_agent ∅ "technical"
       (fun _ => Return (VDict (<["agent_outputs" := VList []]> ∅))))
    ["technical"] fresh_state
  = Some (Return (<["agent_errors" := VDict ∅]> (<["agent_outputs" := VDict ∅]> fresh_state)))
  /\ MultiAgentWorkflow.parallel_executor
       (MultiAgentWorkflow.add_agent ∅ "technical"
          (fun _ => Return (VDict (<["agent_outputs" := VInt 3]> ∅))))
       ["technical"] fresh_state
     = Some (Raise (PyError "TypeError" "'int' object is not iterable")).
Proof. split; vm_compute; reflexivity. Qed.

(** * Further properties of the agent layer *)

(** ** The tool registry: registering, replacing and removing *)

Lemma in_get_by_category
    (self : ToolRegistry.t) (category : ToolRegistry.ToolCategory) (tool : Tool) :
  In tool (ToolRegistry.get_by_category self category)
  <-> exists name,
        ToolRegistry.get self name = Some tool
        /\ ToolRegistry.in_category self category name = true.
Proof.
  unfold ToolRegistry.get_by_category, ToolRegistry.get.
  rewrite List.in_map_iff. split.
  - intros ([name t] & <- & Hin). apply List.filter_In in Hin as [Hin Hcat].
    exists name. split; [|exact Hcat].
    apply elem_of_map_to_list. now apply list_elem_of_In.
  - intros (name & Hlook & Hcat). exists (name, tool). split; [reflexivity|].
    apply List.filter_In. split; [|exact Hcat].
    apply list_elem_of_In. now apply elem_of_map_to_list.
Qed.

Lemma in_category_recorded
    (self : ToolRegistry.t) (category : ToolRegistry.ToolCategory) (name : string)
    (md : ToolRegistry.ToolMetadata) :
  ToolRegistry.get_metadata self name = Some md ->
  ToolRegistry.in_category self category name = true
  <-> ToolRegistry.md_category md = category.
Proof.
  unfold ToolRegistry.get_metadata, ToolRegistry.in_category. intros ->. cbn.
  apply bool_decide_eq_true.
Qed.

Lemma registry_consistent_empty : registry_consistent ToolRegistry.empty.
Proof.
  split.
  - intros name tool. unfold ToolRegistry.get. cbn. now rewrite lookup_empty.
  - intros name [md Hmd]. unfold ToolRegistry.get_metadata in Hmd. cbn in Hmd.
    now rewrite lookup_empty in Hmd.
Qed.

Lemma registry_consistent_register
    (self : ToolRegistry.t) (tool : Tool) (metadata : option ToolRegistry.ToolMetadata) :
  registry_consistent self ->
  registry_consistent (ToolRegistry.register self tool metadata).
Proof.
  intros [Hkey Hmeta]. split.
  - intros name t. unfold ToolRegistry.get. cbn.
    destruct (decide (tool_name tool = name)) as [<-|Hne].
    + rewrite lookup_insert_eq. now intros [= <-].
    + rewrite lookup_insert_ne by exact Hne. apply Hkey.
  - intros name. unfold ToolRegistry.get, ToolRegistry.get_metadata. cbn.
    destruct (decide (tool_name tool = name)) as [<-|Hne].
    + rewrite lookup_insert_eq. eauto.
    + rewrite lookup_insert_ne by exact Hne.
      destruct metadata; [rewrite lookup_insert_ne by exact Hne|]; apply Hmeta.
Qed.

Lemma registry_consistent_unregister (self : ToolRegistry.t) (name : string) :
  registry_consistent self -> registry_consistent (ToolRegistry.unregister self name).
Proof.
  intros [Hkey Hmeta]. split.
  - intros n t. unfold ToolRegistry.get. cbn.
    destruct (decide (name = n)) as [<-|Hne].
    + now rewrite lookup_delete_eq.
    + rewrite lookup_delete_ne by exact Hne. apply Hkey.
  - intros n. unfold ToolRegistry.get, ToolRegistry.get_metadata. cbn.
    destruct (decide (name = n)) as [<-|Hne].
    + rewrite lookup_delete_eq. now intros [? [=]].
    + rewrite !lookup_delete_ne by exact Hne. apply Hmeta.
Qed.

Lemma registry_consistent_after (ops : list ToolRegistryOps.Op) :
  forall self, registry_consistent self ->
               registry_consistent (ToolRegistryOps.after self ops).
Proof.
  induction ops as [|op ops IH]; intros self Hself; [exact Hself|].
  unfold ToolRegistryOps.after. cbn [foldl]. apply IH.
  destruct op as [tool metadata|name|]; cbn.
  - now apply registry_consistent_register.
  - now apply registry_consistent_unregister.
  - apply registry_consistent_empty.
Qed.

(** X1. Whatever sequence of [register], [unregister] and [clear] calls
    built the registry from the empty one: a tool is stored under its own
    name, metadata is recorded only for a name that holds a tool, and every
    tool the by-category query lists can be fetched by its name. *)
Theorem registry_keeps_tools_by_name
    (ops : list ToolRegistryOps.Op) (name : string)
    (category : ToolRegistry.ToolCategory) (tool : Tool) :
  let registry := ToolRegistryOps.after ToolRegistry.empty ops in
  (ToolRegistry.get registry name = Some tool -> tool_name tool = name)
  /\ (is_Some (ToolRegistry.get_metadata registry name) ->
      is_Some (ToolRegistry.get registry name))
  /\ (In tool (ToolRegistry.get_by_category registry category) ->
      ToolRegistry.get registry (tool_name tool) = Some tool).
Proof.
  intros registry.
  destruct (registry_consistent_after ops _ registry_consistent_empty) as [Hkey Hmeta].
  fold registry in Hkey, Hmeta.
  split; [apply Hkey|]. split; [apply Hmeta|].
  intros Hin. apply in_get_by_category in Hin as (n & Hget & _).
  now rewrite (Hkey n tool Hget).
Qed.

(** X2. Registering a tool again without metadata leaves the metadata of
    the earlier registration in place: the new tool replaces the old one
    under its name, and the by-category query lists it under the category
    recorded before, and under no other. *)
Theorem register_without_metadata_keeps_category
    (ops : list ToolRegistryOps.Op) (tool : Tool)
    (md : ToolRegistry.ToolMetadata) (category : ToolRegistry.ToolCategory) :
  let before := ToolRegistryOps.after ToolRegistry.empty ops in
  let registry := ToolRegistry.register before tool None in
  ToolRegistry.get_metadata before (tool_name tool) = Some md ->
  ToolRegistry.get registry (tool_name tool) = Some tool
  /\ ToolRegistry.get_metadata registry (tool_name tool) = Some md
  /\ (In tool (ToolRegistry.get_by_category registry category)
      <-> ToolRegistry.md_category md = category).
Proof.
  intros before registry Hmd.
  assert (Hget : ToolRegistry.get registry (tool_name tool) = Some tool).
  { unfold ToolRegistry.get. cbn. apply lookup_insert_eq. }
  assert (Hmd' : ToolRegistry.get_metadata registry (tool_name tool) = Some md)
    by exact Hmd.
  split; [exact Hget|]. split; [exact Hmd'|].
  destruct (registry_consistent_register before tool None
              (registry_consistent_after ops _ registry_consistent_empty)) as [Hkey _].
  fold registry in Hkey. rewrite in_get_by_category. split.
  - intros (n & Hn & Hcat). rewrite <- (Hkey n tool Hn) in Hcat.
    now apply (in_category_recorded registry category _ md Hmd').
  - intros Hcat. exists (tool_name tool). split; [exact Hget|].
    now apply (in_category_recorded registry category _ md Hmd').
Qed.

Lemma register_without_metadata_keeps_category_witness :
  ToolRegistry.get_metadata (ToolRegistryOps.after ToolRegistry.empty registry_ops)
    (tool_name price_tool) = Some news_metadata
  /\ In price_tool
        (ToolRegistry.get_by_category
           (ToolRegistry.register
              (ToolRegistryOps.after ToolRegistry.empty registry_ops) price_tool None)
           ToolRegistry.NEWS).
Proof.
  split; [reflexivity|].
  destruct (register_without_metadata_keeps_category registry_ops price_tool
              news_metadata ToolRegistry.NEWS eq_refl) as (_ & _ & Hlisted).
  apply Hlisted. reflexivity.
Defined.

(** X3. [unregister] removes the tool and its metadata and raises nothing
    when the name is unknown, in which case the registry is unchanged; the
    other names keep their tool and metadata; and the by-category query
    then lists exactly the tools it listed before through another name. *)
Theorem unregister_removes_tool_and_metadata
    (self : ToolRegistry.t) (name : string)
    (category : ToolRegistry.ToolCategory) (tool : Tool) :
  let registry := ToolRegistry.unregister self name in
  ToolRegistry.get registry name = None
  /\ ToolRegistry.get_metadata registry name = None
  /\ (forall other, other <> name ->
        ToolRegistry.get registry other = ToolRegistry.get self other
        /\ ToolRegistry.get_metadata registry other = ToolRegistry.get_metadata self other)
  /\ (ToolRegistry.get self name = None ->
      ToolRegistry.get_metadata self name = None -> registry = self)
  /\ (In tool (ToolRegistry.get_by_category registry category)
      <-> exists other,
            other <> name
            /\ ToolRegistry.get self other = Some tool
            /\ ToolRegistry.in_category self category other = true).
Proof.
  intros registry.
  assert (Hother : forall other, other <> name ->
            ToolRegistry.get registry other = ToolRegistry.get self other
            /\ ToolRegistry.get_metadata registry other
               = ToolRegistry.get_metadata self other).
  { intros other Hne. unfold ToolRegistry.get, ToolRegistry.get_metadata. cbn.
    rewrite !lookup_delete_ne by congruence. split; reflexivity. }
  assert (Hgone : ToolRegistry.get registry name = None).
  { unfold ToolRegistry.get. cbn. apply lookup_delete_eq. }
  split; [exact Hgone|].
  split; [unfold ToolRegistry.get_metadata; cbn; apply lookup_delete_eq|].
  split; [exact Hother|]. split.
  - unfold ToolRegistry.get, ToolRegistry.get_metadata. intros Ht Hm.
    subst registry. unfold ToolRegistry.unregister.
    rewrite (delete_id _ _ Ht), (delete_id _ _ Hm). now destruct self.
  - rewrite in_get_by_category. split.
    + intros (other & Hget & Hcat).
      assert (Hne : other <> name) by (intros ->; congruence).
      destruct (Hother other Hne) as [Ht Hm]. exists other.
      split; [exact Hne|]. split; [congruence|].
      unfold ToolRegistry.in_category in *.
      unfold ToolRegistry.get_metadata in Hm. now rewrite <- Hm.
    + intros (other & Hne & Hget & Hcat).
      destruct (Hother other Hne) as [Ht Hm]. exists other.
      split; [congruence|].
      unfold ToolRegistry.in_category in *.
      unfold ToolRegistry.get_metadata in Hm. now rewrite Hm.
Qed.

(** X4. A tool object that registers itself ([BaseAgentTool.register]) is
    stored under its name with metadata built from its own attributes, so
    the by-category query lists it under its own category and under no
    other, whatever the registry held before. *)
Theorem base_agent_tool_register_lists_own_category
    (ops : list ToolRegistryOps.Op) (self : BaseAgentTool.t)
    (category : ToolRegistry.ToolCategory) :
  let name := tool_name (BaseAgentTool.tool self) in
  let registry :=
    BaseAgentTool.register (ToolRegistryOps.after ToolRegistry.empty ops) self in
  ToolRegistry.get registry name = Some (BaseAgentTool.tool self)
  /\ ToolRegistry.get_metadata registry name = Some (BaseAgentTool.get_metadata self)
  /\ (In (BaseAgentTool.tool self) (ToolRegistry.get_by_category registry category)
      <-> category = BaseAgentTool.category self).
Proof.
  intros name registry.
  assert (Hget : ToolRegistry.get registry name = Some (BaseAgentTool.tool self)).
  { unfold ToolRegistry.get. cbn. apply lookup_insert_eq. }
  assert (Hmd : ToolRegistry.get_metadata registry name
                = Some (BaseAgentTool.get_metadata self)).
  { unfold ToolRegistry.get_metadata. cbn. apply lookup_insert_eq. }
  split; [exact Hget|]. split; [exact Hmd|].
  destruct (registry_consistent_register _ (BaseAgentTool.tool self)
              (Some (BaseAgentTool.get_metadata self))
              (registry_consistent_after ops _ registry_consistent_empty)) as [Hkey _].
  rewrite in_get_by_category. split.
  - intros (n & Hn & Hcat). apply Hkey in Hn as Hname. fold name in Hname. subst n.
    apply (in_category_recorded registry category _ _ Hmd) in Hcat.
    now rewrite <- Hcat.
  - intros ->. exists name. split; [exact Hget|].
    now apply (in_category_recorded registry _ _ _ Hmd).
Qed.

(** ** Tools of an agent *)

Lemma tool_map_snoc (ts : list Tool) (tool : Tool) :
  foldl (fun m t => <[tool_name t := t]> m) (∅ : gmap string Tool) (ts ++ [tool])
  = <[tool_name tool := tool]>
      (foldl (fun m t => <[tool_name t := t]> m) (∅ : gmap string Tool) ts).
Proof. now rewrite foldl_app. Qed.

Lemma tool_map_lookup (ts : list Tool) (name : string) :
  foldl (fun m t => <[tool_name t := t]> m) (∅ : gmap string Tool) ts !! name
  = last (filter (fun t => tool_name t = name) ts).
Proof.
  induction ts as [|tool ts IH] using rev_ind; [apply lookup_empty|].
  rewrite tool_map_snoc, filter_app, last_app.
  destruct (decide (tool_name tool = name)) as [Heq|Hne].
  - rewrite filter_cons_True by exact Heq. subst name.
    now rewrite lookup_insert_eq.
  - rewrite lookup_insert_ne by exact Hne.
    rewrite filter_cons_False by exact Hne. exact IH.
Qed.

(** X5. [get_tool] finds a tool by its name; when several tools of the
    agent carry the same name the last one in the list is the one found, and
    a name that no tool carries gives [None]. *)
Theorem get_tool_finds_last_of_name (self : BaseAgent.t) (name : string) :
  BaseAgent.get_tool self name
  = last (filter (fun tool => tool_name tool = name) (BaseAgent.tools self))
  /\ (BaseAgent.get_tool self name = None
      <-> Forall (fun tool => tool_name tool <> name) (BaseAgent.tools self)).
Proof.
  assert (Hlast : BaseAgent.get_tool self name
                  = last (filter (fun tool => tool_name tool = name)
                                 (BaseAgent.tools self)))
    by apply tool_map_lookup.
  split; [exact Hlast|]. rewrite Hlast, last_None. split.
  - intros Hnil. apply Forall_forall. intros tool Hin Hname.
    assert (Hmem : tool ∈ filter (fun t => tool_name t = name) (BaseAgent.tools self))
      by (apply list_elem_of_filter; split; assumption).
    rewrite Hnil in Hmem. now apply elem_of_nil in Hmem.
  - intros Hall.
    destruct (filter (fun t => tool_name t = name) (BaseAgent.tools self))
      as [|tool rest] eqn:Hfilter; [reflexivity|].
    assert (Hmem : tool ∈ filter (fun t => tool_name t = name) (BaseAgent.tools self))
      by (rewrite Hfilter; left).
    apply list_elem_of_filter in Hmem as [Hname Hin].
    rewrite Forall_forall in Hall. now destruct (Hall tool Hin).
Qed.

Lemma create_tools_names (self : ToolRegistry.t) (names : list string) :
  registry_consistent self ->
  List.map tool_name (AgentFactoryOps.create_tools self names)
  = filter (fun name => is_Some (ToolRegistry.get self name)) names.
Proof.
  intros [Hkey _]. unfold AgentFactoryOps.create_tools.
  induction names as [|name names IH]; [reflexivity|]. cbn [omap list_omap].
  destruct (ToolRegistry.get self name) as [tool|] eqn:Hget.
  - rewrite filter_cons_True by (rewrite Hget; eauto).
    cbn [List.map]. now rewrite (Hkey name tool Hget), IH.
  - rewrite filter_cons_False by (rewrite Hget; apply is_Some_None). exact IH.
Qed.

Lemma create_tools_registered (self : ToolRegistry.t) (names : list string) (tool : Tool) :
  tool ∈ AgentFactoryOps.create_tools self names
  <-> exists name, name ∈ names /\ ToolRegistry.get self name = Some tool.
Proof. unfold AgentFactoryOps.create_tools. apply list_elem_of_omap. Qed.

(** X6. The tool factory of the default agent factory looks every
    requested name up in the tool registry and leaves out, without an
    error, the names the registry does not hold: the tools it returns are
    those of the registered names among the requested ones, in the order and
    with the repetitions of the request. *)
Theorem create_tools_drops_unknown_names
    (ops : list ToolRegistryOps.Op) (tool_names : list string) :
  let tool_registry := ToolRegistryOps.after ToolRegistry.empty ops in
  let tools := AgentFactoryOps.create_tools tool_registry tool_names in
  List.map tool_name tools
  = filter (fun name => is_Some (ToolRegistry.get tool_registry name)) tool_names
  /\ Forall (fun tool => ToolRegistry.get tool_registry (tool_name tool) = Some tool) tools
  /\ (length tools <= length tool_names)%nat.
Proof.
  intros tool_registry tools.
  pose proof (registry_consistent_after ops _ registry_consistent_empty) as Hcons.
  fold tool_registry in Hcons. split; [now apply create_tools_names|]. split.
  - apply Forall_forall. intros tool Hin.
    apply create_tools_registered in Hin as (name & _ & Hget).
    destruct Hcons as [Hkey _]. now rewrite (Hkey name tool Hget).
  - rewrite <- (List.length_map tool_name tools).
    unfold tools. rewrite (create_tools_names _ _ Hcons). apply length_filter.
Qed.




(** ** Tool execution *)

(** X8. [execute_tool] raises no exception but [TOOL_EXECUTION_FAILED]: a
    name that is no tool of the agent raises it without any tool being
    invoked, and whatever exception the tool itself raises, an [AgentError]
    included, is wrapped in it, with the tool name and the arguments as
    details and the tool's exception as cause.  A value the tool returns is
    returned as it is.  A cancellation of the task while the tool runs is
    not wrapped: it ends [execute_tool], which ends that way in no other
    case. *)
Theorem execute_tool_wraps_every_failure
    (self : BaseAgent.t) (name : string) (arguments : pyval) (w : World) :
  exists r w',
    BaseAgent.execute_tool self name arguments w = Some (r, w')
    /\ llm_calls w' = llm_calls w
    /\ cancel_at w' = cancel_at w
    /\ (forall e, r = Raise e -> error_code e = Some TOOL_EXECUTION_FAILED)
    /\ match BaseAgent.get_tool self name with
       | None =>
           w' = w
           /\ r = Raise (AgentError TOOL_EXECUTION_FAILED
                           ("Tool '" +:+ name +:+ "' not found")
                           (Some (cfg_agent_id (BaseAgent.config self)))
                           (Some (BaseAgent.agent_type self)) ∅ None)
       | Some tool =>
           tool_invocations w' = S (tool_invocations w)
           /\ log w' = log w ++ [ToolInvoked (tool_invocations w) name]
           /\ (r = Cancelled <-> cancel_at w = Some (length (log w)))
           /\ (cancel_at w <> Some (length (log w)) ->
               match tool_ainvoke tool (tool_invocations w) arguments with
               | Return v => r = Return v
               | Raise cause =>
                   r = Raise (AgentError TOOL_EXECUTION_FAILED
                                ("Tool '" +:+ name +:+ "' execution failed: "
                                   +:+ exception_str cause)
                                (Some (cfg_agent_id (BaseAgent.config self)))
                                (Some (BaseAgent.agent_type self))
                                (<["tool_name" := VStr name]>
                                   (<["arguments" := arguments]> ∅))
                                (Some cause))
               end)
       end.
Proof.
  unfold BaseAgent.execute_tool.
  destruct (BaseAgent.get_tool self name) as [tool|].
  - unfold try_except, BaseAgent.tool_await. rewrite await_eq.
    destruct (bool_decide (cancel_at w = Some (length (log w)))) eqn:Hcancel.
    + apply bool_decide_eq_true in Hcancel.
      eexists _, _. split; [reflexivity|]. split; [reflexivity|]. split; [reflexivity|].
      split; [intros e [=]|]. split; [reflexivity|]. split; [reflexivity|].
      split; [tauto | contradiction].
    + apply bool_decide_eq_false in Hcancel.
      destruct (tool_ainvoke tool (tool_invocations w) arguments) as [v|cause].
      * eexists _, _. split; [reflexivity|]. split; [reflexivity|]. split; [reflexivity|].
        split; [intros e [=]|]. split; [reflexivity|]. split; [reflexivity|].
        split; [split; [discriminate | contradiction] | reflexivity].
      * eexists _, _. split; [reflexivity|]. split; [reflexivity|]. split; [reflexivity|].
        split; [intros e [= <-]; reflexivity|]. split; [reflexivity|]. split; [reflexivity|].
        split; [split; [discriminate | contradiction] | reflexivity].
  - eexists _, _. split; [reflexivity|]. split; [reflexivity|]. split; [reflexivity|].
    split; [intros e [= <-]; reflexivity|]. split; reflexivity.
Qed.

(** One pass of the loop of [_execute_tool_calls]. *)
Lemma execute_tool_call_result (self : BaseAgent.t) (tc : ToolCallReq) (w : World) :
  let call :=
    try_except (BaseAgent.execute_tool self (tc_name tc) (tc_args tc))
      (fun e => if is_AgentError e
                then ret (VStr ("Error: " +:+ exception_str e))
                else raise e) w in
  match BaseAgent.get_tool self (tc_name tc) with
  | None => call = Some (Return (tool_call_result self (tool_invocations w) tc), w)
  | Some tool =>
      call = Some (if bool_decide (cancel_at w = Some (length (log w)))
                   then Cancelled
                   else Done (Return (tool_call_result self (tool_invocations w) tc)),
                   {| llm_calls := llm_calls w;
                      tool_invocations := S (tool_invocations w);
                      log := log w ++ [ToolInvoked (tool_invocations w) (tc_name tc)];
                      cancel_at := cancel_at w |})
  end.
Proof.
  cbv zeta. unfold try_except, BaseAgent.execute_tool, tool_call_result.
  destruct (BaseAgent.get_tool self (tc_name tc)) as [tool|] eqn:Hget; [|reflexivity].
  unfold try_except, BaseAgent.tool_await. rewrite await_eq.
  destruct (bool_decide (cancel_at w = Some (length (log w)))); [reflexivity|].
  now destruct (tool_ainvoke tool (tool_invocations w) (tc_args tc)).
Qed.

(** X9. [_execute_tool_calls] raises no exception.  Unless the task is
    cancelled during one of its tool calls, in which case the cancellation
    ends it, it returns one result for each requested call, in order, where
    a call that names no tool of the agent or whose tool raises leaves the
    text of the error in place of a value.  It calls no model, and it
    invokes a tool once for every call that names a tool of the agent. *)
Theorem execute_tool_calls_never_raises
    (self : BaseAgent.t) (tcs : list ToolCallReq) (w : World) :
  exists r w',
    ReActAgent._execute_tool_calls self tcs w = Some (r, w')
    /\ llm_calls w' = llm_calls w
    /\ cancel_at w' = cancel_at w
    /\ (forall e, r <> Raise e)
    /\ (r = Cancelled
        <-> exists k, (k < length (known_calls self tcs))%nat
                      /\ cancel_at w = Some (length (log w) + k)%nat)
    /\ forall results,
         r = Return results ->
         length results = length tcs
         /\ tool_invocations w'
            = (tool_invocations w + length (known_calls self tcs))%nat
         /\ (forall i tc,
               tcs !! i = Some tc ->
               exists n, results !! i = Some (tool_call_result self n tc))
         /\ (forall i tc,
               tcs !! i = Some tc -> BaseAgent.get_tool self (tc_name tc) = None ->
               results !! i
               = Some (VStr ("Error: Tool '" +:+ tc_name tc +:+ "' not found"))).
Proof.
  revert w. induction tcs as [|tc tcs IH]; intros w.
  - exists (Done (Return [])), w. split; [reflexivity|]. split; [reflexivity|].
    split; [reflexivity|]. split; [discriminate|]. split.
    + split; [discriminate|]. intros (k & Hk & _). cbn in Hk. lia.
    + intros results [= <-]. cbn.
      repeat split; try lia; intros i tc Hi; now rewrite lookup_nil in Hi.
  - cbn [ReActAgent._execute_tool_calls]. unfold bind at 1.
    pose proof (execute_tool_call_result self tc w) as Hcall. cbv zeta in Hcall.
    unfold known_calls.
    destruct (BaseAgent.get_tool self (tc_name tc)) as [tool|] eqn:Hget.
    + rewrite filter_cons_True by (rewrite Hget; eauto).
      rewrite Hcall. clear Hcall.
      destruct (bool_decide (cancel_at w = Some (length (log w)))) eqn:Hcancel.
      { apply bool_decide_eq_true in Hcancel.
        eexists _, _. split; [reflexivity|]. split; [reflexivity|]. split; [reflexivity|].
        split; [discriminate|]. split; [|discriminate].
        split; [|reflexivity]. intros _. exists 0%nat. cbn. split; [lia|].
        now rewrite Nat.add_0_r. }
      apply bool_decide_eq_false in Hcancel. cbv beta iota. unfold bind at 1.
      match goal with |- context [ReActAgent._execute_tool_calls self tcs ?w0] =>
        destruct (IH w0) as (r & w' & Hrun & Hllm & Hkeep & Hno & Hcan & Hres) end.
      rewrite Hrun. cbn [llm_calls cancel_at log tool_invocations] in *.
      rewrite List.length_app in Hcan. cbn [length] in Hcan.
      destruct r as [[results|e]|].
      * eexists _, _. split; [reflexivity|]. split; [exact Hllm|]. split; [exact Hkeep|].
        split; [discriminate|]. split.
        { split; [discriminate|]. intros (k & Hk & Hat). cbn [length] in Hk.
          destruct k as [|k]; [rewrite Nat.add_0_r in Hat; contradiction|].
          assert (Hc : @Done (list pyval) (Return results) = Cancelled); [|discriminate].
          apply Hcan. exists k. split; [unfold known_calls; lia|]. rewrite Hat. f_equal. lia. }
        intros results' [= <-].
        destruct (Hres results eq_refl) as (Hlen & Htools & Heach & Hmissing).
        split; [cbn; lia|]. split; [rewrite Htools; unfold known_calls; cbn; lia|]. split.
        -- intros [|i] tc' Hi; cbn in Hi.
           ++ injection Hi as <-. eexists. reflexivity.
           ++ now apply (Heach i).
        -- intros [|i] tc' Hi Hnone; cbn in Hi.
           ++ injection Hi as <-. congruence.
           ++ now apply (Hmissing i).
      * now destruct (Hno e).
      * eexists _, _. split; [reflexivity|]. split; [exact Hllm|]. split; [exact Hkeep|].
        split; [discriminate|]. split; [|discriminate].
        split; [|reflexivity]. intros _.
        destruct (proj1 Hcan eq_refl) as (k & Hk & Hat).
        exists (S k). cbn [length]. split; [unfold known_calls in Hk; lia|].
        rewrite Hat. f_equal. lia.
    + rewrite filter_cons_False by (rewrite Hget; apply is_Some_None).
      rewrite Hcall. clear Hcall. cbv beta iota.
      destruct (IH w) as (r & w' & Hrun & Hllm & Hkeep & Hno & Hcan & Hres).
      unfold bind at 1. rewrite Hrun. fold (known_calls self tcs).
      destruct r as [[results|e]|].
      * eexists _, _. split; [reflexivity|]. split; [exact Hllm|]. split; [exact Hkeep|].
        split; [discriminate|]. split.
        { split; [discriminate|]. intros Hk.
          assert (Hc : @Done (list pyval) (Return results) = Cancelled); [|discriminate].
          now apply Hcan. }
        intros results' [= <-].
        destruct (Hres results eq_refl) as (Hlen & Htools & Heach & Hmissing).
        split; [cbn; lia|]. split; [exact Htools|]. split.
        -- intros [|i] tc' Hi; cbn in Hi.
           ++ injection Hi as <-. eexists. reflexivity.
           ++ now apply (Heach i).
        -- intros [|i] tc' Hi Hnone; cbn in Hi.
           ++ injection Hi as <-. cbn. unfold tool_call_result. now rewrite Hnone.
           ++ now apply (Hmissing i).
      * now destruct (Hno e).
      * eexists _, _. split; [reflexivity|]. split; [exact Hllm|]. split; [exact Hkeep|].
        split; [discriminate|]. split; [|discriminate].
        split; [|reflexivity]. intros _. now apply Hcan.
Qed.

(** ** The agent factory: creation, its failures and the cache *)

(** X10. [create] fails for five reasons only.  An unregistered agent type
    raises [AGENT_NOT_FOUND] and a missing model with no model factory
    raises [AGENT_INITIALIZATION_FAILED], each before anything is built; an
    exception of the model factory or of the tool factory leaves [create]
    as it is; an exception of the agent class, an [AgentError] included,
    never does: it is wrapped in [AGENT_INITIALIZATION_FAILED] with the
    original as cause.  An unregistered type is reported first, whatever
    the other arguments. *)
Theorem create_fails_for_five_reasons
    (registry : AgentRegistry.t) (self : AgentFactory.t)
    (agent_type : AgentType) (config : AgentConfig)
    (llm : option LLM) (tools : option (list Tool)) :
  let created := AgentFactory.create registry self agent_type config llm tools in
  (forall e, created = Raise e ->
             create_failure registry self agent_type config llm tools e)
  /\ (AgentRegistry.get_class registry agent_type = None ->
      created = Raise (not_registered agent_type))
  /\ (forall agent_class l ts cause,
        AgentRegistry.get_class registry agent_type = Some agent_class ->
        llm = Some l -> tools = Some ts ->
        agent_class config l (Some ts) = Raise cause ->
        created = Raise (creation_failed agent_type cause)).
Proof.
  intros created. subst created. unfold AgentFactory.create. split; [|split].
  - intros e.
    destruct (AgentRegistry.get_class registry agent_type) as [agent_class|] eqn:Hclass;
      [|intros [= <-]; now apply Unregistered_type].
    assert (Hbuild : forall l ts,
               match agent_class config l ts with
               | Return agent => Return agent
               | Raise e0 =>
                   Raise (AgentError AGENT_INITIALIZATION_FAILED
                            ("Failed to create agent: " +:+ exception_str e0)
                            None (Some agent_type) ∅ (Some e0))
               end = Raise e ->
               create_failure registry self agent_type config llm tools e).
    { intros l ts. destruct (agent_class config l ts) as [agent|cause] eqn:Hcall;
        [discriminate|].
      intros [= <-]. exact (Class_raised _ _ _ _ _ _ agent_class l ts cause Hclass Hcall). }
    assert (Htools : forall l,
               match
                 match tools, cfg_allowed_tools config with
                 | None, _ :: _ =>
                     match AgentFactory._tool_factory self with
                     | Some mk =>
                         match mk (cfg_allowed_tools config) with
                         | Return ts => Return (Some ts)
                         | Raise e0 => Raise e0
                         end
                     | None => Return (Some [])
                     end
                 | _, _ => Return tools
                 end
               with
               | Raise e0 => Raise e0
               | Return ts =>
                   match agent_class config l ts with
                   | Return agent => Return agent
                   | Raise e0 =>
                       Raise (AgentError AGENT_INITIALIZATION_FAILED
                                ("Failed to create agent: " +:+ exception_str e0)
                                None (Some agent_type) ∅ (Some e0))
                   end
               end = Raise e ->
               create_failure registry self agent_type config llm tools e).
    { intros l. destruct tools as [ts|] eqn:Hts; [apply Hbuild|].
      destruct (cfg_allowed_tools config) as [|name names] eqn:Hallowed; [apply Hbuild|].
      destruct (AgentFactory._tool_factory self) as [mk|] eqn:Hmk; [|apply Hbuild].
      destruct (mk (name :: names)) as [ts|e0] eqn:Hcall; [apply Hbuild|].
      intros [= <-]. apply (Tool_factory_raised _ _ _ _ _ _ mk e0); try assumption.
      - reflexivity.
      - rewrite Hallowed. discriminate.
      - now rewrite Hallowed. }
    destruct llm as [l|] eqn:Hllm; [apply Htools|].
    destruct (AgentFactory._llm_factory self) as [mk|] eqn:Hmk.
    + destruct (mk (cfg_model_name config)) as [l|e0] eqn:Hcall; [apply Htools|].
      intros [= <-]. now apply (Llm_factory_raised _ _ _ _ _ _ mk e0).
    + intros [= <-]. now apply No_llm.
  - now intros ->.
  - intros agent_class l ts cause -> -> -> Hcall. now rewrite Hcall.
Qed.

Lemma create_ignores_cache
    (registry : AgentRegistry.t) (self : AgentFactory.t)
    (agent_type : AgentType) (config : AgentConfig)
    (llm : option LLM) (tools : option (list Tool)) :
  AgentFactory.create registry (AgentFactory.clear_cache self) agent_type config llm tools
  = AgentFactory.create registry self agent_type config llm tools.
Proof. reflexivity. Qed.

(** X11. [get_or_create] caches successes only.  When it raises, the
    exception is the one of [create] and the factory is left as it was, so
    the next call for that agent id tries to create the agent again.  When
    it returns, the agent is cached under the agent id of the configuration
    and no other entry of the cache changes. *)
Theorem get_or_create_caches_successes_only
    (registry : AgentRegistry.t) (self : AgentFactory.t)
    (agent_type : AgentType) (config : AgentConfig)
    (llm : option LLM) (tools : option (list Tool)) :
  let call := AgentFactory.get_or_create registry self agent_type config llm tools in
  let agent_id := cfg_agent_id config in
  match call.1 with
  | Raise e =>
      call.2 = self
      /\ AgentFactory._instances self !! agent_id = None
      /\ AgentFactory.create registry self agent_type config llm tools = Raise e
      /\ AgentFactory.get_or_create registry call.2 agent_type config llm tools = call
  | Return agent =>
      AgentFactory._instances call.2 !! agent_id = Some agent
      /\ (forall other, other <> agent_id ->
            AgentFactory._instances call.2 !! other
            = AgentFactory._instances self !! other)
      /\ (AgentFactory._instances self !! agent_id = None ->
          AgentFactory.create registry self agent_type config llm tools = Return agent)
  end.
Proof.
  intros call agent_id. subst call. unfold AgentFactory.get_or_create. fold agent_id.
  destruct (AgentFactory._instances self !! agent_id) as [cached|] eqn:Hcached.
  - cbn. split; [exact Hcached|]. split; [reflexivity|].
    intros Hnone. rewrite Hnone in Hcached. discriminate.
  - destruct (AgentFactory.create registry self agent_type config llm tools)
      as [agent|e] eqn:Hcreate; cbn.
    + split; [apply lookup_insert_eq|]. split; [|reflexivity].
      intros other Hne. now rewrite lookup_insert_ne by congruence.
    + split; [reflexivity|]. split; [first [exact Hcached | reflexivity]|].
      split; [reflexivity|]. now rewrite ?Hcached, ?Hcreate.
Qed.

(** X12. After [clear_cache] nothing is cached: the cache is empty, and the
    next [get_or_create], for any agent id, an id cached before included,
    goes to [create] and returns what [create] gives. *)
Theorem clear_cache_forgets_instances
    (registry : AgentRegistry.t) (self : AgentFactory.t)
    (agent_type : AgentType) (config : AgentConfig)
    (llm : option LLM) (tools : option (list Tool)) :
  let cleared := AgentFactory.clear_cache self in
  AgentFactory._instances cleared = ∅
  /\ AgentFactory._llm_factory cleared = AgentFactory._llm_factory self
  /\ AgentFactory._tool_factory cleared = AgentFactory._tool_factory self
  /\ (AgentFactory.get_or_create registry cleared agent_type config llm tools).1
     = AgentFactory.create registry self agent_type config llm tools.
Proof.
  intros cleared. split; [reflexivity|]. split; [reflexivity|]. split; [reflexivity|].
  unfold AgentFactory.get_or_create. subst cleared. cbn [AgentFactory._instances AgentFactory.clear_cache].
  rewrite lookup_empty, create_ignores_cache.
  now destruct (AgentFactory.create registry self agent_type config llm tools).
Qed.

(** X13. [create_from_id] looks the configuration up under the id given
    to [register_config], and creates the agent of the type written in the
    configuration.  An id with no configuration raises [AGENT_NOT_FOUND]
    naming the id.  Unregistering an agent class leaves the configurations
    in place, so [create_from_id] then fails for the type, not for the id;
    after [clear] it fails for the id. *)
Theorem create_from_id_looks_up_configuration
    (registry : AgentRegistry.t) (self : AgentFactory.t)
    (agent_id : string) (config : AgentConfig)
    (llm : option LLM) (tools : option (list Tool)) :
  let configured := AgentRegistryOps.register_config registry agent_id config in
  let unregistered := AgentRegistryOps.unregister configured (cfg_agent_type config) in
  let missing :=
    AgentError AGENT_NOT_FOUND ("Agent config for '" +:+ agent_id +:+ "' not found")
      None None ∅ None in
  AgentFactoryOps.create_from_id configured self agent_id llm tools
  = AgentFactory.create registry self (cfg_agent_type config) config llm tools
  /\ (AgentRegistry.get_config registry agent_id = None ->
      AgentFactoryOps.create_from_id registry self agent_id llm tools = Raise missing)
  /\ AgentFactoryOps.create_from_id unregistered self agent_id llm tools
     = Raise (not_registered (cfg_agent_type config))
  /\ AgentFactoryOps.create_from_id (AgentRegistryOps.clear configured) self agent_id
       llm tools
     = Raise missing.
Proof.
  intros configured unregistered missing. unfold AgentFactoryOps.create_from_id.
  split; [|split; [|split]].
  - unfold AgentRegistry.get_config. cbn. rewrite lookup_insert_eq. reflexivity.
  - now intros ->.
  - unfold AgentRegistry.get_config. cbn. rewrite lookup_insert_eq.
    unfold AgentFactory.create, AgentRegistry.get_class. cbn.
    now rewrite lookup_delete_eq.
  - unfold AgentRegistry.get_config. cbn. now rewrite lookup_empty.
Qed.

(** ** Result extraction of the other agents *)

Lemma risk_assessor_handled (e : exception) :
  RiskAssessorAgent.handled e = true <-> decode_failure e.
Proof.
  unfold decode_failure. destruct e as [code msg id type details cause|cls msg]; cbn.
  - split; [discriminate | now intros (cls & m & [=] & _)].
  - rewrite !orb_true_iff, !bool_decide_eq_true. split.
    + intros H. exists cls, msg. split; [reflexivity | tauto].
    + intros (cls' & msg' & [= -> ->] & H). tauto.
Qed.

Lemma signal_generator_handled (e : exception) :
  SignalGeneratorAgent.handled e = true <-> decode_failure e.
Proof.
  unfold decode_failure. destruct e as [code msg id type details cause|cls msg]; cbn.
  - split; [discriminate | now intros (cls & m & [=] & _)].
  - rewrite !orb_true_iff, !bool_decide_eq_true. split.
    + intros H. exists cls, msg. split; [reflexivity | tauto].
    + intros (cls' & msg' & [= -> ->] & H). tauto.
Qed.

(** X14. The risk assessor's extraction never produces a decision.  It
    hands [json.loads] the candidate text with the white space of
    [str.strip] removed at both ends and returns the value decoded, an
    object or any other JSON value.  When [json.loads] raises
    [JSONDecodeError] (or [IndexError]) it returns the [raw_response]
    fallback; any other exception of [json.loads], such as the
    [RecursionError] of a deeply nested text, leaves the extraction. *)
Theorem risk_assessor_extract_cases
    (json_loads : string -> Result pyval)
    (self : BaseAgent.t) (response : BaseMessage) (st : AgentState) :
  let content := msg_content response in
  let extracted := RiskAssessorAgent.extract_result json_loads self response st in
  match json_loads (strip (candidate_text content)) with
  | Return decoded => extracted = Return (decoded, [])
  | Raise e =>
      (decode_failure e ->
       extracted = Return (VDict (<["raw_response" := VStr content]> ∅), []))
      /\ (~ decode_failure e -> extracted = Raise e)
  end.
Proof.
  intros content extracted. subst extracted.
  unfold RiskAssessorAgent.extract_result, RiskAssessorAgent.extract_body.
  fold content. rewrite json_candidate_spec.
  destruct (json_loads (strip (candidate_text content))) as [decoded|e]; [reflexivity|].
  destruct (RiskAssessorAgent.handled e) eqn:Hhandled.
  - split; [reflexivity|]. intros Hnot. exfalso. apply Hnot.
    now apply risk_assessor_handled.
  - split; [|reflexivity]. intros Hfail. apply risk_assessor_handled in Hfail.
    congruence.
Qed.

(** X15. The signal generator's extraction, by what [json.loads] does on
    the stripped candidate text.  When it raises [JSONDecodeError] (or
    [IndexError]) the result is the [raw_response] fallback with no
    decision; any other exception that it raises leaves the extraction.
    When it returns a value that is no object the extraction raises
    [AttributeError], and when the [signal] entry of the object is a list
    or an object it raises [TypeError].  Otherwise the result is the object
    with one decision whose kind is [BUY], [SELL] or [HOLD] and never
    [OBSERVE] or [ALERT] (a signal [observe] gives [HOLD]), whose reasoning
    is the one-element list of the [notes] entry, and whose supporting data
    has the five price and position keys, [None] where the object has
    none. *)
Theorem signal_generator_extract_cases
    (json_loads : string -> Result pyval)
    (self : BaseAgent.t) (response : BaseMessage) (st : AgentState) :
  let content := msg_content response in
  let extracted := SignalGeneratorAgent.extract_result json_loads self response st in
  match json_loads (strip (candidate_text content)) with
  | Raise e =>
      (decode_failure e ->
       extracted = Return (VDict (<["raw_response" := VStr content]> ∅), []))
      /\ (~ decode_failure e -> extracted = Raise e)
  | Return (VDict o) =>
      match o !! "signal" with
      | Some (VList _ as signal) | Some (VDict _ as signal) =>
          extracted
          = Raise (PyError "TypeError"
                     ("unhashable type: '" +:+ type_name signal +:+ "'"))
      | _ =>
          exists d,
            extracted = Return (VDict o, [d])
            /\ decision_type d
               = match o !! "signal" with
                 | Some (VStr s) =>
                     if decide (s = "buy") then BUY
                     else if decide (s = "sell") then SELL else HOLD
                 | _ => HOLD
                 end
            /\ decision_type d <> OBSERVE /\ decision_type d <> ALERT
            /\ symbol d = default (VStr "UNKNOWN") (task_input st !! "symbol")
            /\ reasoning d = VList [default (VStr "") (o !! "notes")]
            /\ confidence d = default (VFloat (1 # 2)) (o !! "confidence")
            /\ dom (supporting_data d)
               = ({["entry_price"; "stop_loss"; "take_profit"; "position_size";
                    "time_frame"]} : gset string)
            /\ (forall key,
                  key ∈ ["entry_price"; "stop_loss"; "take_profit"; "position_size";
                         "time_frame"] ->
                  supporting_data d !! key = Some (default VNone (o !! key)))
      end
  | Return v =>
      extracted
      = Raise (PyError "AttributeError"
                 ("'" +:+ type_name v +:+ "' object has no attribute 'get'"))
  end.
Proof.
  intros content extracted. subst extracted.
  unfold SignalGeneratorAgent.extract_result, SignalGeneratorAgent.extract_body.
  fold content. rewrite json_candidate_spec.
  destruct (json_loads (strip (candidate_text content))) as [v|e].
  - destruct v as [| | | | | |o]; try reflexivity.
    cbn [py_get].
    assert (Hdom : dom (SignalGeneratorAgent.supporting o)
                   = ({["entry_price"; "stop_loss"; "take_profit"; "position_size";
                        "time_frame"]} : gset string)).
    { unfold SignalGeneratorAgent.supporting. rewrite !dom_insert_L, dom_empty_L.
      set_solver. }
    assert (Hmiss : forall key,
              key ∈ ["entry_price"; "stop_loss"; "take_profit"; "position_size";
                     "time_frame"] ->
              SignalGeneratorAgent.supporting o !! key = Some (default VNone (o !! key))).
    { intros key Hkey.
      unfold SignalGeneratorAgent.supporting, SignalGeneratorAgent.get_or_None.
      rewrite !lookup_insert, lookup_empty.
      repeat (apply elem_of_cons in Hkey as [->|Hkey]; [reflexivity|]).
      now apply elem_of_nil in Hkey. }
    destruct (o !! "signal") as [signal|] eqn:Hsignal; cbn [default].
    + destruct signal as [| | | |s| |];
        cbn [SignalGeneratorAgent.decision_type_map_get];
        try reflexivity;
        eexists; (split; [reflexivity|]);
        cbn [decision_type symbol reasoning confidence supporting_data];
        (split; [reflexivity|]);
        repeat split; try exact Hdom; try exact Hmiss; try discriminate;
        repeat case_decide; discriminate.
    + eexists.
      repeat split; try reflexivity; try discriminate; try exact Hdom; exact Hmiss.
  - destruct (SignalGeneratorAgent.handled e) eqn:Hhandled.
    + split; [reflexivity|]. intros Hnot. exfalso. apply Hnot.
      now apply signal_generator_handled.
    + split; [|reflexivity]. intros Hfail. apply signal_generator_handled in Hfail.
      congruence.
Qed.

(** X16. The strategy analyzer's extraction raises [AttributeError] when
    [json.loads] returns a value that is no object and [TypeError] when the
    [decision] entry of the object is a list or an object; neither is named
    by its [except] clause.  An exception of [json.loads] other than
    [JSONDecodeError], [IndexError] and [KeyError] leaves the extraction
    too.  In every other case it returns, and a decision it returns is
    never of kind [ALERT], takes its symbol from the task input of the state
    ([UNKNOWN] when there is none) and its supporting data from the tool
    results of the state, not from the model's answer. *)
Theorem strategy_analyzer_extract_cases
    (json_loads : string -> Result pyval)
    (self : BaseAgent.t) (response : BaseMessage) (st : AgentState) :
  let content := msg_content response in
  let extracted := StrategyAnalyzerAgent.extract_result json_loads self response st in
  match json_loads (strip (candidate_text content)) with
  | Raise e =>
      (parse_failure e ->
       extracted = Return (VDict (<["raw_response" := VStr content]> ∅), []))
      /\ (~ parse_failure e -> extracted = Raise e)
  | Return (VDict o) =>
      match o !! "decision" with
      | Some (VList _ as key) | Some (VDict _ as key) =>
          extracted
          = Raise (PyError "TypeError"
                     ("unhashable type: '" +:+ type_name key +:+ "'"))
      | _ =>
          exists d,
            extracted = Return (VDict o, [d])
            /\ decision_type d <> ALERT
            /\ symbol d = default (VStr "UNKNOWN") (task_input st !! "symbol")
            /\ supporting_data d = tool_results st
            /\ reasoning d = default (VList []) (o !! "reasoning")
            /\ risk_factors d = default (VList []) (o !! "risk_factors")
            /\ recommended_action d = default (VStr "") (o !! "recommended_action")
      end
  | Return v =>
      extracted
      = Raise (PyError "AttributeError"
                 ("'" +:+ type_name v +:+ "' object has no attribute 'get'"))
  end.
Proof.
  intros content extracted. subst extracted.
  unfold StrategyAnalyzerAgent.extract_result, StrategyAnalyzerAgent.extract_body.
  fold content. rewrite json_candidate_spec.
  destruct (json_loads (strip (candidate_text content))) as [v|e].
  - destruct v as [| | | | | |o]; try reflexivity.
    cbn [py_get].
    destruct (o !! "decision") as [key|] eqn:Hkey; cbn [default].
    + destruct key as [| | | |s| |];
        cbn [StrategyAnalyzerAgent.decision_type_map_get];
        try reflexivity;
        eexists; (split; [reflexivity|]);
        cbn [decision_type symbol supporting_data reasoning risk_factors recommended_action];
        repeat split; try discriminate.
      repeat case_decide; discriminate.
    + eexists. repeat split; discriminate.
  - destruct (StrategyAnalyzerAgent.handled e) eqn:Hhandled.
    + split; [reflexivity|]. intros Hnot. exfalso. apply Hnot.
      now apply handled_parse_failure.
    + split; [|reflexivity]. intros Hfail. apply handled_parse_failure in Hfail.
      congruence.
Qed.

(** ** Routing functions of the workflows *)

Lemma check_conditions_continue (state : pydict) (conditions : list Engine.Condition) :
  Engine.check_conditions conditions state = Return "continue"
  <-> Forall (passes state) conditions.
Proof.
  induction conditions as [|condition rest IH]; cbn [Engine.check_conditions].
  - split; [constructor | reflexivity].
  - rewrite Forall_cons. unfold passes at 1.
    destruct (condition state) as [v|e]; [destruct (truthy v) eqn:Hv|].
    + split; [discriminate|]. intros [(v' & [= <-] & Hv') _]. congruence.
    + rewrite IH. split; [intros Hrest; split; eauto | tauto].
    + split; [discriminate|]. now intros [(v' & [=] & _) _].
Qed.

Lemma check_conditions_values (state : pydict) (conditions : list Engine.Condition)
    (route : string) :
  Engine.check_conditions conditions state = Return route ->
  route = "continue" \/ route = "end".
Proof.
  induction conditions as [|condition rest IH]; cbn [Engine.check_conditions].
  - intros [= <-]. now left.
  - destruct (condition state) as [v|e]; [|discriminate].
    destruct (truthy v); [intros [= <-]; now right | exact IH].
Qed.

Lemma check_conditions_first_true (state : pydict)
    (before : list Engine.Condition) (condition : Engine.Condition)
    (after : list Engine.Condition) (v : pyval) :
  Forall (passes state) before ->
  condition state = Return v -> truthy v = true ->
  Engine.check_conditions (before ++ condition :: after) state = Return "end".
Proof.
  intros Hbefore Hcond Hv. induction Hbefore as [|c cs (v' & Hc & Hv') _ IH]; cbn.
  - now rewrite Hcond, Hv.
  - now rewrite Hc, Hv'.
Qed.

Lemma py_ge_false (v : pyval) (n : Z) :
  py_ge v n = Return false
  <-> exists q, py_number v = Some q /\ (q < inject_Z n)%Q.
Proof.
  unfold py_ge. destruct (py_number v) as [q|].
  - split.
    + intros [= H]. exists q. split; [reflexivity|]. now apply Qle_bool_false.
    + intros (q' & [= <-] & Hlt). f_equal. now apply Qle_bool_false.
  - split; [discriminate | now intros (q & [=] & _)].
Qed.

(** X17. The routing function made by [create_should_continue] answers
    [continue] exactly when the state's [should_end] flag is false (or
    absent), its iteration count is a number below the maximum ([0] when
    absent) and every extra end condition returns a false value; it answers
    nothing but [continue] and [end].  A set flag gives [end] before
    anything else is looked at, and the conditions are tried in order: the
    first one that returns a true value gives [end] and the later ones are
    not called. *)
Theorem should_continue_cases
    (max_iterations : Z) (end_conditions : option (list Engine.Condition))
    (state : pydict) :
  let route := Engine.create_should_continue max_iterations end_conditions state in
  let conditions := default [] end_conditions in
  let below := exists n, count_of state = Some n /\ (n < inject_Z max_iterations)%Q in
  (flag_set state = true -> route = Return "end")
  /\ (route = Return "continue"
      <-> flag_set state = false /\ below /\ Forall (passes state) conditions)
  /\ (forall answer, route = Return answer -> answer = "continue" \/ answer = "end")
  /\ (forall before condition after v,
        conditions = before ++ condition :: after ->
        flag_set state = false -> below ->
        Forall (passes state) before ->
        condition state = Return v -> truthy v = true ->
        route = Return "end").
Proof.
  intros route conditions below. subst route below.
  unfold Engine.create_should_continue. fold conditions. fold (flag_set state).
  unfold count_of.
  destruct (flag_set state) eqn:Hflag.
  { split; [reflexivity|]. split; [split; [discriminate | now intros [[=] _]]|].
    split; [intros answer [= <-]; now right | discriminate]. }
  split; [discriminate|].
  destruct (py_ge (default (VInt 0) (state !! "iteration_count")) max_iterations)
    as [[|]|e] eqn:Hge.
  - assert (Hnot : ~ exists n, py_number (default (VInt 0) (state !! "iteration_count"))
                               = Some n /\ (n < inject_Z max_iterations)%Q).
    { intros H. apply py_ge_false in H. congruence. }
    split; [split; [discriminate | now intros (_ & H & _)]|].
    split; [intros answer [= <-]; now right|].
    intros before condition after v _ _ H. contradiction.
  - apply py_ge_false in Hge.
    split; [rewrite check_conditions_continue; tauto|].
    split; [apply check_conditions_values|].
    intros before condition after v -> _ _ Hbefore Hcond Hv.
    now apply (check_conditions_first_true state before condition after v).
  - assert (Hnot : ~ exists n, py_number (default (VInt 0) (state !! "iteration_count"))
                               = Some n /\ (n < inject_Z max_iterations)%Q).
    { intros H. apply py_ge_false in H. congruence. }
    split; [split; [discriminate | now intros (_ & H & _)]|].
    split; [discriminate|].
    intros before condition after v _ _ H. contradiction.
Qed.

(** X18. The routing function of the research workflow and the one made by
    [create_should_continue] with the same maximum and no extra condition
    decide alike on every state whose iteration count is a number or
    absent: one answers [continue] exactly when the other does, and
    [finish] where the other answers [end].  They differ when the count is
    not a number: the research workflow compares the count first and
    raises, whereas the other answers [end] when the flag is set and raises
    only when it is not. *)
Theorem research_should_continue_agrees (max_iterations : Z) (state : pydict) :
  let research := ResearchWorkflow.should_continue max_iterations state in
  let engine := Engine.create_should_continue max_iterations None state in
  (is_Some (count_of state) ->
   (research = Return "continue" <-> engine = Return "continue")
   /\ (research = Return "finish" <-> engine = Return "end")
   /\ (research = Return "continue" \/ research = Return "finish"))
  /\ (count_of state = None ->
      (exists e, research = Raise e)
      /\ (flag_set state = true -> engine = Return "end")
      /\ (flag_set state = false -> exists e, engine = Raise e)).
Proof.
  intros research engine. subst research engine.
  unfold ResearchWorkflow.should_continue, Engine.create_should_continue, count_of, py_ge.
  fold (flag_set state). cbn [default Engine.check_conditions].
  destruct (py_number (default (VInt 0) (state !! "iteration_count"))) as [n|].
  - split; [|discriminate]. intros _.
    destruct (Qle_bool (inject_Z max_iterations) n), (flag_set state);
      repeat split; auto; discriminate.
  - split; [now intros [? [=]]|]. intros _.
    split; [eauto|]. split; [now intros ->|]. intros ->. eauto.
Qed.

(** ** The parallel fan-out node on other states and agent lists *)

Lemma rebuild_has_entries (state : pydict) (outs errs : option pydict) (result : pydict) :
  MultiAgentWorkflow.rebuild state outs errs = Some (Return result) ->
  is_Some (result !! "agent_outputs") /\ is_Some (result !! "agent_errors").
Proof.
  unfold MultiAgentWorkflow.rebuild.
  destruct (state !! "agent_outputs"), (state !! "agent_errors"); try discriminate.
  destruct outs as [outs|], errs as [errs|]; try discriminate.
  intros [= <-]. split.
  - rewrite lookup_insert_ne by discriminate. rewrite lookup_insert_eq. eauto.
  - rewrite lookup_insert_eq. eauto.
Qed.

Lemma rebuild_raises (state : pydict) (outs errs : option pydict) :
  is_Some (state !! "agent_outputs") \/ is_Some (state !! "agent_errors") ->
  exists e, MultiAgentWorkflow.rebuild state outs errs = Some (Raise e).
Proof.
  unfold MultiAgentWorkflow.rebuild. intros [[v Hv]|[v Hv]]; rewrite Hv.
  - eauto.
  - destruct (state !! "agent_outputs"); eauto.
Qed.

Lemma parallel_executor_raises_on_entries
    (agent_handlers : gmap string MultiAgentWorkflow.Handler)
    (parallel_agents : list string) (state : pydict) :
  MultiAgentWorkflow.tasks agent_handlers parallel_agents <> [] ->
  is_Some (state !! "agent_outputs") \/ is_Some (state !! "agent_errors") ->
  exists e, MultiAgentWorkflow.parallel_executor agent_handlers parallel_agents state
            = Some (Raise e).
Proof.
  intros Htasks Hentries. unfold MultiAgentWorkflow.parallel_executor.
  destruct (MultiAgentWorkflow.tasks agent_handlers parallel_agents) as [|t ts];
    [contradiction|].
  destruct (MultiAgentWorkflow.dict_of_entry state "agent_outputs") as [outs|e]; [|eauto].
  destruct (MultiAgentWorkflow.dict_of_entry state "agent_errors") as [errs|e]; [|eauto].
  destruct (foldl MultiAgentWorkflow.merge_one _ _) as [[outs' errs']|e]; [|eauto].
  now apply rebuild_raises.
Qed.

(** X19. The fan-out node returns the state untouched when none of the
    listed agents has a handler.  When at least one has, the node never
    returns on a state that already has an [agent_outputs] or an
    [agent_errors] entry: it raises.  Every state the node builds has both
    entries, so the node raises on its own result: it cannot run twice in a
    row, nor after a node that has written either entry. *)
Theorem parallel_executor_cannot_rerun
    (agent_handlers : gmap string MultiAgentWorkflow.Handler)
    (parallel_agents : list string) (state : pydict) :
  let node := MultiAgentWorkflow.parallel_executor agent_handlers parallel_agents in
  let handled := MultiAgentWorkflow.tasks agent_handlers parallel_agents in
  (handled = [] -> node state = Some (Return state))
  /\ (handled <> [] ->
      is_Some (state !! "agent_outputs") \/ is_Some (state !! "agent_errors") ->
      exists e, node state = Some (Raise e))
  /\ (handled <> [] ->
      forall result,
        node state = Some (Return result) ->
        is_Some (result !! "agent_outputs") /\ is_Some (result !! "agent_errors")
        /\ exists e, node result = Some (Raise e)).
Proof.
  intros node handled. split; [|split].
  - subst node handled. unfold MultiAgentWorkflow.parallel_executor. now intros ->.
  - apply parallel_executor_raises_on_entries.
  - intros Hhandled result Hrun.
    assert (Hentries : is_Some (result !! "agent_outputs")
                       /\ is_Some (result !! "agent_errors")).
    { subst node handled. unfold MultiAgentWorkflow.parallel_executor in Hrun.
      destruct (MultiAgentWorkflow.tasks agent_handlers parallel_agents) as [|t ts];
        [contradiction|].
      destruct (MultiAgentWorkflow.dict_of_entry state "agent_outputs") as [outs|e];
        [|discriminate].
      destruct (MultiAgentWorkflow.dict_of_entry state "agent_errors") as [errs|e];
        [|discriminate].
      destruct (foldl MultiAgentWorkflow.merge_one _ _) as [[outs' errs']|e];
        [|discriminate].
      now apply rebuild_has_entries in Hrun. }
    destruct Hentries as [Houts Herrs]. split; [exact Houts|]. split; [exact Herrs|].
    apply parallel_executor_raises_on_entries; [exact Hhandled | now left].
Qed.

Lemma tasks_none (agent_handlers : gmap string MultiAgentWorkflow.Handler)
    (agents : list string) :
  Forall (fun agent_id => agent_handlers !! agent_id = None) agents ->
  MultiAgentWorkflow.tasks agent_handlers agents = [].
Proof.
  unfold MultiAgentWorkflow.tasks. induction 1 as [|a rest Ha _ IH]; [reflexivity|].
  cbn [omap list_omap]. now rewrite Ha.
Qed.

(** X20. The node pairs the results with the listed agent ids by position,
    although an agent without a handler contributes no result.  So when the
    first listed agent has no handler and the second has one (and no later
    one has), the second agent's result, or the message of its exception,
    is recorded under the first agent's id, and nothing is recorded under
    the id of the agent that ran. *)
Theorem parallel_executor_shifts_results
    (agent_handlers : gmap string MultiAgentWorkflow.Handler)
    (missing present : string) (rest : list string)
    (handler : MultiAgentWorkflow.Handler) (state : pydict) :
  agent_handlers !! missing = None ->
  agent_handlers !! present = Some handler ->
  Forall (fun agent_id => agent_handlers !! agent_id = None) rest ->
  state !! "agent_outputs" = None ->
  state !! "agent_errors" = None ->
  plain (handler state) ->
  let recorded := contribution missing (handler state) (∅, ∅) in
  MultiAgentWorkflow.parallel_executor agent_handlers (missing :: present :: rest) state
  = Some (Return (<["agent_errors" := VDict recorded.2]>
                    (<["agent_outputs" := VDict recorded.1]> state)))
  /\ (present <> missing ->
      recorded.1 !! present = None /\ recorded.2 !! present = None).
Proof.
  intros Hmissing Hpresent Hrest Houts Herrs Hplain recorded. split.
  - unfold MultiAgentWorkflow.parallel_executor.
    assert (Htasks : MultiAgentWorkflow.tasks agent_handlers (missing :: present :: rest)
                     = [handler]).
    { unfold MultiAgentWorkflow.tasks. cbn [omap list_omap].
      rewrite Hmissing, Hpresent. f_equal. now apply tasks_none. }
    rewrite Htasks. cbn [MultiAgentWorkflow.gather List.map].
    unfold MultiAgentWorkflow.dict_of_entry. rewrite Houts, Herrs.
    cbn [zip zip_with foldl].
    rewrite (merge_one_plain missing (handler state) ∅ ∅ Hplain).
    fold recorded. destruct recorded as [outs errs].
    unfold MultiAgentWorkflow.rebuild. now rewrite Houts, Herrs.
  - intros Hne. subst recorded. unfold contribution.
    destruct (handler state) as [v|e]; cbn;
      rewrite ?lookup_insert_ne by congruence; rewrite lookup_empty; split; reflexivity.
Qed.

Lemma parallel_executor_shifts_results_witness :
  (analyst_handlers !! "macro" = None
   /\ analyst_handlers !! "technical" = Some technical_handler
   /\ Forall (fun agent_id => analyst_handlers !! agent_id = None) ["news"]
   /\ fresh_state !! "agent_outputs" = None
   /\ fresh_state !! "agent_errors" = None
   /\ plain (technical_handler fresh_state))
  /\ MultiAgentWorkflow.parallel_executor analyst_handlers ["macro"; "technical"; "news"]
       fresh_state
     = Some (Return (<["agent_errors" := VDict ∅]>
                       (<["agent_outputs" :=
                            VDict (<["macro" := VDict (<["trend" := VStr "up"]> ∅)]> ∅)]>
                          fresh_state))).
Proof.
  assert (H1 : analyst_handlers !! "macro" = None) by reflexivity.
  assert (H2 : analyst_handlers !! "technical" = Some technical_handler) by reflexivity.
  assert (H3 : Forall (fun agent_id => analyst_handlers !! agent_id = None) ["news"])
    by (repeat constructor).
  assert (H4 : fresh_state !! "agent_outputs" = None) by reflexivity.
  assert (H5 : fresh_state !! "agent_errors" = None) by reflexivity.
  assert (H6 : plain (technical_handler fresh_state)) by reflexivity.
  split; [repeat split; assumption|].
  exact (proj1 (parallel_executor_shifts_results analyst_handlers "macro" "technical"
                  ["news"] technical_handler fresh_state H1 H2 H3 H4 H5 H6)).
Defined.

(** ** The plan-and-execute agent *)

(** What a call of the helper can give: a response, [LLM_ERROR], the
    [OverflowError] of a waiting time when more than 1025 attempts are
    allowed, or the cancellation of the task; no tool is invoked. *)
Lemma invoke_llm_outcome
    (llm : LLM) (self : BaseAgent.t) (msgs : list BaseMessage) (use_tools : bool)
    (w : World) :
  exists r w',
    BaseAgent.invoke_llm llm self msgs use_tools w = Some (r, w')
    /\ tool_invocations w' = tool_invocations w
    /\ cancel_at w' = cancel_at w
    /\ (llm_calls w <= llm_calls w')%nat
    /\ match r with
       | Done (Return response) => exists reply, response = BaseAgent.as_AIMessage reply
       | Done (Raise e) =>
           error_code e = Some LLM_ERROR
           \/ (1025 < cfg_max_retries (BaseAgent.config self)
               /\ e = PyError "OverflowError" "int too large to convert to float")
       | Cancelled => cancel_at w <> None
       end.
Proof.
  destruct (invoke_llm_spec llm self (BaseAgent.bound_tools self use_tools) msgs
              use_tools w eq_refl) as (r & w' & Hrun & Htools & Hkeep & Hr).
  exists r, w'. split; [exact Hrun|]. split; [exact Htools|]. split; [exact Hkeep|].
  destruct r as [[response|e]|]; cbn in Hr.
  - destruct Hr as (j & reply & _ & _ & Hcalls & _ & _ & Hresp & _).
    split; [lia | eauto].
  - destruct Hr as [(Hcalls & _ & _ & He & _)|(j & Hj & Hat & Hcalls & _ & He & _)].
    + split; [lia|]. left. now rewrite He.
    + split; [lia|]. right. split; [lia | exact He].
  - destruct Hr as (Hat & j & _ & _ & Hcalls & _). split; [lia|]. congruence.
Qed.

Section PlanFacts.
Variable llm : LLM.
Variable py_str : pyval -> string.
Variable self : BaseAgent.t.
Variable st : AgentState.
Variable agent_input : AgentInput.

Lemma execute_steps_spec (steps : list pyval) :
  forall (results : list pyval) (ds : list Decision) (w : World),
  exists r w',
    PlanAndExecute.execute_steps llm py_str self steps st agent_input results ds w
    = Some (r, w')
    /\ tool_invocations w' = tool_invocations w
    /\ cancel_at w' = cancel_at w
    /\ match r with
       | Done (Return (results', ds')) =>
           ds' = ds
           /\ exists records,
                results' = results ++ records
                /\ Forall2 (fun step record =>
                              exists text, record = step_record step text)
                           steps records
       | Done (Raise e) =>
           error_code e = Some LLM_ERROR
           \/ (1025 < cfg_max_retries (BaseAgent.config self)
               /\ e = PyError "OverflowError" "int too large to convert to float")
       | Cancelled => cancel_at w <> None
       end.
Proof.
  induction steps as [|step rest IH]; intros results ds w.
  - exists (Done (Return (results, ds))), w. split; [reflexivity|]. split; [reflexivity|].
    split; [reflexivity|].
    split; [reflexivity|]. exists []. split; [now rewrite app_nil_r | constructor].
  - cbn [PlanAndExecute.execute_steps]. unfold bind at 1.
    unfold PlanAndExecute.execute_step, bind at 1.
    destruct (invoke_llm_outcome llm self
                (messages st ++ [HumanMessage ("请执行以下步骤:
" +:+ py_str step)]) true w)
      as ([[response|e]|] & w1 & -> & Htools1 & Hkeep1 & _ & Hr).
    + unfold ret at 1.
      destruct (IH (results ++ [step_record step (msg_content response)]) (ds ++ []) w1)
        as (r & w' & Hrun & Htools & Hkeep & Hrest).
      exists r, w'. split; [exact Hrun|]. split; [congruence|]. split; [congruence|].
      destruct r as [[[results' ds']|e]|]; [|exact Hrest|congruence].
      destruct Hrest as (-> & records & -> & Hrecords).
      split; [apply app_nil_r|].
      exists (step_record step (msg_content response) :: records).
      split; [now rewrite <- app_assoc|].
      constructor; [eauto | exact Hrecords].
    + eexists _, _. split; [reflexivity|]. split; [exact Htools1|].
      split; [exact Hkeep1 | exact Hr].
    + eexists _, _. split; [reflexivity|]. split; [exact Htools1|].
      split; [exact Hkeep1 | exact Hr].
Qed.
End PlanFacts.

(** X21. A plan-and-execute run invokes no tool and never returns a
    decision.  When [create_plan] raises or is cancelled, the run ends the
    same way at once, and so it does when the plan cannot be iterated.
    When the plan is a list, a string or a dictionary of one key at most,
    its elements, characters or keys being the steps, the run ends, and a
    run that returns gives [steps_completed] equal to the number of steps
    and one record for each step, in order, holding the step and the text
    of an answer; so an empty plan gives a result with no step and no
    record.  A run that raises then raises the [LLM_ERROR] of a step, or
    the [OverflowError] of a waiting time when more than 1025 attempts are
    allowed, and the records of the steps done before are lost; a run ends
    cancelled only if the task is cancelled.  (For a plan that is a
    dictionary of two keys or more the model does not hold the order in
    which Python lists the keys, and has no run.) *)
Theorem plan_execute_completes_every_step
    (llm : LLM) (py_str : pyval -> string) (json_loads : string -> Result pyval)
    (self : BaseAgent.t) (st : AgentState) (agent_input : AgentInput) (w : World) :
  let create_plan := PlanAndExecuteAgent.create_plan llm py_str json_loads self agent_input in
  let execute := PlanAndExecute.execute llm py_str json_loads self st agent_input in
  (forall r w', execute w = Some (r, w') ->
     tool_invocations w' = tool_invocations w
     /\ forall result ds, r = Return (result, ds) -> ds = [])
  /\ match create_plan w with
     | Some (Done (Return plan), w1) =>
         match py_iter plan with
         | Some (Return steps) =>
             exists r w',
               execute w = Some (r, w')
               /\ match r with
                  | Done (Return (result, _)) =>
                      exists records,
                        result
                        = VDict (<["steps_completed" := VInt (Z.of_nat (length steps))]>
                                   (<["results" := VList records]> ∅))
                        /\ Forall2 (fun step record =>
                                      exists text,
                                        record
                                        = VDict (<["step" := step]>
                                                   (<["result" := VStr text]> ∅)))
                                   steps records
                  | Done (Raise e) =>
                      error_code e = Some LLM_ERROR
                      \/ (1025 < cfg_max_retries (BaseAgent.config self)
                          /\ e = PyError "OverflowError"
                                   "int too large to convert to float")
                  | Cancelled => cancel_at w <> None
                  end
         | Some (Raise e) => execute w = Some (Raise e, w1)
         | None => execute w = None
         end
     | Some (Done (Raise e), w1) => execute w = Some (Raise e, w1)
     | Some (Cancelled, w1) => execute w = Some (Cancelled, w1)
     | None => False
     end.
Proof.
  intros create_plan execute.
  assert (Hplan : exists r1 w1, create_plan w = Some (r1, w1)
                                /\ tool_invocations w1 = tool_invocations w
                                /\ cancel_at w1 = cancel_at w).
  { subst create_plan. unfold PlanAndExecuteAgent.create_plan, bind.
    destruct (invoke_llm_outcome llm self
                [SystemMessage (BaseAgent.system_prompt self);
                 HumanMessage (PlanAndExecuteAgent.plan_prompt
                                 (py_str (VDict (in_content agent_input))))] false w)
      as ([[response|e]|] & w1 & -> & Htools & Hkeep & _); [|eauto|eauto].
    unfold lift.
    destruct (match PlanAndExecuteAgent.plan_body json_loads (msg_content response) with
              | Return a => Return a
              | Raise e =>
                  if PlanAndExecuteAgent.handled e
                  then Return (PlanAndExecuteAgent.single_step_plan agent_input)
                  else Raise e
              end); unfold ret, raise; eauto. }
  destruct Hplan as (r1 & w1 & Hcreate & Htools1 & Hkeep1).
  subst execute create_plan.
  remember (PlanAndExecute.execute llm py_str json_loads self st agent_input w)
    as run eqn:Hrun.
  unfold PlanAndExecute.execute in Hrun. unfold bind at 1 in Hrun.
  rewrite Hcreate in *. clear Hcreate. destruct r1 as [[plan|e]|].
  - unfold bind at 1, settle, lift in Hrun. destruct (py_iter plan) as [[steps|e]|].
    + unfold ret at 1 in Hrun. unfold bind at 1 in Hrun.
      destruct (execute_steps_spec llm py_str self st agent_input steps [] [] w1)
        as ([[[results ds]|e]|] & w' & Hsteps & Htools & Hkeep & Hr);
        rewrite Hsteps in Hrun; subst run.
      * destruct Hr as (-> & records & -> & Hrecords). split.
        { intros r w'' [= <- <-]. split; [congruence|]. now intros result ds [= _ <-]. }
        eexists _, _. split; [reflexivity|].
        exists records. split; [|exact Hrecords].
        unfold PlanAndExecute.summarize_results. cbn [app].
        now rewrite (Forall2_length _ _ _ Hrecords).
      * split.
        { intros r w'' [= <- <-]. split; [congruence | discriminate]. }
        eexists _, _. split; [reflexivity | exact Hr].
      * split.
        { intros r w'' [= <- <-]. split; [congruence | discriminate]. }
        eexists _, _. split; [reflexivity | congruence].
    + subst run. split; [|reflexivity].
      intros r w'' [= <- <-]. split; [congruence | discriminate].
    + subst run. split; [discriminate | reflexivity].
  - subst run. split; [|reflexivity].
    intros r w'' [= <- <-]. split; [congruence | discriminate].
  - subst run. split; [|reflexivity].
    intros r w'' [= <- <-]. split; [congruence | discriminate].
Qed.

(** ** A ReAct run whose first answer asks for no tool *)

Lemma react_single_pass
    (llm : LLM) (py_str : pyval -> string)
    (extract_result : BaseAgent.t -> BaseMessage -> AgentState -> Result (pyval * list Decision))
    (self : BaseAgent.t) (agent_input : AgentInput) (st : AgentState)
    (response : BaseMessage) (w w1 : World) :
  in_task_id agent_input <> "" ->
  BaseAgent._prepare_initial_state self agent_input = Return st ->
  0 < cfg_max_iterations (BaseAgent.config self) ->
  BaseAgent.invoke_llm llm self (messages st) true w = Some (Return response, w1) ->
  msg_tool_calls response = [] ->
  BaseAgent.run (ReActAgent.execute llm py_str extract_result) self agent_input w
  = match extract_result self response st with
    | Return (_, extracted) =>
        Some (Return (BaseAgent.output self agent_input COMPLETED
                        (single_pass_result response) extracted None), w1)
    | Raise e =>
        if is_AgentError e then Some (Raise e, w1)
        else Some (Return (BaseAgent.output self agent_input FAILED (VDict ∅) []
                             (Some (exception_str e))), w1)
    end.
Proof.
  intros Hid Hst Hmax Hcall Htools.
  rewrite run_unfold, (try_body_valid _ self agent_input st w Hid Hst).
  unfold ReActAgent.execute, bind at 1.
  assert (Hfields : should_end st = false /\ iteration_count st = 0
                    /\ max_iterations st = cfg_max_iterations (BaseAgent.config self)
                    /\ tool_results st = ∅).
  { unfold BaseAgent._prepare_initial_state in Hst.
    destruct (BaseAgent._format_task_message self agent_input); [|discriminate].
    injection Hst as <-. repeat split. }
  destruct Hfields as (Hend & Hcount & Hlimit & Hresults).
  destruct (Z.to_nat (max_iterations st - iteration_count st)) as [|fuel] eqn:Hfuel;
    [lia|].
  cbn [ReActAgent.react_loop]. rewrite Hend.
  destruct (max_iterations st <=? iteration_count st) eqn:Hguard;
    [apply Z.leb_le in Hguard; lia|].
  unfold bind at 1. rewrite Hcall, Htools. unfold bind at 1, lift.
  destruct (extract_result self response st) as [[result extracted]|e].
  - unfold ret at 1. destruct fuel; cbn [ReActAgent.react_loop BaseAgent.update_state should_end];
      unfold ret; cbn [app]; do 3 f_equal;
      unfold ReActAgent.final_result, single_pass_result;
      unfold BaseAgent.update_state; cbn [messages tool_results iteration_count];
      rewrite last_snoc, Hresults, Hcount; reflexivity.
  - unfold raise. destruct (is_AgentError e); reflexivity.
Qed.

(** X22. When the first answer of the model asks for no tool, a ReAct run
    takes one pass: it returns a [COMPLETED] output whose result holds the
    text of the answer, no tool result and an iteration count of 1, and
    whose decisions are those that [extract_result] returns.  The result
    that [extract_result] returns is not part of the output.  An exception
    of [extract_result] that is not an [AgentError] turns the output into
    [FAILED] with the text of the exception. *)
Theorem react_answer_without_tool_calls
    (llm : LLM) (py_str : pyval -> string)
    (extract_result : BaseAgent.t -> BaseMessage -> AgentState -> Result (pyval * list Decision))
    (self : BaseAgent.t) (agent_input : AgentInput) (st : AgentState)
    (response : BaseMessage) (w w1 : World) :
  in_task_id agent_input <> "" ->
  BaseAgent._prepare_initial_state self agent_input = Return st ->
  0 < cfg_max_iterations (BaseAgent.config self) ->
  BaseAgent.invoke_llm llm self (messages st) true w = Some (Return response, w1) ->
  msg_tool_calls response = [] ->
  let run := BaseAgent.run (ReActAgent.execute llm py_str extract_result) self agent_input w in
  match extract_result self response st with
  | Return (_, extracted) =>
      run = Some (Return (BaseAgent.output self agent_input COMPLETED
                            (single_pass_result response) extracted None), w1)
  | Raise e =>
      is_AgentError e = false ->
      run = Some (Return (BaseAgent.output self agent_input FAILED (VDict ∅) []
                            (Some (exception_str e))), w1)
  end.
Proof.
  intros Hid Hst Hmax Hcall Htools run. subst run.
  rewrite (react_single_pass llm py_str extract_result self agent_input st response w w1
             Hid Hst Hmax Hcall Htools).
  destruct (extract_result self response st) as [[result extracted]|e]; [reflexivity|].
  now intros ->.
Qed.

(** X23. A strategy analyzer whose first answer asks for no tool never
    raises from [run].  When [json.loads] raises [JSONDecodeError] (or
    [IndexError] or [KeyError]) on the candidate text of the answer, the run
    is [COMPLETED] with no decision.  When it raises an exception of
    another class, such as [RecursionError], the run is [FAILED] with the
    text of that exception.  When it returns a value that is not an object
    (a list, a number, a string) the run is [FAILED] with the text of the
    [AttributeError], which names the type of the value. *)
Theorem strategy_analyzer_run_on_non_object
    (llm : LLM) (py_str : pyval -> string) (json_loads : string -> Result pyval)
    (self : BaseAgent.t) (agent_input : AgentInput) (st : AgentState)
    (response : BaseMessage) (w w1 : World) :
  in_task_id agent_input <> "" ->
  BaseAgent._prepare_initial_state self agent_input = Return st ->
  0 < cfg_max_iterations (BaseAgent.config self) ->
  BaseAgent.invoke_llm llm self (messages st) true w = Some (Return response, w1) ->
  msg_tool_calls response = [] ->
  let decoded := json_loads (strip (candidate_text (msg_content response))) in
  let run :=
    BaseAgent.run (ReActAgent.execute llm py_str
                     (StrategyAnalyzerAgent.extract_result json_loads))
      self agent_input w in
  (forall cls msg,
     decoded = Raise (PyError cls msg) ->
     (cls = "JSONDecodeError" \/ cls = "IndexError" \/ cls = "KeyError" ->
      run = Some (Return (BaseAgent.output self agent_input COMPLETED
                            (single_pass_result response) [] None), w1))
     /\ (cls <> "JSONDecodeError" -> cls <> "IndexError" -> cls <> "KeyError" ->
         run = Some (Return (BaseAgent.output self agent_input FAILED (VDict ∅) []
                               (Some msg)), w1)))
  /\ (forall v, decoded = Return v -> (forall o, v <> VDict o) ->
        run = Some (Return (BaseAgent.output self agent_input FAILED (VDict ∅) []
                              (Some ("'" +:+ type_name v
                                       +:+ "' object has no attribute 'get'"))), w1)).
Proof.
  intros Hid Hst Hmax Hcall Htools decoded run. subst run.
  rewrite (react_single_pass llm py_str _ self agent_input st response w w1
             Hid Hst Hmax Hcall Htools).
  unfold StrategyAnalyzerAgent.extract_result, StrategyAnalyzerAgent.extract_body.
  rewrite json_candidate_spec. fold decoded. split.
  - intros cls msg ->. cbn [StrategyAnalyzerAgent.handled]. split.
    + intros H.
      assert (Hh : bool_decide (cls = "JSONDecodeError") || bool_decide (cls = "IndexError")
                   || bool_decide (cls = "KeyError") = true).
      { rewrite !orb_true_iff, !bool_decide_eq_true. tauto. }
      now rewrite Hh.
    + intros H1 H2 H3.
      assert (Hh : bool_decide (cls = "JSONDecodeError") || bool_decide (cls = "IndexError")
                   || bool_decide (cls = "KeyError") = false).
      { rewrite !orb_false_iff, !bool_decide_eq_false. tauto. }
      now rewrite Hh.
  - intros v -> Hv. destruct v as [| | | | | |o]; try reflexivity. now destruct (Hv o).
Qed.

Lemma react_answer_without_tool_calls_witness :
  (in_task_id task_600519 <> ""
   /\ BaseAgent._prepare_initial_state analyst task_600519 = Return analyst_state
   /\ 0 < cfg_max_iterations (BaseAgent.config analyst)
   /\ BaseAgent.invoke_llm (llm_says "[1, 2]") analyst (messages analyst_state) true world0
      = Some (Return list_answer, world1)
   /\ msg_tool_calls list_answer = [])
  /\ BaseAgent.run (ReActAgent.execute (llm_says "[1, 2]") show ReActAgent.extract_result)
       analyst task_600519 world0
     = Some (Return (BaseAgent.output analyst task_600519 COMPLETED
                       (single_pass_result list_answer) [] None), world1).
Proof.
  assert (H1 : in_task_id task_600519 <> "") by discriminate.
  assert (H2 : BaseAgent._prepare_initial_state analyst task_600519 = Return analyst_state)
    by reflexivity.
  assert (H3 : 0 < cfg_max_iterations (BaseAgent.config analyst)) by reflexivity.
  assert (H4 : BaseAgent.invoke_llm (llm_says "[1, 2]") analyst (messages analyst_state)
                 true world0 = Some (Return list_answer, world1)) by reflexivity.
  assert (H5 : msg_tool_calls list_answer = []) by reflexivity.
  split; [repeat split; assumption|].
  exact (react_answer_without_tool_calls (llm_says "[1, 2]") show ReActAgent.extract_result
           analyst task_600519 analyst_state list_answer world0 world1 H1 H2 H3 H4 H5).
Defined.

Lemma strategy_analyzer_run_on_non_object_witness :
  (in_task_id task_600519 <> ""
   /\ BaseAgent._prepare_initial_state analyst task_600519 = Return analyst_state
   /\ 0 < cfg_max_iterations (BaseAgent.config analyst)
   /\ BaseAgent.invoke_llm (llm_says "[1, 2]") analyst (messages analyst_state) true world0
      = Some (Return list_answer, world1)
   /\ msg_tool_calls list_answer = []
   /\ Json.loads (strip (candidate_text (msg_content list_answer)))
      = Return (VList [VInt 1; VInt 2]))
  /\ BaseAgent.run (ReActAgent.execute (llm_says "[1, 2]") show
                      (StrategyAnalyzerAgent.extract_result Json.loads))
       analyst task_600519 world0
     = Some (Return (BaseAgent.output analyst task_600519 FAILED (VDict ∅) []
                       (Some "'list' object has no attribute 'get'")), world1).
Proof.
  assert (H1 : in_task_id task_600519 <> "") by discriminate.
  assert (H2 : BaseAgent._prepare_initial_state analyst task_600519 = Return analyst_state)
    by reflexivity.
  assert (H3 : 0 < cfg_max_iterations (BaseAgent.config analyst)) by reflexivity.
  assert (H4 : BaseAgent.invoke_llm (llm_says "[1, 2]") analyst (messages analyst_state)
                 true world0 = Some (Return list_answer, world1)) by reflexivity.
  assert (H5 : msg_tool_calls list_answer = []) by reflexivity.
  assert (H6 : Json.loads (strip (candidate_text (msg_content list_answer)))
               = Return (VList [VInt 1; VInt 2])) by (vm_compute; reflexivity).
  split; [repeat split; assumption|].
  apply (proj2 (strategy_analyzer_run_on_non_object (llm_says "[1, 2]") show Json.loads
                  analyst task_600519 analyst_state list_answer world0 world1
                  H1 H2 H3 H4 H5) (VList [VInt 1; VInt 2]) H6).
  discriminate.
Defined.

(** ** [Decision.to_dict] *)

(** X24. [Decision.to_dict] raises [TypeError] exactly when the stored
    confidence is not a number, which the constructor does not check (an
    agent stores whatever the model's answer held); the text of the error
    names the type of the stored value.  Otherwise it returns a dictionary
    with the nine keys of the class, in which [decision_type] is the value
    of the kind, [confidence_level] is the name of the tier of the stored
    confidence, [timestamp] is the text of the time stamp and the other
    entries are the fields as stored. *)
Theorem decision_to_dict_cases (self : Decision) (timestamp : string) :
  match py_number (confidence self) with
  | None =>
      Decision_to_dict self timestamp
      = Raise (PyError "TypeError"
                 ("'>=' not supported between instances of '"
                    +:+ type_name (confidence self) +:+ "' and 'float'"))
  | Some c =>
      exists o,
        Decision_to_dict self timestamp = Return o
        /\ dom o = decision_keys
        /\ o !! "decision_type" = Some (VStr (DecisionType_value (decision_type self)))
        /\ o !! "symbol" = Some (symbol self)
        /\ o !! "confidence" = Some (confidence self)
        /\ o !! "confidence_level" = Some (VStr (ConfidenceLevel_value (confidence_level c)))
        /\ o !! "reasoning" = Some (reasoning self)
        /\ o !! "risk_factors" = Some (risk_factors self)
        /\ o !! "supporting_data" = Some (VDict (supporting_data self))
        /\ o !! "recommended_action" = Some (recommended_action self)
        /\ o !! "timestamp" = Some (VStr timestamp)
  end.
Proof.
  unfold Decision_to_dict, Decision_confidence_level.
  destruct (py_number (confidence self)) as [c|]; [|reflexivity].
  eexists. split; [reflexivity|]. split.
  - unfold decision_keys. rewrite !dom_insert_L, dom_empty_L. set_solver.
  - repeat split;
      repeat (first [apply lookup_insert_eq | rewrite lookup_insert_ne by discriminate]).
Qed.

(** ** The model calls of a ReAct run *)

Lemma invoke_llm_calls
    (llm : LLM) (self : BaseAgent.t) (msgs : list BaseMessage) (use_tools : bool)
    (w : World) :
  exists r w',
    BaseAgent.invoke_llm llm self msgs use_tools w = Some (r, w')
    /\ (llm_calls w <= llm_calls w'
        <= llm_calls w + Z.to_nat (cfg_max_retries (BaseAgent.config self)))%nat
    /\ match r with
       | Done (Return _) => (llm_calls w < llm_calls w')%nat
       | _ => True
       end.
Proof.
  destruct (invoke_llm_spec llm self (BaseAgent.bound_tools self use_tools) msgs
              use_tools w eq_refl) as (r & w' & Hrun & _ & _ & Hr).
  exists r, w'. split; [exact Hrun|]. destruct r as [[response|e]|]; cbn in Hr.
  - destruct Hr as (j & reply & Hj & _ & Hcalls & _). split; lia.
  - destruct Hr as [(Hcalls & _)|(j & Hj & _ & Hcalls & _)]; (split; [lia | exact I]).
  - destruct Hr as (_ & j & Hj & _ & Hcalls & _). split; [lia | exact I].
Qed.

Lemma execute_tool_calls_keeps_llm_calls (self : BaseAgent.t) (tcs : list ToolCallReq) :
  forall w, exists r w',
    ReActAgent._execute_tool_calls self tcs w = Some (r, w')
    /\ llm_calls w' = llm_calls w
    /\ forall e, r <> Raise e.
Proof.
  induction tcs as [|tc tcs IH]; intros w.
  - exists (Done (Return [])), w. split; [reflexivity|]. split; [reflexivity | discriminate].
  - cbn [ReActAgent._execute_tool_calls]. unfold bind at 1.
    pose proof (execute_tool_call_result self tc w) as Hcall. cbv zeta in Hcall.
    destruct (BaseAgent.get_tool self (tc_name tc)) as [tool|]; rewrite Hcall; clear Hcall;
      [destruct (bool_decide (cancel_at w = Some (length (log w))));
         [eexists _, _; split; [reflexivity|]; split; [reflexivity | discriminate]|]|];
      cbv beta iota; unfold bind at 1;
      match goal with |- context [ReActAgent._execute_tool_calls self tcs ?w0] =>
        destruct (IH w0) as (r & w' & Hrun & Hllm & Hno) end;
      rewrite Hrun; destruct r as [[results|e]|];
      try (now destruct (Hno e));
      (eexists _, _; split; [reflexivity|]; split; [exact Hllm | discriminate]).
Qed.

Section ReActBudget.
Variable llm : LLM.
Variable py_str : pyval -> string.
Variable extract_result :
  BaseAgent.t -> BaseMessage -> AgentState -> Result (pyval * list Decision).
Variable self : BaseAgent.t.

Let retries : nat := Z.to_nat (cfg_max_retries (BaseAgent.config self)).

(** The passes the loop can still make from a state. *)
Let passes_left (st : AgentState) : nat :=
  if should_end st then 0%nat else Z.to_nat (max_iterations st - iteration_count st).

Lemma react_loop_budget (fuel : nat) :
  forall (st : AgentState) (ds : list Decision) (w : World),
    (Z.to_nat (max_iterations st - iteration_count st) <= fuel)%nat ->
    exists r w',
      ReActAgent.react_loop llm py_str extract_result fuel self st ds w = Some (r, w')
      /\ (llm_calls w <= llm_calls w' <= llm_calls w + passes_left st * retries)%nat
      /\ match r with
         | Done (Return (st', _)) =>
             (llm_calls w + Z.to_nat (iteration_count st' - iteration_count st)
              <= llm_calls w')%nat
         | _ => True
         end.
Proof.
  induction fuel as [|fuel IH]; intros st ds w Hfuel; cbn [ReActAgent.react_loop];
    unfold passes_left; destruct (should_end st) eqn:Hend;
    try (eexists _, _; split; [reflexivity|]; split; [lia|]; lia);
    destruct (max_iterations st <=? iteration_count st) eqn:Hguard;
    try (eexists _, _; split; [reflexivity|]; split; [lia | exact I]);
    apply Z.leb_gt in Hguard; [lia|].
  assert (Hpasses : Z.to_nat (max_iterations st - iteration_count st)
                    = S (Z.to_nat (max_iterations st - (iteration_count st + 1)))) by lia.
  rewrite Hpasses. cbn [Nat.mul].
  remember (Z.to_nat (max_iterations st - (iteration_count st + 1)) * retries)%nat
    as later eqn:Hlater.
  unfold bind at 1.
  destruct (invoke_llm_calls llm self (messages st) true w)
    as ([[response|e]|] & w1 & -> & Hcalls1 & Hmade);
    fold retries in Hcalls1;
    [|eexists _, _; split; [reflexivity|]; split; [lia | exact I]
     |eexists _, _; split; [reflexivity|]; split; [lia | exact I]].
  destruct (msg_tool_calls response) as [|tc tcs] eqn:Htcs.
  - unfold bind at 1, lift.
    destruct (extract_result self response st) as [[res extracted]|e];
      [|eexists _, _; split; [reflexivity|]; split; [lia | exact I]].
    unfold ret at 1.
    match goal with |- context [ReActAgent.react_loop _ _ _ fuel self ?s ?d ?w0] =>
      destruct (IH s d w0) as (r & w' & Hrun & Hbound & Hr); [cbn; lia|];
      exists r, w'; split; [exact Hrun|] end.
    unfold passes_left in Hbound.
    cbn [BaseAgent.update_state should_end Nat.mul] in Hbound.
    split; [lia|]. destruct r as [[[st' ds']|]|]; [|exact I|exact I].
    cbn [BaseAgent.update_state iteration_count] in Hr. lia.
  - unfold bind at 1.
    destruct (execute_tool_calls_keeps_llm_calls self (tc :: tcs) w1)
      as ([[results|e]|] & w2 & -> & Hllm2 & Hno);
      [|now destruct (Hno e)
       |eexists _, _; split; [reflexivity|]; split; [lia | exact I]].
    match goal with |- context [ReActAgent.react_loop _ _ _ fuel self ?s ?d ?w0] =>
      destruct (IH s d w0) as (r & w' & Hrun & Hbound & Hr); [cbn; lia|];
      exists r, w'; split; [exact Hrun|] end.
    unfold passes_left in Hbound.
    cbn [BaseAgent.update_state should_end max_iterations iteration_count] in Hbound.
    rewrite ?Hend, <- ?Hlater in Hbound.
    split; [lia|]. destruct r as [[[st' ds']|]|]; [|exact I|exact I].
    cbn [BaseAgent.update_state iteration_count] in Hr. lia.
Qed.
End ReActBudget.

(** X25. A ReAct run, whether it returns or raises, calls the model at most
    [max_iterations * max_retries] times; and a run that returns a result
    with an iteration count has called the model at least that many
    times. *)
Theorem react_run_model_call_budget
    (llm : LLM) (py_str : pyval -> string)
    (extract_result : BaseAgent.t -> BaseMessage -> AgentState -> Result (pyval * list Decision))
    (self : BaseAgent.t) (agent_input : AgentInput) (w : World) :
  let run := BaseAgent.run (ReActAgent.execute llm py_str extract_result) self agent_input w in
  let budget := (Z.to_nat (cfg_max_iterations (BaseAgent.config self))
                 * Z.to_nat (cfg_max_retries (BaseAgent.config self)))%nat in
  exists r w',
    run = Some (r, w')
    /\ (llm_calls w <= llm_calls w' <= llm_calls w + budget)%nat
    /\ (forall out d n,
          r = Return out -> out_result out = VDict d ->
          d !! "iteration_count" = Some (VInt n) ->
          (llm_calls w + Z.to_nat n <= llm_calls w')%nat).
Proof.
  intros run budget. subst run. rewrite run_unfold.
  destruct (decide (in_task_id agent_input = "")) as [Hid|Hid].
  { rewrite (try_body_invalid _ self agent_input w Hid). cbn.
    eexists _, _. split; [reflexivity|]. split; [lia | discriminate]. }
  destruct (BaseAgent._prepare_initial_state self agent_input) as [st|e] eqn:Hst.
  2:{ unfold BaseAgent.try_body, bind.
      rewrite (validate_input_nonempty self agent_input Hid), Hst. cbn.
      destruct (is_AgentError e); eexists _, _; (split; [reflexivity|]);
        (split; [lia|]); [discriminate|].
      intros out d n [= <-]. cbn. intros [= <-]. now rewrite lookup_empty. }
  rewrite (try_body_valid _ self agent_input st w Hid Hst).
  destruct (prepare_initial_state_fields self agent_input st Hst) as (Hcount & Hend & Hmax).
  unfold ReActAgent.execute, bind.
  destruct (react_loop_budget llm py_str extract_result self
              (Z.to_nat (max_iterations st - iteration_count st)) st [] w)
    as (r & w' & -> & Hbound & Hr); [lia|].
  rewrite Hend, Hmax, Hcount, Z.sub_0_r in Hbound. fold budget in Hbound.
  destruct r as [[[st' ds]|e]|].
  - unfold ret. eexists _, _. split; [reflexivity|]. split; [exact Hbound|].
    intros out d n [= <-]. cbn [out_result BaseAgent.output].
    destruct (final_result_iteration_count st') as (d' & -> & Hlook).
    intros [= <-]. rewrite Hlook. intros [= <-]. rewrite Hcount in Hr.
    replace (iteration_count st' - 0) with (iteration_count st') in Hr by lia. exact Hr.
  - destruct (is_AgentError e); eexists _, _; (split; [reflexivity|]);
      (split; [exact Hbound|]); [discriminate|].
    intros out d n [= <-]. cbn. intros [= <-]. now rewrite lookup_empty.
  - eexists _, _. split; [reflexivity|]. split; [exact Hbound | discriminate].
Qed.

(** ** The supervisor and the orchestrator's plan *)

Lemma parse_body_spec (json_loads : string -> Result pyval) (content : string) :
  OrchestratorAgent.parse_body json_loads content
  = json_loads (strip (candidate_text content)).
Proof.
  unfold OrchestratorAgent.parse_body. rewrite json_candidate_spec.
  now destruct (json_loads (strip (candidate_text content))).
Qed.

Lemma orchestrator_handled (e : exception) :
  OrchestratorAgent.handled e = true <-> decode_failure e.
Proof.
  unfold decode_failure. destruct e as [code msg id type details cause|cls msg]; cbn.
  - split; [discriminate | now intros (cls & m & [=] & _)].
  - rewrite !orb_true_iff, !bool_decide_eq_true. split.
    + intros H. exists cls, msg. split; [reflexivity | tauto].
    + intros (cls' & msg' & [= -> ->] & H). tauto.
Qed.

(** X26. The supervisor makes one helper call, without the tools, on the
    messages of the state followed by its check message, and returns no
    decision.  When [json.loads] raises [JSONDecodeError] (or [IndexError])
    on the candidate text of the answer the supervisor does not fail: it
    returns the default result, whose action is [approve] and whose quality
    score is 0.5, with no issue and no recommendation and with the answer
    as [raw_response].  When the answer decodes, the decoded value is the
    result, whatever its JSON type.  The supervisor raises what the helper
    raises, [LLM_ERROR] or the [OverflowError] of a waiting time, and any
    other exception of [json.loads], such as [RecursionError]; a
    cancellation of the helper call ends it. *)
Theorem supervisor_approves_by_default
    (llm : LLM) (json_dumps : pyval -> string) (json_loads : string -> Result pyval)
    (self : BaseAgent.t) (st : AgentState) (agent_input : AgentInput) (w : World) :
  let msgs :=
    messages st
    ++ [HumanMessage (SupervisorAgent.check_message json_dumps agent_input
                        (agent_outputs st))] in
  let executed := SupervisorAgent.execute llm json_dumps json_loads self st agent_input w in
  match BaseAgent.invoke_llm llm self msgs false w with
  | Some (Done (Return response), w1) =>
      let content := msg_content response in
      match json_loads (strip (candidate_text content)) with
      | Return decoded => executed = Some (Return (decoded, []), w1)
      | Raise e =>
          (decode_failure e ->
           exists o,
             executed = Some (Return (VDict o, []), w1)
             /\ dom o = ({["quality_score"; "issues_found"; "recommendations"; "action";
                           "raw_response"]} : gset string)
             /\ o !! "quality_score" = Some (VFloat (1 # 2))
             /\ o !! "issues_found" = Some (VList [])
             /\ o !! "recommendations" = Some (VList [])
             /\ o !! "action" = Some (VStr "approve")
             /\ o !! "raw_response" = Some (VStr content))
          /\ (~ decode_failure e -> executed = Some (Raise e, w1))
      end
  | Some (Done (Raise e), w1) =>
      executed = Some (Raise e, w1)
      /\ (error_code e = Some LLM_ERROR
          \/ (1025 < cfg_max_retries (BaseAgent.config self)
              /\ e = PyError "OverflowError" "int too large to convert to float"))
  | Some (Cancelled, w1) => executed = Some (Cancelled, w1) /\ cancel_at w <> None
  | None => False
  end.
Proof.
  intros msgs executed. subst executed. unfold SupervisorAgent.execute. fold msgs.
  unfold bind.
  destruct (invoke_llm_outcome llm self msgs false w)
    as ([[response|e]|] & w1 & -> & _ & _ & _ & Hr);
    [|split; [reflexivity | exact Hr] | split; [reflexivity | exact Hr]].
  cbv zeta. unfold lift, SupervisorAgent.parse_result.
  rewrite parse_body_spec.
  destruct (json_loads (strip (candidate_text (msg_content response)))) as [decoded|e];
    [reflexivity|].
  destruct (OrchestratorAgent.handled e) eqn:Hhandled.
  - split.
    + intros _. eexists. split; [reflexivity|]. split.
      * unfold SupervisorAgent.default_result. rewrite !dom_insert_L, dom_empty_L.
        set_solver.
      * repeat split;
          repeat (first [apply lookup_insert_eq | rewrite lookup_insert_ne by discriminate]).
    + intros Hnot. exfalso. apply Hnot. now apply orchestrator_handled.
  - split; [|reflexivity]. intros Hfail. apply orchestrator_handled in Hfail. congruence.
Qed.

(** X27. The orchestrator's [_parse_plan] returns the value that
    [json.loads] decodes from the candidate text of the answer, of whatever
    JSON type.  When [json.loads] raises [JSONDecodeError] (or
    [IndexError]) it returns the default plan, which names the agents
    [technical_analyst] and [risk_assessor], in this order, for sequential
    execution; any other exception of [json.loads], such as
    [RecursionError], leaves [_parse_plan]. *)
Theorem parse_plan_falls_back_to_default_plan
    (json_loads : string -> Result pyval) (response : BaseMessage) :
  let parsed := OrchestratorAgent._parse_plan json_loads response in
  match json_loads (strip (candidate_text (msg_content response))) with
  | Return decoded => parsed = Return decoded
  | Raise e =>
      (decode_failure e ->
       exists o,
         parsed = Return (VDict o)
         /\ dom o = ({["analysis_type"; "agents_to_call"; "execution_order";
                       "reasoning"]} : gset string)
         /\ o !! "analysis_type" = Some (VStr "default")
         /\ o !! "agents_to_call"
            = Some (VList [VStr "technical_analyst"; VStr "risk_assessor"])
         /\ o !! "execution_order" = Some (VStr "sequential")
         /\ o !! "reasoning" = Some (VStr "使用默认执行计划"))
      /\ (~ decode_failure e -> parsed = Raise e)
  end.
Proof.
  intros parsed. subst parsed. unfold OrchestratorAgent._parse_plan.
  rewrite parse_body_spec.
  destruct (json_loads (strip (candidate_text (msg_content response)))) as [decoded|e];
    [reflexivity|].
  destruct (OrchestratorAgent.handled e) eqn:Hhandled.
  - split.
    + intros _. eexists. split; [reflexivity|]. split.
      * rewrite !dom_insert_L, dom_empty_L. set_solver.
      * repeat split;
          repeat (first [apply lookup_insert_eq | rewrite lookup_insert_ne by discriminate]).
    + intros Hnot. exfalso. apply Hnot. now apply orchestrator_handled.
  - split; [|reflexivity]. intros Hfail. apply orchestrator_handled in Hfail. congruence.
Qed.

(** ** The standard decision flow *)

Lemma node_input_is_Some (state : pydict) (task_type task_type' : string)
    (context context' : pydict) :
  is_Some (StrategyDecisionWorkflow.node_input state task_type context) ->
  is_Some (StrategyDecisionWorkflow.node_input state task_type' context').
Proof.
  unfold StrategyDecisionWorkflow.node_input.
  destruct (default (VStr "") (state !! "task_id")); try (now intros [? [=]]).
  destruct (default (VDict ∅) (state !! "task_input"));
    first [now intros [? [=]] | eauto].
Qed.

Lemma node_input_with_outputs (state : pydict) (v : pyval) (task_type : string)
    (context : pydict) :
  StrategyDecisionWorkflow.node_input (<["agent_outputs" := v]> state) task_type context
  = StrategyDecisionWorkflow.node_input state task_type context.
Proof.
  unfold StrategyDecisionWorkflow.node_input.
  now rewrite !lookup_insert_ne by discriminate.
Qed.

Lemma with_outputs_raises (state : pydict) (new_outputs : option pydict) :
  is_Some (state !! "agent_outputs") ->
  exists e, StrategyDecisionWorkflow.with_outputs state new_outputs = Some (Raise e).
Proof.
  intros [v Hv]. unfold StrategyDecisionWorkflow.with_outputs. rewrite Hv. eauto.
Qed.

Lemma collect_data_never_returns
    (data_collector : StrategyDecisionWorkflow.Agent) (state : pydict) :
  is_Some (StrategyDecisionWorkflow.node_input state "data_collection" ∅) ->
  is_Some (state !! "agent_outputs") ->
  never_returns (StrategyDecisionWorkflow.collect_data data_collector state).
Proof.
  intros [agent_input Hinput] Houts. unfold StrategyDecisionWorkflow.collect_data.
  rewrite Hinput. eexists. split; [reflexivity|].
  intros w r w'. unfold bind, lift.
  destruct (StrategyDecisionWorkflow.run data_collector agent_input w)
    as [[[[output|e]|] w1]|];
    [| intros [= <- <-]; eauto | intros [= <- <-]; eauto | discriminate].
  destruct (MultiAgentWorkflow.dict_of_entry state "agent_outputs") as [outs|e];
    [|unfold raise; intros [= <- <-]; eauto].
  unfold ret, settle.
  destruct (with_outputs_raises state
              (insert "data_collector" (out_result output) <$> outs) Houts) as [e ->].
  unfold lift, raise. intros [= <- <-]. eauto.
Qed.

Lemma analyze_never_returns
    (analyzers : list StrategyDecisionWorkflow.Agent) (state : pydict) :
  is_Some (StrategyDecisionWorkflow.node_input state "analysis" ∅) ->
  is_Some (state !! "agent_outputs") ->
  never_returns (StrategyDecisionWorkflow.analyze analyzers state).
Proof.
  intros [typed Hinput] Houts. unfold StrategyDecisionWorkflow.analyze.
  rewrite Hinput. eexists. split; [reflexivity|].
  intros w r w'. unfold bind at 1, lift.
  destruct (py_get (default (VDict ∅) (state !! "agent_outputs")) "data_collector"
              (VDict ∅)) as [collected|e];
    [|unfold raise; intros [= <- <-]; eauto].
  unfold ret at 1. unfold bind at 1.
  destruct (StrategyDecisionWorkflow.run_analyzers analyzers _ w)
    as [[[[results|e]|] w1]|];
    [| intros [= <- <-]; eauto | intros [= <- <-]; eauto | discriminate].
  unfold bind.
  destruct (MultiAgentWorkflow.dict_of_entry state "agent_outputs") as [outs|e];
    [|unfold raise; intros [= <- <-]; eauto].
  unfold ret, settle.
  destruct (with_outputs_raises state
              (insert "analysis" (VDict (StrategyDecisionWorkflow.dict_of_pairs results))
                 <$> outs)
              Houts) as [e ->].
  unfold lift, raise. intros [= <- <-]. eauto.
Qed.

(** X28. The nodes of the standard decision flow rebuild the state with
    [agent_outputs] given once more as a keyword, so neither [collect_data]
    nor [analyze] ever returns on a state that already has an
    [agent_outputs] entry (the agents are run first, then the node raises).
    A state that [collect_data] returns has that entry, holding the
    collector's result under [data_collector]; so [analyze], the next node
    of the flow, never returns on it: the flow cannot get past its second
    node. *)
Theorem standard_flow_stops_at_analyze
    (data_collector : StrategyDecisionWorkflow.Agent)
    (analyzers : list StrategyDecisionWorkflow.Agent) (state : pydict) :
  is_Some (StrategyDecisionWorkflow.node_input state "data_collection" ∅) ->
  (is_Some (state !! "agent_outputs") ->
   never_returns (StrategyDecisionWorkflow.collect_data data_collector state)
   /\ never_returns (StrategyDecisionWorkflow.analyze analyzers state))
  /\ exists collect,
       StrategyDecisionWorkflow.collect_data data_collector state = Some collect
       /\ forall w state1 w1,
            collect w = Some (Return state1, w1) ->
            state !! "agent_outputs" = None
            /\ (exists output,
                  state1 = <["agent_outputs" :=
                               VDict (<["data_collector" := out_result output]> ∅)]> state)
            /\ never_returns (StrategyDecisionWorkflow.analyze analyzers state1).
Proof.
  intros Hinput. split.
  - intros Houts. split; [now apply collect_data_never_returns|].
    apply analyze_never_returns; [|exact Houts].
    now apply (node_input_is_Some state "data_collection" "analysis" ∅ ∅).
  - destruct Hinput as [agent_input Hinput].
    unfold StrategyDecisionWorkflow.collect_data. rewrite Hinput.
    eexists. split; [reflexivity|]. intros w state1 w1. unfold bind, lift.
    destruct (StrategyDecisionWorkflow.run data_collector agent_input w)
      as [[[[output|e]|] w0]|]; [| discriminate | discriminate | discriminate].
    destruct (state !! "agent_outputs") as [v|] eqn:Houts.
    + destruct (MultiAgentWorkflow.dict_of_entry state "agent_outputs") as [outs|e];
        [|unfold raise; discriminate].
      unfold ret, settle.
      destruct (with_outputs_raises state
                  (insert "data_collector" (out_result output) <$> outs))
        as [e ->]; [rewrite Houts; eauto|].
      unfold lift, raise. discriminate.
    + unfold MultiAgentWorkflow.dict_of_entry, StrategyDecisionWorkflow.with_outputs.
      rewrite Houts. unfold ret, settle. cbn [fmap option_fmap option_map lift].
      unfold ret. intros [= <- <-]. split; [reflexivity|]. split; [eauto|].
      apply analyze_never_returns.
      * rewrite node_input_with_outputs.
        apply (node_input_is_Some state "data_collection" "analysis" ∅ ∅). eauto.
      * rewrite lookup_insert_eq. eauto.
Qed.

Lemma standard_flow_stops_at_analyze_witness :
  is_Some (StrategyDecisionWorkflow.node_input fresh_state "data_collection" ∅)
  /\ exists collect,
       StrategyDecisionWorkflow.collect_data quote_collector fresh_state = Some collect
       /\ forall w state1 w1,
            collect w = Some (Return state1, w1) ->
            fresh_state !! "agent_outputs" = None
            /\ (exists output,
                  state1 = <["agent_outputs" :=
                               VDict (<["data_collector" := out_result output]> ∅)]>
                             fresh_state)
            /\ never_returns (StrategyDecisionWorkflow.analyze [trend_analyzer] state1).
Proof.
  assert (H : is_Some (StrategyDecisionWorkflow.node_input fresh_state
                         "data_collection" ∅)) by (eexists; reflexivity).
  split; [exact H|].
  exact (proj2 (standard_flow_stops_at_analyze quote_collector [trend_analyzer]
                  fresh_state H)).
Defined.
